(** * Master-stack layout engine of the yabai master-stack plugin

    A shallow embedding of the windows manager object built by
    [createWindowsManager] (geometry classifier, dividing-line locator,
    layout validator, layout rebalancer) and of the top-level error handler
    of [utils/main.ts], followed by the properties proved about them.

    Conventions of the embedding
    - JavaScript numbers that hold pixel coordinates, ids and counts are
      integers of [Z].
    - The external tiling manager is a parameter: an abstract [World], a
      partial transition [runCommand] (a command whose process exits
      non-zero raises) and a partial query [queryWindows] (a query that
      exits non-zero or whose output does not parse raises).  The state of
      the external manager moves by the commands of the manager only.
    - Every query builds fresh JavaScript objects.  Object identity ([===])
      is modelled by an address stored next to the window's data.
    - A method that only reads the manager's fields is a function of the
      manager, into [option] when it can raise; a method that issues
      commands lives in the monad [M] of the machine.
    - [while] loops take fuel; running out of it is the outcome
      [OutOfFuel], distinct from returning and from raising.
    - [console.log] output of the manager is not modelled. *)

From Stdlib Require Import String ZArith List Bool Lia Permutation Sorted Arith.
Import ListNotations.
Open Scope Z_scope.

(** ** Data model *)

Inductive Split : Type := horizontal | vertical | none.

Definition Split_eqb (a b : Split) : bool :=
  match a, b with
  | horizontal, horizontal | vertical, vertical | none, none => true
  | _, _ => false
  end.

Module Frame.
Record t : Type := mk { x : Z; y : Z; w : Z; h : Z }.
End Frame.

(** The JSON value yabai prints for one window (the fields the code reads). *)
Record Window : Type := mkWindow {
  id : Z;
  pid : Z;
  app : string;
  frame : Frame.t;
  split : Split;
  focused : Z
}.

(** A window object of one snapshot: its data and its identity. *)
Record WindowObj : Type := mkObj {
  addr : nat;
  data :> Window
}.

Definition fx (window : Window) : Z := Frame.x (frame window).
Definition fy (window : Window) : Z := Frame.y (frame window).
Definition fw (window : Window) : Z := Frame.w (frame window).

(** [window1 === window2] on objects. *)
Definition sameObject (a b : WindowObj) : bool := Nat.eqb (addr a) (addr b).

(** Objects allocated for the result of one query. *)
Fixpoint allocate (next : nat) (ws : list Window) : list WindowObj :=
  match ws with
  | [] => []
  | win :: rest => mkObj next win :: allocate (S next) rest
  end.

(** What [isValidLayout] returns: [{ status: true }] or
    [{ status: false, reason }], the reason kept structured. *)
Inductive Reason : Type :=
| MainCountMismatch (curNumMainWindows expected : Z)
| MiddleWindowDetected (name : string).

Inductive Validity : Type :=
| Valid
| Invalid (reason : Reason).

(** ** Array helpers *)

(** [Array.prototype.sort] with a comparator: a stable sort, smaller first. *)
Fixpoint insertBy {A : Type} (cmp : A -> A -> Z) (a : A) (l : list A) : list A :=
  match l with
  | [] => [a]
  | b :: rest => if cmp a b <=? 0 then a :: b :: rest else b :: insertBy cmp a rest
  end.

Definition sort {A : Type} (cmp : A -> A -> Z) (l : list A) : list A :=
  fold_right (insertBy cmp) [] l.

(** [Array.prototype.pop]: the last element and the shortened array. *)
Definition pop {A : Type} (l : list A) : option (A * list A) :=
  match rev l with
  | [] => None
  | a :: r => Some (a, rev r)
  end.

(** [Array.prototype.filter] with a callback that may raise. *)
Fixpoint filterE {A : Type} (p : A -> option bool) (l : list A) : option (list A) :=
  match l with
  | [] => Some []
  | a :: rest =>
      match p a with
      | None => None
      | Some b =>
          match filterE p rest with
          | None => None
          | Some r => Some (if b then a :: r else r)
          end
      end
  end.

(** ** Geometry classifier and dividing-line locator

    Pure methods of the manager object [this]. *)

(** The fields of the object returned by [createWindowsManager]. *)
Record WindowsManager : Type := mkWM {
  expectedCurrentNumMainWindows : Z;
  windowsData : list WindowObj
}.

Section Geometry.

Variable this : WindowsManager.

Definition isStackWindow (window : Window) : bool := fx window =? 0.

(** [None]: the snapshot is empty and reading [windowsData[0].frame] raises
    a TypeError. *)
Definition getTopRightWindow : option WindowObj :=
  match (windowsData this) with
  | [] => None
  | first :: _ =>
      let lowestYCoordinate :=
        fold_left (fun lowest (window : WindowObj) => if fy window <? lowest then fy window else lowest)
                  (windowsData this) (fy first) in
      let topWindows := filter (fun window : WindowObj => fy window =? lowestYCoordinate) (windowsData this) in
      match topWindows with
      | [] => None
      | top0 :: _ =>
          Some (fold_left (fun (topRightWindow window : WindowObj) =>
                             if fx window >? fx topRightWindow then window else topRightWindow)
                          topWindows top0)
      end
  end.

(** [None] is JavaScript's [undefined]: no window touches the left edge. *)
Definition getTopLeftWindow : option WindowObj :=
  let leftWindows := filter (fun window : WindowObj => fx window =? 0) (windowsData this) in
  match leftWindows with
  | [] => None
  | left0 :: _ =>
      Some (fold_left (fun (topLeftWindow window : WindowObj) =>
                         if fy window <=? fy topLeftWindow then window else topLeftWindow)
                      leftWindows left0)
  end.

Definition nonStackWindows : list WindowObj :=
  filter (fun window : WindowObj => negb (isStackWindow window)) (windowsData this).

Definition eligibleWindows (topRightWindow : WindowObj) : list WindowObj :=
  sort (fun window1 window2 : WindowObj => fx window2 - fx window1)
       (filter (fun window : WindowObj => fx window <=? fx topRightWindow) nonStackWindows).

Definition numWindowsToRightOfTopRightWindow (topRightWindow : WindowObj) : Z :=
  Z.of_nat (length nonStackWindows) - Z.of_nat (length (eligibleWindows topRightWindow)).

(** The [for] loop over adjacent pairs, from index [i] on; [eligible] is the
    part of the array from index [i]. *)
Fixpoint pairLoop (numRight : Z) (eligible : list WindowObj) (i : Z) : option Z :=
  match eligible with
  | curWindow :: ((nextWindow :: _) as rest) =>
      if (fx curWindow =? fx nextWindow)
         && (numRight + i + 2 >=? (expectedCurrentNumMainWindows this))
      then Some (fx curWindow)
      else pairLoop numRight rest (i + 1)
  | _ => None
  end.

Definition getDividingLineXCoordinate : option Z :=
  match getTopRightWindow with
  | None => None
  | Some topRightWindow =>
      if (expectedCurrentNumMainWindows this) =? 1 then Some (fx topRightWindow)
      else
        let numRight := numWindowsToRightOfTopRightWindow topRightWindow in
        if numRight >=? (expectedCurrentNumMainWindows this) then Some (fx topRightWindow)
        else
          match pairLoop numRight (eligibleWindows topRightWindow) 0 with
          | Some xCoordinate => Some xCoordinate
          | None => Some (fx topRightWindow)
          end
  end.

Definition isMainWindow (window : Window) : option bool :=
  match getDividingLineXCoordinate with
  | None => None
  | Some dividingLineXCoordinate => Some (fx window >=? dividingLineXCoordinate)
  end.

Definition isMiddleWindow (window : Window) : option bool :=
  if negb (isStackWindow window)
  then match isMainWindow window with
       | None => None
       | Some main => Some (negb main)
       end
  else Some false.

Definition getMiddleWindows : option (list WindowObj) :=
  filterE (fun window : WindowObj => isMiddleWindow window) (windowsData this).

Definition getMainWindows : option (list WindowObj) :=
  match getDividingLineXCoordinate with
  | None => None
  | Some dividingLineXCoordinate =>
      Some (filter (fun window : WindowObj => fx window >=? dividingLineXCoordinate) (windowsData this))
  end.

Definition getStackWindows : list WindowObj :=
  filter (fun window : WindowObj => isStackWindow window) (windowsData this).

(** The widest window of a list, the first one on ties; [None] is
    [undefined]. *)
Definition widest (windows : list WindowObj) : option WindowObj :=
  fold_left (fun (widestWindow : option WindowObj) (window : WindowObj) =>
               match widestWindow with
               | None => Some window
               | Some cur => if fw window >? fw cur then Some window else Some cur
               end)
            windows None.

Definition getWidestStackWindow : option WindowObj := widest getStackWindows.

(** Outer [None]: [getMainWindows] raised. *)
Definition getWidestMainWindow : option (option WindowObj) :=
  match getMainWindows with
  | None => None
  | Some mainWindows => Some (widest mainWindows)
  end.

Definition doesStackExist : option bool :=
  match getTopRightWindow with
  | None => None
  | Some topRightWindow => Some (negb (fx topRightWindow =? 0))
  end.

Definition getUpdatedWindowData (window : Window) : option WindowObj :=
  find (fun win : WindowObj => id window =? id win) (windowsData this).

(** *** Layout validator *)

(** The [for] loop of [isValidLayout] looking for a middle window. *)
Fixpoint middleCheck (windows : list WindowObj) : option Validity :=
  match windows with
  | [] => Some Valid
  | window :: rest =>
      match isMiddleWindow window with
      | None => None
      | Some true => Some (Invalid (MiddleWindowDetected (app window)))
      | Some false => middleCheck rest
      end
  end.

Definition isValidLayout (targetNumMainWindows : option Z) : option Validity :=
  let target := match targetNumMainWindows with
                | Some t => t
                | None => (expectedCurrentNumMainWindows this)
                end in
  match getMainWindows with
  | None => None
  | Some mainWindows =>
      let curNumMainWindows := Z.of_nat (length mainWindows) in
      if negb (target =? curNumMainWindows)
      then Some (Invalid (MainCountMismatch curNumMainWindows (expectedCurrentNumMainWindows this)))
      else middleCheck (windowsData this)
  end.

End Geometry.

(** ** Further methods of the manager: lookups and extremes *)

(** The errors [getWindowData] throws. *)
Inductive LookupError : Type :=
| MustProvideKey                        (* 'Must provide at least one of ...' *)
| PidNotFound (processId : string)      (* `Window with pid ${processId} not found.` *)
| IdNotFound (windowId : string).       (* `Window with id ${windowId} not found.` *)

Section Lookups.

Variable this : WindowsManager.

(** [Number(s)] on a string, as far as it matters for comparing with the
    integer [pid] and [id] of a window: [None] stands for [NaN] and for any
    value that is not an integer. *)
Variable toNumber : string -> option Z.

(** [window.field === Number(key)], with [Number(undefined)] being [NaN]. *)
Definition equalsKey (field : Z) (key : option string) : bool :=
  match key with
  | None => false
  | Some text =>
      match toNumber text with
      | None => false
      | Some number => field =? number
      end
  end.

(** [`${key}`] in a template string. *)
Definition showKey (key : option string) : string :=
  match key with
  | Some text => text
  | None => "undefined"
  end.

Definition isUndefined (key : option string) : bool :=
  match key with
  | Some _ => false
  | None => true
  end.

Definition getWindowData (processId windowId : option string) : LookupError + WindowObj :=
  if isUndefined processId && isUndefined windowId
  then inl MustProvideKey
  else
    match find (fun window : WindowObj =>
                  equalsKey (pid window) processId || equalsKey (id window) windowId)
               (windowsData this) with
    | Some windowData => inr windowData
    | None =>
        if negb (isUndefined processId)
        then inl (PidNotFound (showKey processId))
        else inl (IdNotFound (showKey windowId))
    end.

Definition getFocusedWindow : option WindowObj :=
  find (fun window : WindowObj => focused window =? 1) (windowsData this).

(** [None] is [undefined]: the array is empty. *)
Definition getTopWindow (windows : list WindowObj) : option WindowObj :=
  match windows with
  | [] => None
  | first :: _ =>
      Some (fold_left (fun (topWindow window : WindowObj) =>
                         if fy window <? fy topWindow then window else topWindow)
                      windows first)
  end.

Definition getBottomWindow (windows : list WindowObj) : option WindowObj :=
  match windows with
  | [] => None
  | first :: _ =>
      Some (fold_left (fun (bottomWindow window : WindowObj) =>
                         if fy window >? fy bottomWindow then window else bottomWindow)
                      windows first)
  end.

(** [None]: reading [.id] of [undefined] raises a TypeError. *)
Definition isTopWindow (windows : list WindowObj) (window : Window) : option bool :=
  match getTopWindow windows with
  | None => None
  | Some topWindow => Some (id topWindow =? id window)
  end.

Definition isBottomWindow (windows : list WindowObj) (window : Window) : option bool :=
  match getBottomWindow windows with
  | None => None
  | Some bottomWindow => Some (id bottomWindow =? id window)
  end.

Definition getTopStackWindow : option WindowObj := getTopWindow (getStackWindows this).

Definition getBottomStackWindow : option WindowObj := getBottomWindow (getStackWindows this).

(** Outer [None]: [getMainWindows] raised. *)
Definition getTopMainWindow : option (option WindowObj) :=
  match getMainWindows this with
  | None => None
  | Some mainWindows => Some (getTopWindow mainWindows)
  end.

Definition getBottomMainWindow : option (option WindowObj) :=
  match getMainWindows this with
  | None => None
  | Some mainWindows => Some (getBottomWindow mainWindows)
  end.

End Lookups.

(** ** The rebalancer and the external manager *)

(** The yabai commands the manager issues. *)
Inductive Command : Type :=
| ToggleSplit (windowId : Z)         (* -m window <id> --toggle split *)
| Warp (windowId targetId : Z).      (* -m window <id> --warp <target> *)

(** What the journal of a run records: each command handed to
    [execa.commandSync], and each entry into [createStack]. *)
Inductive Event : Type :=
| Yabai (command : Command)
| EnterCreateStack.

Inductive Error : Type :=
| TypeError                             (* field access on [undefined] *)
| CommandFailed (command : Command)     (* execa raises: non-zero exit *)
| QueryFailed                           (* the query raises, or JSON.parse does *)
| InvalidLayoutError (reason : Reason). (* the Error thrown by updateWindows *)

Section Rebalancer.

Variable World : Type.
Variable runCommand : Command -> World -> option World.

(** [JSON.parse(execa.commandSync(`${yabaiPath} -m query --windows`).stdout)]:
    [None] when the query exits with an error or its output does not
    parse. *)
Variable queryWindows : World -> option (list Window).

(** The manager object together with what lies outside it. *)
Record Machine : Type := mkMachine {
  this : WindowsManager;
  yabai : World;
  nextAddr : nat;
  journal : list Event
}.

Inductive Outcome (A : Type) : Type :=
| Done (a : A) (m : Machine)
| Thrown (e : Error) (m : Machine)
| OutOfFuel (m : Machine).

Arguments Done {A} a m.
Arguments Thrown {A} e m.
Arguments OutOfFuel {A} m.

Definition M (A : Type) : Type := Machine -> Outcome A.

Definition ret {A : Type} (a : A) : M A := fun m => Done a m.

Definition bind {A B : Type} (c : M A) (k : A -> M B) : M B :=
  fun m =>
    match c m with
    | Done a m' => k a m'
    | Thrown e m' => Thrown e m'
    | OutOfFuel m' => OutOfFuel m'
    end.

Notation "x <- c ;; k" := (bind c (fun x => k))
  (at level 61, c at next level, right associativity).
Notation "c ;;; k" := (bind c (fun _ => k))
  (at level 61, right associativity).

Definition throw {A : Type} (e : Error) : M A := fun m => Thrown e m.

Definition outOfFuel {A : Type} : M A := fun m => OutOfFuel m.

(** Read through a pure method of the manager. *)
Definition gets {A : Type} (f : WindowsManager -> A) : M A :=
  fun m => Done (f (this m)) m.

(** Read through a pure method that may raise a TypeError. *)
Definition getsE {A : Type} (f : WindowsManager -> option A) : M A :=
  fun m =>
    match f (this m) with
    | Some a => Done a m
    | None => Thrown TypeError m
    end.

Definition record (e : Event) : M unit :=
  fun m => Done tt (mkMachine (this m) (yabai m) (nextAddr m) (journal m ++ [e])).

Definition when (b : bool) (c : M unit) : M unit := if b then c else ret tt.

(** A [for ... of] loop whose body may [continue] (return) early. *)
Fixpoint forEach {A : Type} (body : A -> M unit) (l : list A) : M unit :=
  match l with
  | [] => ret tt
  | a :: rest => body a ;;; forEach body rest
  end.

(** [None]: the query raised. *)
Definition getWindowsData (world : World) : option (list Window) :=
  match queryWindows world with
  | None => None
  | Some windows =>
      Some (filter (fun win => negb (Split_eqb (split win) none)) windows)
  end.

(** When the query raises, [this.windowsData] is not assigned. *)
Definition refreshWindowsData : M unit :=
  fun m =>
    match getWindowsData (yabai m) with
    | None => Thrown QueryFailed m
    | Some newWindowsData =>
        Done tt (mkMachine
                   (mkWM (expectedCurrentNumMainWindows (this m))
                         (allocate (nextAddr m) newWindowsData))
                   (yabai m)
                   (nextAddr m + length newWindowsData)%nat
                   (journal m))
    end.

(** The object [createWindowsManager] returns, with an empty journal;
    [None] when the query for its initial [windowsData] raises. *)
Definition createWindowsManager (expected : Z) (world : World) : option Machine :=
  match getWindowsData world with
  | None => None
  | Some initialWindowsData =>
      Some (mkMachine (mkWM expected (allocate 0 initialWindowsData))
                      world (length initialWindowsData) [])
  end.

Definition commandSync (command : Command) : M unit :=
  fun m =>
    match runCommand command (yabai m) with
    | None => Thrown (CommandFailed command) m
    | Some world' => Done tt (mkMachine (this m) world' (nextAddr m) (journal m))
    end.

Definition executeYabaiCommand (command : Command) : M unit :=
  record (Yabai command) ;;;
  commandSync command ;;;
  refreshWindowsData.

Definition columnizeStackWindows : M unit :=
  stackWindows <- getsE (fun this =>
    filterE (fun window : WindowObj =>
               match isMainWindow this window with
               | None => None
               | Some main => Some (negb main)
               end)
            (windowsData this)) ;;
  forEach (fun stackWindow : WindowObj =>
             window <- getsE (fun this => getUpdatedWindowData this stackWindow) ;;
             when (Split_eqb (split window) vertical)
                  (executeYabaiCommand (ToggleSplit (id window))))
          stackWindows.

Definition createStack : M unit :=
  record EnterCreateStack ;;;
  topRightWindow <- getsE getTopRightWindow ;;
  when (Split_eqb (split topRightWindow) horizontal)
       (executeYabaiCommand (ToggleSplit (id topRightWindow))) ;;;
  topLeftWindow <- gets getTopLeftWindow ;;
  windows <- gets windowsData ;;
  forEach (fun window : WindowObj =>
             match topLeftWindow with
             | Some topLeft =>
                 if sameObject window topRightWindow || sameObject window topLeft
                 then ret tt
                 else executeYabaiCommand (Warp (id window) (id topLeft))
             | None =>
                 if sameObject window topRightWindow
                 then ret tt
                 else throw TypeError
             end)
          windows ;;;
  columnizeStackWindows.

Definition numWindowsIs2 : M bool :=
  gets (fun this => (length (windowsData this) =? 2)%nat).

Definition moveWindowToStack (window : WindowObj) : M unit :=
  two <- numWindowsIs2 ;;
  if two
  then when (Split_eqb (split window) horizontal)
            (executeYabaiCommand (ToggleSplit (id window)))
  else
    columnizeStackWindows ;;;
    widestStackWindow <- gets getWidestStackWindow ;;
    match widestStackWindow with
    | None => ret tt
    | Some stackWindow =>
        executeYabaiCommand (Warp (id window) (id stackWindow)) ;;;
        window' <- getsE (fun this => getUpdatedWindowData this window) ;;
        two' <- numWindowsIs2 ;;
        if two'
        then when (Split_eqb (split window') horizontal)
                  (executeYabaiCommand (ToggleSplit (id stackWindow)))
        else when (Split_eqb (split window') vertical)
                  (executeYabaiCommand (ToggleSplit (id stackWindow)))
    end.

Definition moveWindowToMain (window : WindowObj) : M unit :=
  widestMainWindow <- getsE getWidestMainWindow ;;
  match widestMainWindow with
  | None => ret tt
  | Some mainWindow =>
      executeYabaiCommand (Warp (id window) (id mainWindow)) ;;;
      window' <- getsE (fun this => getUpdatedWindowData this window) ;;
      when (Split_eqb (split window') vertical)
           (executeYabaiCommand (ToggleSplit (id mainWindow)))
  end.

(** *** The three [while] loops of [updateWindows]

    Each takes [fuel]: an iteration that finds no fuel left ends the run
    with [OutOfFuel]. *)

(** [while (curNumMainWindows > targetNumMainWindows)]; returns the final
    [curNumMainWindows]. *)
Fixpoint tooManyLoop (fuel : nat) (targetNumMainWindows : Z)
    (mainWindows : list WindowObj) (curNumMainWindows : Z) : M Z :=
  if curNumMainWindows >? targetNumMainWindows
  then match fuel with
       | O => outOfFuel
       | S fuel' =>
           match pop mainWindows with
           | None => throw TypeError
           | Some (mainWindow, mainWindows') =>
               moveWindowToStack mainWindow ;;;
               tooManyLoop fuel' targetNumMainWindows mainWindows' (curNumMainWindows - 1)
           end
       end
  else ret curNumMainWindows.

(** [while ((middleWindows = this.getMiddleWindows()).length > 0)]. *)
Fixpoint middleLoop (fuel : nat) (targetNumMainWindows : Z)
    (curNumMainWindows : Z) : M Z :=
  middleWindows <- getsE getMiddleWindows ;;
  match middleWindows with
  | [] => ret curNumMainWindows
  | middleWindow :: _ =>
      match fuel with
      | O => outOfFuel
      | S fuel' =>
          if curNumMainWindows <? targetNumMainWindows
          then moveWindowToMain middleWindow ;;;
               middleLoop fuel' targetNumMainWindows (curNumMainWindows + 1)
          else moveWindowToStack middleWindow ;;;
               middleLoop fuel' targetNumMainWindows curNumMainWindows
      end
  end.

(** [while (curNumMainWindows < targetNumMainWindows)]. *)
Fixpoint notEnoughLoop (fuel : nat) (targetNumMainWindows : Z)
    (stackWindows : list WindowObj) (curNumMainWindows : Z) : M unit :=
  if curNumMainWindows <? targetNumMainWindows
  then match fuel with
       | O => outOfFuel
       | S fuel' =>
           match pop stackWindows with
           | None => throw TypeError
           | Some (stackWindow, stackWindows') =>
               moveWindowToMain stackWindow ;;;
               notEnoughLoop fuel' targetNumMainWindows stackWindows' (curNumMainWindows + 1)
           end
       end
  else ret tt.

(** Comparator of [mainWindows.sort]: y ascending, then x ascending. *)
Definition byYThenX (window1 window2 : WindowObj) : Z :=
  if negb (fy window1 =? fy window2)
  then fy window1 - fy window2
  else fx window1 - fx window2.

(** Comparator of [stackWindows.sort]: x descending, then y descending. *)
Definition byXThenYDescending (window1 window2 : WindowObj) : Z :=
  if negb (fx window1 =? fx window2)
  then fx window2 - fx window1
  else fy window2 - fy window1.

(** *** [updateWindows] *)

(** The guarded call of [createStack]. *)
Definition createStackIfMissing (targetNumMainWindows numWindows : Z) : M unit :=
  if negb (targetNumMainWindows =? numWindows)
  then stackExists <- getsE doesStackExist ;;
       when (negb stackExists) createStack
  else ret tt.

(** The body of [if (numWindows > 2)]. *)
Definition balance (fuel : nat) (targetNumMainWindows : Z) : M unit :=
  mainWindows <- getsE getMainWindows ;;
  let curNumMainWindows := Z.of_nat (length mainWindows) in
  curNumMainWindows' <-
    (if curNumMainWindows >? targetNumMainWindows
     then tooManyLoop fuel targetNumMainWindows (sort byYThenX mainWindows)
                      curNumMainWindows
     else ret curNumMainWindows) ;;
  curNumMainWindows'' <- middleLoop fuel targetNumMainWindows curNumMainWindows' ;;
  stackWindows <- gets getStackWindows ;;
  notEnoughLoop fuel targetNumMainWindows (sort byXThenYDescending stackWindows)
                curNumMainWindows''.

(** Everything between the first validation and the re-validation. *)
Definition rebalance (fuel : nat) (targetNumMainWindows : Z) : M unit :=
  numWindows <- gets (fun this => Z.of_nat (length (windowsData this))) ;;
  createStackIfMissing targetNumMainWindows numWindows ;;;
  when (numWindows >? 2) (balance fuel targetNumMainWindows).

Definition setExpected (targetNumMainWindows : Z) : M unit :=
  fun m =>
    Done tt (mkMachine (mkWM targetNumMainWindows (windowsData (this m)))
                       (yabai m) (nextAddr m) (journal m)).

(** The re-validation and what follows it; [reason] is the reason of the
    first validation, which the error message quotes. *)
Definition revalidate (targetNumMainWindows : Z) (reason : Reason) : M unit :=
  validity <- getsE (fun this => isValidLayout this (Some targetNumMainWindows)) ;;
  match validity with
  | Invalid _ => throw (InvalidLayoutError reason)
  | Valid => setExpected targetNumMainWindows
  end.

Definition updateWindows (fuel : nat) (targetNumMainWindows : Z) : M unit :=
  layoutValidity <- getsE (fun this => isValidLayout this (Some targetNumMainWindows)) ;;
  match layoutValidity with
  | Valid => ret tt
  | Invalid reason =>
      rebalance fuel targetNumMainWindows ;;;
      revalidate targetNumMainWindows reason
  end.

End Rebalancer.

Arguments Done {World A} a m.
Arguments Thrown {World A} e m.
Arguments OutOfFuel {World A} m.
Arguments this {World} m.
Arguments yabai {World} m.
Arguments nextAddr {World} m.
Arguments journal {World} m.
Arguments mkMachine {World} this yabai nextAddr journal.

(** The yabai commands of a journal, in the order they were issued. *)
Fixpoint commandsOf (events : list Event) : list Command :=
  match events with
  | [] => []
  | Yabai command :: rest => command :: commandsOf rest
  | EnterCreateStack :: rest => commandsOf rest
  end.

Definition machineOf {World A : Type} (o : Outcome World A) : Machine World :=
  match o with
  | Done _ m => m
  | Thrown _ m => m
  | OutOfFuel m => m
  end.

(** ** The top-level entry point, [utils/main.ts] *)

Module Main.

(** [Error & { code?: string }]. *)
Record JsError : Type := mkError {
  message : string;
  code : option string
}.

(** What an invocation does that can be seen from outside. *)
Inductive Output : Type :=
| ConsoleInfo (text : string)      (* console.info *)
| ConsoleError (error : JsError)   (* console.error *)
| ReleaseHandlerLock.              (* releaseHandlerLock() *)

(** [error.code === 'ELOCKED']. *)
Definition isLocked (error : JsError) : bool :=
  match code error with
  | Some c => String.eqb c "ELOCKED"
  | None => false
  end.

(** The handler returns normally on both branches; the result is what it
    wrote. *)
Definition handleMasterError (error : JsError) : list Output :=
  if isLocked error
  then [ConsoleInfo "Lock found...aborting"]
  else [ConsoleError error].

(** A settled promise of type [Promise<void>]. *)
Inductive Promise : Type :=
| Fulfilled
| Rejected (reason : JsError).

(** [p.catch(onRejected)] for a handler that returns normally. *)
Definition catch (p : Promise) (onRejected : JsError -> list Output)
  : Promise * list Output :=
  match p with
  | Fulfilled => (Fulfilled, [])
  | Rejected reason => (Fulfilled, onRejected reason)
  end.

(** [p.finally(onFinally)] for a callback that returns normally. *)
Definition finally (p : Promise * list Output) (onFinally : list Output)
  : Promise * list Output :=
  (fst p, snd p ++ onFinally).

(** How [main(cb)] ends: an exception of [acquireHandlerLock] escapes
    [main]; otherwise the promise chain settles. *)
Inductive MainResult : Type :=
| Escaped (error : JsError)
| Settled (p : Promise) (outputs : list Output).

(** [acquireHandlerLock] belongs to [utils/handler], which is taken as a
    parameter: [Some error] when the call raises.  [cb] is the settled
    result of the callback. *)
Definition main (acquireHandlerLock : option JsError) (cb : Promise) : MainResult :=
  match acquireHandlerLock with
  | Some error => Escaped error
  | None =>
      let chain := finally (catch cb handleMasterError) [ReleaseHandlerLock] in
      Settled (fst chain) (snd chain)
  end.

End Main.

(** ** The dividing line as the specification words it *)

Module DividingLineSpec.

(** [R] is the top-right window of the snapshot: a window of minimal y that
    is rightmost among the windows of minimal y. *)
Definition isTopRight (windows : list WindowObj) (R : WindowObj) : Prop :=
  In R windows /\
  (forall window, In window windows -> fy R <= fy window) /\
  (forall window, In window windows -> fy window = fy R -> fx window <= fx R).

(** [N]: the windows of the snapshot that are not stack windows, a stack
    window being one with [frame.x = 0]. *)
Definition nonStack (windows : list WindowObj) : list WindowObj :=
  filter (fun window : WindowObj => negb (fx window =? 0)) windows.

(** Descending order of [frame.x]. *)
Definition xDescending (a b : WindowObj) : Prop := fx a >= fx b.

(** [E]: the members of [N] with [frame.x <= R.frame.x], sorted by [frame.x]
    descending. *)
Definition isEligibleOrder (N : list WindowObj) (R : WindowObj) (E : list WindowObj) : Prop :=
  Permutation E (filter (fun window : WindowObj => fx window <=? fx R) N) /\
  StronglySorted xDescending E.

(** The adjacent pair [E[i], E[i+1]] has equal [frame.x] and
    [k + i + 2 >= m]. *)
Definition qualifies (k m : Z) (E : list WindowObj) (i : nat) : Prop :=
  exists a b,
    nth_error E i = Some a /\ nth_error E (S i) = Some b /\
    fx a = fx b /\ k + Z.of_nat i + 2 >= m.

Definition firstQualifying (k m : Z) (E : list WindowObj) (i : nat) : Prop :=
  qualifies k m E i /\ forall j, (j < i)%nat -> ~ qualifies k m E j.

(** The value the specification gives for expected master count [m]. *)
Inductive dividingLine (R : WindowObj) (N E : list WindowObj) (m : Z) : Z -> Prop :=
| line_single :
    m = 1 -> dividingLine R N E m (fx R)
| line_enough_right :
    m <> 1 -> Z.of_nat (length N) - Z.of_nat (length E) >= m ->
    dividingLine R N E m (fx R)
| line_pair (i : nat) (a : WindowObj) :
    m <> 1 -> Z.of_nat (length N) - Z.of_nat (length E) < m ->
    firstQualifying (Z.of_nat (length N) - Z.of_nat (length E)) m E i ->
    nth_error E i = Some a ->
    dividingLine R N E m (fx a)
| line_fallback :
    m <> 1 -> Z.of_nat (length N) - Z.of_nat (length E) < m ->
    (forall i, ~ qualifies (Z.of_nat (length N) - Z.of_nat (length E)) m E i) ->
    dividingLine R N E m (fx R).

End DividingLineSpec.

(** ** Example snapshots *)

Module Examples.

Definition window (ident : Z) (name : string) (x y w h : Z) (s : Split) : Window :=
  mkWindow ident (1000 + ident) name (Frame.mk x y w h) s 0.

(** One window that fills the screen. *)
Definition fullScreen : list WindowObj :=
  allocate 0 [window 1 "Terminal" 0 0 1280 800 vertical].

(** A two-window stack at the left edge and one master window. *)
Definition stackAndMaster : list WindowObj :=
  allocate 0 [window 1 "Notes" 0 0 640 400 horizontal;
              window 2 "Mail" 0 400 640 400 horizontal;
              window 3 "Editor" 640 0 640 800 vertical].

(** A stack window, a column split in two at x = 320, and a window at
    x = 640 in the top row. *)
Definition splitColumn : list WindowObj :=
  allocate 0 [window 1 "Editor" 640 0 640 800 vertical;
              window 2 "Browser" 320 0 320 400 horizontal;
              window 3 "Mail" 320 400 320 400 horizontal;
              window 4 "Notes" 0 0 320 800 vertical].

(** Three windows side by side, none of them at the left edge (the display
    has a left padding). *)
Definition padded : list Window :=
  [window 1 "Notes" 100 0 100 800 horizontal;
   window 2 "Mail" 200 0 100 800 horizontal;
   window 3 "Editor" 300 0 100 800 horizontal].

(** An external manager that plays a script of snapshots: every command
    succeeds and moves on to the next snapshot of the script. *)
Definition Script : Type := list (list Window).

Definition scriptedRun (_ : Command) (script : Script) : option Script :=
  Some (tl script).

Definition scriptedQuery (script : Script) : option (list Window) :=
  Some (hd [] script).

(** An external manager that answers its queries only as long as its script
    lasts. *)
Definition exhaustibleQuery (script : Script) : option (list Window) :=
  match script with
  | [] => None
  | snapshot :: _ => Some snapshot
  end.

(** The stack and master of [stackAndMaster] as yabai reports them. *)
Definition tidy : list Window :=
  [window 1 "Notes" 0 0 640 400 horizontal;
   window 2 "Mail" 0 400 640 400 horizontal;
   window 3 "Editor" 640 0 640 800 vertical].

(** Two master windows and one stack window. *)
Definition twoMasters : list Window :=
  [window 1 "Notes" 0 0 640 800 horizontal;
   window 2 "Mail" 640 400 640 400 horizontal;
   window 3 "Editor" 640 0 640 400 horizontal].

(** A lone full-screen window, as yabai reports it. *)
Definition lone : list Window :=
  [window 1 "Terminal" 0 0 1280 800 vertical].

(** Managers created over scripted external managers, whose query always
    answers. *)
Definition created (expected : Z) (script : Script) : Machine Script :=
  match createWindowsManager Script scriptedQuery expected script with
  | Some manager => manager
  | None => mkMachine (mkWM expected []) script 0 []
  end.

Definition tidyMachine : Machine Script :=
  created 1 [tidy; tidy; tidy; tidy].

Definition loneMachine : Machine Script :=
  created 1 [lone].

(** Two masters, as expected so far; yabai answers the first command with
    the tidy layout. *)
Definition twoMastersMachine : Machine Script :=
  created 2 [twoMasters; tidy].

(** [twoMastersMachine] after the command that moves "Mail" to the stack. *)
Definition afterWarp : Machine Script :=
  mkMachine (mkWM 2 (allocate 3 tidy)) [tidy] 6 [Yabai (Warp 2 1)].

(** Two windows that both span the screen (no stack), and the layout yabai
    reports once the split of the upper one is toggled. *)
Definition rows : list Window :=
  [window 1 "Notes" 0 0 1280 400 horizontal;
   window 2 "Mail" 0 400 1280 400 horizontal].

Definition columns : list Window :=
  [window 1 "Notes" 640 0 640 800 vertical;
   window 2 "Mail" 0 0 640 800 horizontal].

(** Two displays.  On the display to the left of the main one, where x is
    negative, "Notes" stands beside a column of two windows; "Browser"
    fills the main display. *)
Definition twoDisplays : list Window :=
  [window 1 "Notes" (-1280) 0 640 800 vertical;
   window 2 "Mail" (-640) 0 640 400 horizontal;
   window 3 "Editor" (-640) 400 640 400 horizontal;
   window 4 "Browser" 0 0 1280 800 vertical].

(** "Notes" warped onto "Browser": the two share the main display side by
    side, the column of two takes the whole left display. *)
Definition notesBesideBrowser : list Window :=
  [window 1 "Notes" 640 0 640 800 vertical;
   window 2 "Mail" (-1280) 0 1280 400 horizontal;
   window 3 "Editor" (-1280) 400 1280 400 horizontal;
   window 4 "Browser" 0 0 640 800 vertical].

(** The split of "Browser" toggled: "Notes" lies below it. *)
Definition notesBelowBrowser : list Window :=
  [window 1 "Notes" 0 400 1280 400 horizontal;
   window 2 "Mail" (-1280) 0 1280 400 horizontal;
   window 3 "Editor" (-1280) 400 1280 400 horizontal;
   window 4 "Browser" 0 0 1280 400 horizontal].

(** Two main windows expected so far on [twoDisplays]. *)
Definition twoDisplaysMachine : Machine Script :=
  created 2 [twoDisplays; notesBesideBrowser; notesBelowBrowser].

(** [twoDisplaysMachine] after [updateWindows] for four main windows. *)
Definition fourMainsMachine : Machine Script :=
  mkMachine (mkWM 4 (allocate 8 notesBelowBrowser)) [notesBelowBrowser] 12
            [Yabai (Warp 1 4); Yabai (ToggleSplit 4)].

Definition rowsMachine : Machine Script :=
  created 1 [rows; columns; columns; columns].

(** A reading of [Number] on strings of decimal digits; every other string
    is sent to [None] here. *)
Fixpoint digitsValue (text : string) (acc : Z) : option Z :=
  match text with
  | EmptyString => Some acc
  | String c rest =>
      let code := Z.of_nat (Ascii.nat_of_ascii c) in
      if (48 <=? code) && (code <=? 57)
      then digitsValue rest (10 * acc + (code - 48))
      else None
  end.

Definition decimalNumber (text : string) : option Z := digitsValue text 0.

End Examples.

(** ** Notions used to state the properties *)

Section Notions.

Context {World : Type}.

(** A computation is quiet when it leaves [expectedCurrentNumMainWindows]
    alone and adds nothing but yabai commands to the journal. *)
Definition quiet {A : Type} (c : M World A) : Prop :=
  forall m,
    expectedCurrentNumMainWindows (this (machineOf (c m)))
    = expectedCurrentNumMainWindows (this m) /\
    exists commands, journal (machineOf (c m)) = journal m ++ map Yabai commands.

End Notions.

(** ** Notions used to state the further properties *)



Section FurtherNotions.

Context {World : Type}.
Variable runCommand : Command -> World -> option World.
Variable queryWindows : World -> option (list Window).

(** The snapshot holds distinct objects, all allocated so far, and no
    window that yabai does not tile. *)
Definition wellFormed (m : Machine World) : Prop :=
  NoDup (map addr (windowsData (this m))) /\
  (forall window, In window (windowsData (this m)) -> (addr window < nextAddr m)%nat) /\
  (forall window, In window (windowsData (this m)) -> split window <> none).

(** The snapshot is in step: it is the answer the external manager gives
    in the state the commands issued so far have left it in. *)
Definition inSync (m : Machine World) : Prop :=
  getWindowsData World queryWindows (yabai m)
  = Some (map data (windowsData (this m))).

(** The snapshot is one command behind: the last event is a command that
    went through, the query that followed it raised, and the snapshot is
    still the answer of the state before that command. *)
Definition oneCommandBehind (m : Machine World) : Prop :=
  exists world command events,
    journal m = events ++ [Yabai command] /\
    runCommand command world = Some (yabai m) /\
    getWindowsData World queryWindows world
    = Some (map data (windowsData (this m))) /\
    queryWindows (yabai m) = None.

(** Started from a machine with [P], the computation [c] ends on a machine
    with [P], except that it ends on a machine with [S] when a query
    raised. *)
Definition keeps (P S : Machine World -> Prop) {A : Type} (c : M World A) : Prop :=
  forall m, P m ->
    match c m with
    | Thrown QueryFailed m' => S m'
    | Done _ m' | Thrown _ m' | OutOfFuel m' => P m'
    end.

(** [c] uses no fuel: it returns or raises. *)
Definition halts {A : Type} (c : M World A) : Prop :=
  forall m m', c m <> OutOfFuel m'.

End FurtherNotions.

(** * Properties *)

Import DividingLineSpec.

(** ** Sorting *)

Lemma insertBy_perm {A : Type} (cmp : A -> A -> Z) (a : A) (l : list A) :
  Permutation (insertBy cmp a l) (a :: l).
Proof.
  induction l as [|b rest IH]; simpl.
  - apply Permutation_refl.
  - destruct (cmp a b <=? 0).
    + apply Permutation_refl.
    + eapply perm_trans; [apply perm_skip, IH | apply perm_swap].
Qed.

Lemma sort_perm {A : Type} (cmp : A -> A -> Z) (l : list A) :
  Permutation (sort cmp l) l.
Proof.
  induction l as [|a rest IH]; simpl.
  - constructor.
  - eapply perm_trans; [apply insertBy_perm | apply perm_skip, IH].
Qed.

Lemma sort_length {A : Type} (cmp : A -> A -> Z) (l : list A) :
  length (sort cmp l) = length l.
Proof. apply Permutation_length, sort_perm. Qed.

Lemma insertBy_xDescending (a : WindowObj) (l : list WindowObj) :
  StronglySorted xDescending l ->
  StronglySorted xDescending
    (insertBy (fun window1 window2 : WindowObj => fx window2 - fx window1) a l).
Proof.
  induction 1 as [|b rest Hsorted IH Hall]; simpl.
  - repeat constructor.
  - destruct (fx b - fx a <=? 0) eqn:Hcmp.
    + apply Z.leb_le in Hcmp.
      constructor; [constructor; assumption|].
      constructor; [unfold xDescending; lia|].
      rewrite Forall_forall in *. intros c Hc. specialize (Hall c Hc).
      unfold xDescending in *. lia.
    + apply Z.leb_gt in Hcmp.
      constructor; [exact IH|].
      rewrite Forall_forall in *. intros c Hc.
      apply (Permutation_in _ (insertBy_perm _ a rest)) in Hc.
      destruct Hc as [<-|Hc]; [unfold xDescending; lia | auto].
Qed.

Lemma sort_xDescending (l : list WindowObj) :
  StronglySorted xDescending
    (sort (fun window1 window2 : WindowObj => fx window2 - fx window1) l).
Proof.
  induction l as [|a rest IH]; simpl.
  - constructor.
  - apply insertBy_xDescending, IH.
Qed.

(** In a list sorted by descending x, a later index has a smaller or equal
    x. *)
Lemma xDescending_nth (l : list WindowObj) :
  StronglySorted xDescending l ->
  forall i j a b, (i <= j)%nat ->
    nth_error l i = Some a -> nth_error l j = Some b -> fx a >= fx b.
Proof.
  induction 1 as [|c rest Hsorted IH Hall]; intros i j a b Hij Hi Hj.
  - destruct i; discriminate.
  - destruct i as [|i], j as [|j]; simpl in *.
    + injection Hi as <-. injection Hj as <-. lia.
    + injection Hi as <-. apply nth_error_In in Hj.
      rewrite Forall_forall in Hall. exact (Hall b Hj).
    + lia.
    + apply (IH i j); [lia | assumption | assumption].
Qed.

(** ** The top-right window *)

Lemma lowest_fold (l : list WindowObj) (start : Z) :
  let lowest :=
    fold_left (fun lowest (window : WindowObj) =>
                 if fy window <? lowest then fy window else lowest) l start in
  lowest <= start /\
  (forall window, In window l -> lowest <= fy window) /\
  (lowest = start \/ exists window, In window l /\ fy window = lowest).
Proof.
  revert start. induction l as [|a rest IH]; intros start; simpl.
  - repeat split; [lia | contradiction | now left].
  - specialize (IH (if fy a <? start then fy a else start)).
    simpl in IH. destruct IH as (Hle & Hall & Hhit).
    destruct (fy a <? start) eqn:Hcmp;
      [apply Z.ltb_lt in Hcmp | apply Z.ltb_ge in Hcmp].
    + repeat split.
      * lia.
      * intros window [<-|Hin]; [lia | auto].
      * right. destruct Hhit as [->|(window & Hin & Heq)]; eauto.
    + repeat split.
      * lia.
      * intros window [<-|Hin]; [lia | auto].
      * destruct Hhit as [->|(window & Hin & Heq)]; [now left | right; eauto].
Qed.

Lemma rightmost_fold (l : list WindowObj) (start : WindowObj) :
  let best :=
    fold_left (fun (topRightWindow window : WindowObj) =>
                 if fx window >? fx topRightWindow then window else topRightWindow)
              l start in
  (best = start \/ In best l) /\ fx start <= fx best /\
  (forall window, In window l -> fx window <= fx best).
Proof.
  revert start. induction l as [|a rest IH]; intros start; simpl.
  - repeat split; [now left | lia | contradiction].
  - specialize (IH (if fx a >? fx start then a else start)).
    simpl in IH. destruct IH as (Hin & Hle & Hall).
    destruct (fx a >? fx start) eqn:Hcmp.
    + apply Z.gtb_lt in Hcmp. repeat split.
      * destruct Hin as [->|Hin]; auto.
      * lia.
      * intros window [<-|Hw]; [lia | auto].
    + rewrite Z.gtb_ltb in Hcmp. apply Z.ltb_ge in Hcmp. repeat split.
      * destruct Hin as [->|Hin]; auto.
      * lia.
      * intros window [<-|Hw]; [lia | auto].
Qed.

Lemma getTopRightWindow_spec (this : WindowsManager) :
  windowsData this <> [] ->
  exists R, getTopRightWindow this = Some R /\
            DividingLineSpec.isTopRight (windowsData this) R.
Proof.
  unfold getTopRightWindow. intros Hne.
  destruct (windowsData this) as [|first rest] eqn:Hws; [contradiction|].
  rewrite <- Hws. set (ws := windowsData this).
  pose proof (lowest_fold ws (fy first)) as Hlow. cbv zeta in Hlow.
  set (lowestY := fold_left _ ws (fy first)) in *.
  destruct Hlow as (_ & Hall & Hhit).
  assert (Hattained : exists window, In window ws /\ fy window = lowestY).
  { destruct Hhit as [Heq|Hex]; [|exact Hex].
    exists first. split; [subst ws; rewrite Hws; now left | now symmetry]. }
  destruct Hattained as (w0 & Hin0 & Hy0).
  destruct (filter _ ws) as [|top0 tops] eqn:Htops.
  - exfalso.
    assert (Hin : In w0 (filter (fun window : WindowObj => fy window =? lowestY) ws)).
    { apply filter_In. split; [assumption | now apply Z.eqb_eq]. }
    rewrite Htops in Hin. exact Hin.
  - pose proof (rightmost_fold (top0 :: tops) top0) as Hbest. cbv zeta in Hbest.
    set (best := fold_left _ (top0 :: tops) top0) in *.
    exists best. split; [reflexivity|].
    destruct Hbest as (Hin & _ & Hmax).
    assert (HinTops : In best (top0 :: tops)).
    { destruct Hin as [->|Hin]; [now left | exact Hin]. }
    rewrite <- Htops in HinTops, Hmax.
    apply filter_In in HinTops. destruct HinTops as (HinWs & Hy).
    apply Z.eqb_eq in Hy.
    repeat split.
    + exact HinWs.
    + intros window Hw. rewrite Hy. auto.
    + intros window Hw Heq. apply Hmax. apply filter_In.
      split; [assumption | apply Z.eqb_eq; lia].
Qed.

Lemma getTopRightWindow_empty (this : WindowsManager) :
  windowsData this = [] -> getTopRightWindow this = None.
Proof. unfold getTopRightWindow. now intros ->. Qed.

(** ** The dividing line *)

Lemma eligibleWindows_order (this : WindowsManager) (R : WindowObj) :
  isEligibleOrder (nonStackWindows this) R (eligibleWindows this R).
Proof.
  split.
  - apply sort_perm.
  - apply sort_xDescending.
Qed.

Lemma eligibleWindows_left_of (this : WindowsManager) (R a : WindowObj) :
  In a (eligibleWindows this R) -> fx a <= fx R /\ In a (windowsData this).
Proof.
  intros Hin. apply (Permutation_in _ (sort_perm _ _)) in Hin.
  apply filter_In in Hin. destruct Hin as (Hin & Hle).
  apply filter_In in Hin. destruct Hin as (Hin & _).
  split; [now apply Z.leb_le | exact Hin].
Qed.

Lemma qualifies_shift (k m : Z) (cur : WindowObj) (rest : list WindowObj) (j : nat) :
  qualifies k m (cur :: rest) (S j) <-> qualifies (k + 1) m rest j.
Proof.
  unfold qualifies; simpl.
  split; intros (a & b & Ha & Hb & Hx & Hk); exists a, b; repeat split; auto; lia.
Qed.

Lemma pairLoop_step (this : WindowsManager) (k i : Z)
    (cur next : WindowObj) (rest : list WindowObj) :
  pairLoop this k (cur :: next :: rest) i =
  if (fx cur =? fx next) && (k + i + 2 >=? expectedCurrentNumMainWindows this)
  then Some (fx cur)
  else pairLoop this k (next :: rest) (i + 1).
Proof. reflexivity. Qed.

(** The scan returns the x of the first qualifying pair, and finds nothing
    exactly when no pair qualifies. *)
Lemma pairLoop_first (this : WindowsManager) (E : list WindowObj) :
  forall (k i : Z),
    match pairLoop this k E i with
    | Some v =>
        exists j a,
          firstQualifying (k + i) (expectedCurrentNumMainWindows this) E j /\
          nth_error E j = Some a /\ v = fx a
    | None =>
        forall j, ~ qualifies (k + i) (expectedCurrentNumMainWindows this) E j
    end.
Proof.
  induction E as [|cur rest IH]; intros k i.
  - simpl. intros j (a & b & Ha & _). destruct j; discriminate.
  - destruct rest as [|next rest'].
    + simpl. intros j (a & b & Ha & Hb & _).
      destruct j as [|[|j]]; discriminate.
    + rewrite pairLoop_step.
      destruct ((fx cur =? fx next)
                && (k + i + 2 >=? expectedCurrentNumMainWindows this)) eqn:Hcond.
      * apply andb_true_iff in Hcond. destruct Hcond as (Hx & Hk).
        apply Z.eqb_eq in Hx. rewrite Z.geb_leb in Hk. apply Z.leb_le in Hk.
        exists 0%nat, cur. repeat split.
        -- exists cur, next. repeat split; simpl; auto; lia.
        -- intros j Hj. lia.
      * specialize (IH k (i + 1)).
        destruct (pairLoop this k (next :: rest') (i + 1)) as [v|].
        -- destruct IH as (j & a & (Hq & Hfirst) & Hnth & Hv).
           exists (S j), a. repeat split; auto.
           ++ apply qualifies_shift. replace (k + i + 1) with (k + (i + 1)) by lia.
              exact Hq.
           ++ intros j' Hlt Hq'. destruct j' as [|j'].
              ** destruct Hq' as (a' & b' & Ha' & Hb' & Hx' & Hk').
                 simpl in Ha', Hb'. injection Ha' as <-. injection Hb' as <-.
                 apply andb_false_iff in Hcond. destruct Hcond as [Hc|Hc].
                 --- apply Z.eqb_neq in Hc. contradiction.
                 --- rewrite Z.geb_leb in Hc. apply Z.leb_gt in Hc. simpl in Hk'. lia.
              ** apply qualifies_shift in Hq'.
                 replace (k + i + 1) with (k + (i + 1)) in Hq' by lia.
                 apply (Hfirst j'); [lia | exact Hq'].
        -- intros j Hq. destruct j as [|j].
           ++ destruct Hq as (a' & b' & Ha' & Hb' & Hx' & Hk').
              simpl in Ha', Hb'. injection Ha' as <-. injection Hb' as <-.
              apply andb_false_iff in Hcond. destruct Hcond as [Hc|Hc].
              ** apply Z.eqb_neq in Hc. contradiction.
              ** rewrite Z.geb_leb in Hc. apply Z.leb_gt in Hc. simpl in Hk'. lia.
           ++ apply qualifies_shift in Hq.
              replace (k + i + 1) with (k + (i + 1)) in Hq by lia.
              exact (IH j Hq).
Qed.

Lemma firstQualifying_unique (k m : Z) (E : list WindowObj) (i j : nat) :
  firstQualifying k m E i -> firstQualifying k m E j -> i = j.
Proof.
  intros (Hi & Hfi) (Hj & Hfj).
  destruct (Nat.lt_trichotomy i j) as [Hlt|[Heq|Hgt]]; [|exact Heq|].
  - exfalso. exact (Hfj i Hlt Hi).
  - exfalso. exact (Hfi j Hgt Hj).
Qed.

(** The specification's value is unique. *)
Lemma dividingLine_functional (R : WindowObj) (N E : list WindowObj) (m d d' : Z) :
  dividingLine R N E m d -> dividingLine R N E m d' -> d = d'.
Proof.
  intros H H'.
  destruct H as [Hm|Hm Hk|i a Hm Hk Hfirst Hnth|Hm Hk Hnone];
    destruct H' as [Hm'|Hm' Hk'|i' a' Hm' Hk' Hfirst' Hnth'|Hm' Hk' Hnone'];
    try reflexivity; try contradiction; try lia.
  - assert (i = i') by (eapply firstQualifying_unique; eauto). subst i'.
    congruence.
  - exfalso. exact (Hnone' i (proj1 Hfirst)).
  - exfalso. exact (Hnone i' (proj1 Hfirst')).
Qed.

Lemma getDividingLineXCoordinate_some (this : WindowsManager) :
  windowsData this <> [] -> exists d, getDividingLineXCoordinate this = Some d.
Proof.
  intros Hne. destruct (getTopRightWindow_spec this Hne) as (R & HR & _).
  unfold getDividingLineXCoordinate. rewrite HR.
  destruct (expectedCurrentNumMainWindows this =? 1); [eauto|].
  cbv zeta.
  destruct (numWindowsToRightOfTopRightWindow this R >=? _); [eauto|].
  destruct (pairLoop _ _ _ _); eauto.
Qed.

Lemma getDividingLineXCoordinate_empty (this : WindowsManager) :
  windowsData this = [] -> getDividingLineXCoordinate this = None.
Proof.
  intros Hws. unfold getDividingLineXCoordinate.
  now rewrite (getTopRightWindow_empty this Hws).
Qed.

(** The code's non-stack windows are the specification's [N]. *)
Lemma nonStackWindows_nonStack (this : WindowsManager) :
  nonStackWindows this = nonStack (windowsData this).
Proof. reflexivity. Qed.

(** Any two top-right windows of a snapshot have the same coordinates. *)
Lemma isTopRight_unique (windows : list WindowObj) (R R' : WindowObj) :
  isTopRight windows R -> isTopRight windows R' -> fx R = fx R' /\ fy R = fy R'.
Proof.
  intros (Hin & Hlow & Hright) (Hin' & Hlow' & Hright').
  assert (Hy : fy R = fy R').
  { pose proof (Hlow R' Hin'). pose proof (Hlow' R Hin). lia. }
  split; [|exact Hy].
  pose proof (Hright R' Hin' (eq_sym Hy)). pose proof (Hright' R Hin Hy). lia.
Qed.

(** Two descending orders of the same windows show the same x-coordinates
    at every position. *)
Lemma descending_unique (l l' : list Z) :
  Permutation l l' ->
  StronglySorted (fun a b => a >= b) l ->
  StronglySorted (fun a b => a >= b) l' ->
  l = l'.
Proof.
  revert l'. induction l as [|a rest IH]; intros l' Hperm Hsorted Hsorted'.
  - apply Permutation_nil in Hperm. now subst.
  - destruct l' as [|b rest'].
    + apply Permutation_sym, Permutation_nil in Hperm. discriminate.
    + apply StronglySorted_inv in Hsorted. destruct Hsorted as (Hrest & Ha).
      apply StronglySorted_inv in Hsorted'. destruct Hsorted' as (Hrest' & Hb).
      rewrite Forall_forall in Ha, Hb.
      assert (Hab : a = b).
      { assert (Hba : b <= a).
        { assert (Hin : In b (a :: rest))
            by (apply (Permutation_in _ (Permutation_sym Hperm)); now left).
          destruct Hin as [->|Hin]; [lia|]. specialize (Ha b Hin). lia. }
        assert (Hab : a <= b).
        { assert (Hin : In a (b :: rest'))
            by (apply (Permutation_in _ Hperm); now left).
          destruct Hin as [->|Hin]; [lia|]. specialize (Hb a Hin). lia. }
        lia. }
      subst b. f_equal. apply IH; [|assumption|assumption].
      exact (Permutation_cons_inv Hperm).
Qed.

Lemma xDescending_map (E : list WindowObj) :
  StronglySorted xDescending E ->
  StronglySorted (fun a b => a >= b) (map (fun window : WindowObj => fx window) E).
Proof.
  induction 1 as [|a rest Hrest IH Ha]; simpl; constructor; [exact IH|].
  rewrite Forall_forall in *. intros x Hx. apply in_map_iff in Hx.
  destruct Hx as (b & <- & Hb). exact (Ha b Hb).
Qed.

Lemma isEligibleOrder_unique (N : list WindowObj) (R R' : WindowObj)
    (E E' : list WindowObj) :
  fx R = fx R' ->
  isEligibleOrder N R E -> isEligibleOrder N R' E' ->
  map (fun window : WindowObj => fx window) E
  = map (fun window : WindowObj => fx window) E'.
Proof.
  intros Hx (Hperm & Hsorted) (Hperm' & Hsorted').
  apply descending_unique; [|now apply xDescending_map|now apply xDescending_map].
  apply Permutation_map. rewrite Hperm, Hperm', Hx. reflexivity.
Qed.

Lemma nth_error_same_x (E E' : list WindowObj) (i : nat) (a : WindowObj) :
  map (fun window : WindowObj => fx window) E
  = map (fun window : WindowObj => fx window) E' ->
  nth_error E i = Some a ->
  exists a', nth_error E' i = Some a' /\ fx a' = fx a.
Proof.
  intros Hmap Hnth.
  pose proof (nth_error_map (fun window : WindowObj => fx window) i E) as Hl.
  pose proof (nth_error_map (fun window : WindowObj => fx window) i E') as Hr.
  rewrite Hmap, Hr, Hnth in Hl.
  destruct (nth_error E' i) as [a'|]; [|discriminate].
  exists a'. split; [reflexivity|]. simpl in Hl. congruence.
Qed.

Lemma qualifies_same_x (k m : Z) (E E' : list WindowObj) (i : nat) :
  map (fun window : WindowObj => fx window) E
  = map (fun window : WindowObj => fx window) E' ->
  qualifies k m E i -> qualifies k m E' i.
Proof.
  intros Hmap (a & b & Ha & Hb & Hx & Hcount).
  destruct (nth_error_same_x E E' i a Hmap Ha) as (a' & Ha' & Hxa).
  destruct (nth_error_same_x E E' (S i) b Hmap Hb) as (b' & Hb' & Hxb).
  exists a', b'. repeat split; try assumption. congruence.
Qed.

(** The specification's value depends on [R] and [E] only through their
    x-coordinates. *)
Lemma dividingLine_same_x (R R' : WindowObj) (N E E' : list WindowObj) (m d : Z) :
  fx R = fx R' ->
  map (fun window : WindowObj => fx window) E
  = map (fun window : WindowObj => fx window) E' ->
  dividingLine R N E m d -> dividingLine R' N E' m d.
Proof.
  intros Hx Hmap Hline.
  assert (Hlen : length E = length E').
  { rewrite <- (length_map (fun window : WindowObj => fx window) E), Hmap.
    apply length_map. }
  destruct Hline as [Hm|Hm Hk|i a Hm Hk (Hq & Hfirst) Hnth|Hm Hk Hnone];
    rewrite ?Hx.
  - now apply line_single.
  - apply line_enough_right; [assumption | rewrite <- Hlen; assumption].
  - destruct (nth_error_same_x E E' i a Hmap Hnth) as (a' & Hnth' & <-).
    apply (line_pair R' N E' m i a'); try assumption; rewrite <- ?Hlen; try assumption.
    split.
    + exact (qualifies_same_x _ _ E E' i Hmap Hq).
    + intros j Hj Hqj. apply (Hfirst j Hj).
      exact (qualifies_same_x _ _ E' E j (eq_sym Hmap) Hqj).
  - apply line_fallback; try assumption; rewrite <- ?Hlen; try assumption.
    intros i Hq. apply (Hnone i).
    exact (qualifies_same_x _ _ E' E i (eq_sym Hmap) Hq).
Qed.

(** The value [getDividingLineXCoordinate] returns, described with the
    windows the code itself selects. *)
Lemma getDividingLineXCoordinate_dividingLine (this : WindowsManager) (R : WindowObj) :
  getTopRightWindow this = Some R ->
  exists d,
    getDividingLineXCoordinate this = Some d /\
    dividingLine R (nonStackWindows this) (eligibleWindows this R)
                 (expectedCurrentNumMainWindows this) d.
Proof.
  intros HR. set (N := nonStackWindows this).
  set (E := eligibleWindows this R).
  set (m := expectedCurrentNumMainWindows this).
  unfold getDividingLineXCoordinate. rewrite HR. fold m.
  destruct (m =? 1) eqn:Hm1.
  - apply Z.eqb_eq in Hm1. eexists. split; [reflexivity | now apply line_single].
  - apply Z.eqb_neq in Hm1. cbv zeta.
    unfold numWindowsToRightOfTopRightWindow. fold E. fold N.
    set (k := Z.of_nat (length N) - Z.of_nat (length E)).
    destruct (k >=? m) eqn:Hk.
    + rewrite Z.geb_leb in Hk. apply Z.leb_le in Hk.
      eexists. split; [reflexivity|]. apply line_enough_right; [assumption | fold k; lia].
    + rewrite Z.geb_leb in Hk. apply Z.leb_gt in Hk.
      pose proof (pairLoop_first this E k 0) as Hscan. fold m in Hscan.
      replace (k + 0) with k in Hscan by lia.
      destruct (pairLoop this k E 0) as [v|].
      * destruct Hscan as (j & a & Hfirst & Hnth & ->).
        eexists. split; [reflexivity|].
        apply (line_pair R N E m j a); auto.
      * eexists. split; [reflexivity|].
        apply line_fallback; auto.
Qed.

(** C3. On a non-empty snapshot [getDividingLineXCoordinate] returns the
    value the specification describes.  The description applies: a
    top-right window [R] (minimal y, and maximal x among the windows of
    minimal y) exists, and the windows [N] with [frame.x <> 0] that are not
    right of [R] can be put in descending order of x.  And for every such
    [R] and every such order [E], with [k = |N| - |E|]: the value returned
    is [R.frame.x] when the expected count is 1 or [k] reaches it;
    otherwise the x of the first adjacent pair of [E] with equal x and
    [k + i + 2 >= m]; and [R.frame.x] when no pair qualifies.  The
    description fits one value only. *)
Theorem getDividingLineXCoordinate_meets_spec_C3 (this : WindowsManager) :
  windowsData this <> [] ->
  (exists R E,
      getTopRightWindow this = Some R /\
      isTopRight (windowsData this) R /\
      isEligibleOrder (nonStack (windowsData this)) R E) /\
  (forall R E,
      isTopRight (windowsData this) R ->
      isEligibleOrder (nonStack (windowsData this)) R E ->
      exists d,
        getDividingLineXCoordinate this = Some d /\
        dividingLine R (nonStack (windowsData this)) E
                     (expectedCurrentNumMainWindows this) d /\
        (forall d',
            dividingLine R (nonStack (windowsData this)) E
                         (expectedCurrentNumMainWindows this) d' ->
            d' = d)).
Proof.
  intros Hne.
  destruct (getTopRightWindow_spec this Hne) as (R0 & HR0 & Htop0).
  pose proof (eligibleWindows_order this R0) as Horder0.
  rewrite nonStackWindows_nonStack in Horder0.
  split.
  - exists R0, (eligibleWindows this R0). auto.
  - intros R E Htop Horder.
    destruct (getDividingLineXCoordinate_dividingLine this R0 HR0) as (d & Hd & Hline).
    rewrite nonStackWindows_nonStack in Hline.
    destruct (isTopRight_unique _ R0 R Htop0 Htop) as (Hx & _).
    pose proof (isEligibleOrder_unique _ R0 R _ E Hx Horder0 Horder) as Hmap.
    pose proof (dividingLine_same_x R0 R _ _ E _ d Hx Hmap Hline) as Hspec.
    exists d. split; [exact Hd|]. split; [exact Hspec|].
    intros d' Hd'. eapply dividingLine_functional; eauto.
Qed.

Lemma getDividingLineXCoordinate_meets_spec_C3_witness :
  windowsData (mkWM 2 Examples.splitColumn) <> [] /\
  isTopRight Examples.splitColumn
    (mkObj 0 (Examples.window 1 "Editor" 640 0 640 800 vertical)) /\
  isEligibleOrder (nonStack Examples.splitColumn)
    (mkObj 0 (Examples.window 1 "Editor" 640 0 640 800 vertical))
    [mkObj 0 (Examples.window 1 "Editor" 640 0 640 800 vertical);
     mkObj 1 (Examples.window 2 "Browser" 320 0 320 400 horizontal);
     mkObj 2 (Examples.window 3 "Mail" 320 400 320 400 horizontal)] /\
  exists d,
    getDividingLineXCoordinate (mkWM 2 Examples.splitColumn) = Some d /\
    dividingLine (mkObj 0 (Examples.window 1 "Editor" 640 0 640 800 vertical))
      (nonStack Examples.splitColumn)
      [mkObj 0 (Examples.window 1 "Editor" 640 0 640 800 vertical);
       mkObj 1 (Examples.window 2 "Browser" 320 0 320 400 horizontal);
       mkObj 2 (Examples.window 3 "Mail" 320 400 320 400 horizontal)]
      2 d /\
    d = 320.
Proof.
  assert (Hne : windowsData (mkWM 2 Examples.splitColumn) <> []) by discriminate.
  assert (Htop : isTopRight Examples.splitColumn
                   (mkObj 0 (Examples.window 1 "Editor" 640 0 640 800 vertical))).
  { split; [now left|].
    split; intros window [<-|[<-|[<-|[<-|[]]]]]; unfold fx, fy; simpl; intros; lia. }
  assert (Horder : isEligibleOrder (nonStack Examples.splitColumn)
                     (mkObj 0 (Examples.window 1 "Editor" 640 0 640 800 vertical))
                     [mkObj 0 (Examples.window 1 "Editor" 640 0 640 800 vertical);
                      mkObj 1 (Examples.window 2 "Browser" 320 0 320 400 horizontal);
                      mkObj 2 (Examples.window 3 "Mail" 320 400 320 400 horizontal)]).
  { split; [apply Permutation_refl|].
    repeat first [ apply SSorted_cons | apply SSorted_nil
                 | apply Forall_cons | apply Forall_nil ];
      unfold xDescending, fx; simpl; lia. }
  split; [exact Hne|]. split; [exact Htop|]. split; [exact Horder|].
  destruct (getDividingLineXCoordinate_meets_spec_C3 (mkWM 2 Examples.splitColumn) Hne)
    as (_ & Hall).
  destruct (Hall _ _ Htop Horder) as (d & Hd & Hline & _).
  exists d. split; [exact Hd|]. split; [exact Hline|].
  injection Hd as <-. reflexivity.
Defined.

Example splitColumn_line_for_2 :
  getDividingLineXCoordinate (mkWM 2 Examples.splitColumn) = Some 320.
Proof. reflexivity. Qed.

Example stackAndMaster_line_for_1 :
  getDividingLineXCoordinate (mkWM 1 Examples.stackAndMaster) = Some 640.
Proof. reflexivity. Qed.

Lemma getDividingLineXCoordinate_cases (this : WindowsManager) (R : WindowObj) (d : Z) :
  getTopRightWindow this = Some R ->
  getDividingLineXCoordinate this = Some d ->
  d = fx R \/
  exists j a,
    firstQualifying (numWindowsToRightOfTopRightWindow this R)
                    (expectedCurrentNumMainWindows this) (eligibleWindows this R) j /\
    nth_error (eligibleWindows this R) j = Some a /\ d = fx a.
Proof.
  intros HR. unfold getDividingLineXCoordinate. rewrite HR.
  destruct (expectedCurrentNumMainWindows this =? 1); [intros [= <-]; now left|].
  cbv zeta.
  destruct (numWindowsToRightOfTopRightWindow this R >=? _); [intros [= <-]; now left|].
  pose proof (pairLoop_first this (eligibleWindows this R)
                (numWindowsToRightOfTopRightWindow this R) 0) as Hscan.
  rewrite Z.add_0_r in Hscan.
  destruct (pairLoop _ _ _ _) as [v|]; intros [= <-]; [right | now left].
  exact Hscan.
Qed.

(** No dividing line lies right of the top-right window. *)
Lemma getDividingLineXCoordinate_le_top (this : WindowsManager) (R : WindowObj) (d : Z) :
  getTopRightWindow this = Some R ->
  getDividingLineXCoordinate this = Some d ->
  d <= fx R.
Proof.
  intros HR Hd.
  destruct (getDividingLineXCoordinate_cases this R d HR Hd)
    as [->|(j & a & _ & Hnth & ->)]; [lia|].
  apply nth_error_In in Hnth. now apply eligibleWindows_left_of in Hnth.
Qed.

Lemma qualifies_weaken (k m m' : Z) (E : list WindowObj) (j : nat) :
  m' <= m -> qualifies k m E j -> qualifies k m' E j.
Proof.
  intros Hle (a & b & Ha & Hb & Hx & Hk). exists a, b. repeat split; auto; lia.
Qed.

(** C4, the claim as stated fails: on the snapshot [splitColumn] the
    dividing line for count 1 is 640 and the one for count 2 is 320, so
    raising the expected count lowers the line. *)
Lemma dividing_line_decreases_C4 :
  getDividingLineXCoordinate (mkWM 1 Examples.splitColumn) = Some 640 /\
  getDividingLineXCoordinate (mkWM 2 Examples.splitColumn) = Some 320 /\
  ~ (forall (windows : list WindowObj) (m1 m2 d1 d2 : Z),
        m1 < m2 ->
        getDividingLineXCoordinate (mkWM m1 windows) = Some d1 ->
        getDividingLineXCoordinate (mkWM m2 windows) = Some d2 ->
        d1 <= d2).
Proof.
  split; [reflexivity|]. split; [reflexivity|].
  intros Hmono.
  specialize (Hmono Examples.splitColumn 1 2 640 320).
  assert (H : 640 <= 320) by (apply Hmono; [lia | reflexivity | reflexivity]).
  lia.
Qed.

(** C4, amended. With the geometry fixed, the dividing line for any
    expected count is at most the line for count 1 (the x of the top-right
    window); and for counts [m1 < m2], whenever the line for [m2] is not that
    top value, it is at most the line for [m1]: a larger count moves the
    line left, never right, until no pair qualifies and the line falls back
    to the top value. *)
Theorem dividing_line_bounded_by_single_C4 (windows : list WindowObj) :
  windows <> [] ->
  exists top,
    getDividingLineXCoordinate (mkWM 1 windows) = Some top /\
    (forall m, exists d,
        getDividingLineXCoordinate (mkWM m windows) = Some d /\ d <= top) /\
    (forall m1 m2 d1 d2,
        m1 < m2 ->
        getDividingLineXCoordinate (mkWM m1 windows) = Some d1 ->
        getDividingLineXCoordinate (mkWM m2 windows) = Some d2 ->
        d2 <> top ->
        d2 <= d1).
Proof.
  intros Hne.
  destruct (getTopRightWindow_spec (mkWM 1 windows) Hne) as (R & HR & _).
  assert (HRm : forall m, getTopRightWindow (mkWM m windows) = Some R)
    by (intros m; exact HR).
  exists (fx R). split; [|split].
  - unfold getDividingLineXCoordinate. rewrite HR. reflexivity.
  - intros m.
    destruct (getDividingLineXCoordinate_some (mkWM m windows) Hne) as (d & Hd).
    exists d. split; [exact Hd|].
    exact (getDividingLineXCoordinate_le_top _ R d (HRm m) Hd).
  - intros m1 m2 d1 d2 Hlt Hd1 Hd2 Hnot.
    destruct (getDividingLineXCoordinate_cases _ R d2 (HRm m2) Hd2)
      as [->|(j2 & a2 & (Hq2 & _) & Hnth2 & ->)]; [contradiction|].
    destruct (getDividingLineXCoordinate_cases _ R d1 (HRm m1) Hd1)
      as [->|(j1 & a1 & (Hq1 & Hfirst1) & Hnth1 & ->)].
    + exact (getDividingLineXCoordinate_le_top _ R _ (HRm m2) Hd2).
    + change (eligibleWindows (mkWM m1 windows) R)
        with (eligibleWindows (mkWM m2 windows) R) in *.
      change (numWindowsToRightOfTopRightWindow (mkWM m1 windows) R)
        with (numWindowsToRightOfTopRightWindow (mkWM m2 windows) R) in *.
      cbn [expectedCurrentNumMainWindows] in *.
      assert (Hle : (j1 <= j2)%nat).
      { destruct (Nat.le_gt_cases j1 j2) as [Hle|Hgt]; [exact Hle|].
        exfalso. apply (Hfirst1 j2 Hgt).
        apply (qualifies_weaken _ m2); [lia | exact Hq2]. }
      pose proof (xDescending_nth _ (sort_xDescending _) j1 j2 a1 a2 Hle Hnth1 Hnth2).
      lia.
Qed.

Lemma dividing_line_bounded_by_single_C4_witness :
  Examples.splitColumn <> [] /\
  exists top,
    getDividingLineXCoordinate (mkWM 1 Examples.splitColumn) = Some top /\
    (forall m, exists d,
        getDividingLineXCoordinate (mkWM m Examples.splitColumn) = Some d /\ d <= top) /\
    (forall m1 m2 d1 d2,
        m1 < m2 ->
        getDividingLineXCoordinate (mkWM m1 Examples.splitColumn) = Some d1 ->
        getDividingLineXCoordinate (mkWM m2 Examples.splitColumn) = Some d2 ->
        d2 <> top ->
        d2 <= d1).
Proof.
  split.
  - discriminate.
  - apply (dividing_line_bounded_by_single_C4 Examples.splitColumn). discriminate.
Defined.

(** ** Classification *)

Lemma filterE_total {A : Type} (p : A -> option bool) (q : A -> bool) (l : list A) :
  (forall a, In a l -> p a = Some (q a)) ->
  filterE p l = Some (filter q l).
Proof.
  induction l as [|a rest IH]; intros Hp; simpl.
  - reflexivity.
  - rewrite (Hp a (or_introl eq_refl)).
    rewrite IH by (intros b Hb; apply Hp; now right).
    reflexivity.
Qed.

Lemma isMiddleWindow_at (this : WindowsManager) (d : Z) (window : Window) :
  getDividingLineXCoordinate this = Some d ->
  isMiddleWindow this window = Some (negb (fx window =? 0) && negb (fx window >=? d)).
Proof.
  intros Hd. unfold isMiddleWindow, isMainWindow, isStackWindow. rewrite Hd.
  destruct (fx window =? 0); reflexivity.
Qed.

Lemma getMiddleWindows_at (this : WindowsManager) (d : Z) :
  getDividingLineXCoordinate this = Some d ->
  getMiddleWindows this =
  Some (filter (fun window : WindowObj => negb (fx window =? 0) && negb (fx window >=? d))
               (windowsData this)).
Proof.
  intros Hd. unfold getMiddleWindows. apply filterE_total.
  intros a _. now apply isMiddleWindow_at.
Qed.

Lemma getMainWindows_at (this : WindowsManager) (d : Z) :
  getDividingLineXCoordinate this = Some d ->
  getMainWindows this =
  Some (filter (fun window : WindowObj => fx window >=? d) (windowsData this)).
Proof. intros Hd. unfold getMainWindows. now rewrite Hd. Qed.

(** Counting the three classes of a snapshot: a window is counted twice
    exactly when it is at x = 0 and the line is at or left of 0. *)
Lemma classes_count (d : Z) (windows : list WindowObj) :
  (length (filter (fun window : WindowObj => (fx window =? 0)%Z) windows)
   + length (filter (fun window : WindowObj => (fx window >=? d)%Z) windows)
   + length (filter (fun window : WindowObj =>
                       negb (fx window =? 0)%Z && negb (fx window >=? d)%Z) windows)
   = length windows
     + length (filter (fun window : WindowObj => (fx window =? 0)%Z && (d <=? 0)%Z)
                      windows))%nat.
Proof.
  destruct (d <=? 0) eqn:Hd;
    [apply Z.leb_le in Hd | apply Z.leb_gt in Hd];
    (induction windows as [|a rest IH]; simpl; [reflexivity|]);
    destruct (fx a =? 0) eqn:Hx; destruct (fx a >=? d) eqn:Hm; simpl;
    first [apply Z.eqb_eq in Hx | apply Z.eqb_neq in Hx];
    rewrite Z.geb_leb in Hm;
    first [apply Z.leb_le in Hm | apply Z.leb_gt in Hm];
    lia.
Qed.

(** C1, the claim as stated fails: on the full-screen single window with
    expected count 1 the dividing line is 0, and the window is returned by
    both [getStackWindows] and [getMainWindows]. *)
Lemma stack_and_main_overlap_C1 :
  getDividingLineXCoordinate (mkWM 1 Examples.fullScreen) = Some 0 /\
  getStackWindows (mkWM 1 Examples.fullScreen) = Examples.fullScreen /\
  getMainWindows (mkWM 1 Examples.fullScreen) = Some Examples.fullScreen /\
  ~ (forall (this : WindowsManager) (mains : list WindowObj),
        windowsData this <> [] ->
        getMainWindows this = Some mains ->
        forall window, In window (getStackWindows this) -> ~ In window mains).
Proof.
  split; [reflexivity|]. split; [reflexivity|]. split; [reflexivity|].
  intros Hdisjoint.
  apply (Hdisjoint (mkWM 1 Examples.fullScreen) Examples.fullScreen
           ltac:(discriminate) eq_refl
           (mkObj 0 (Examples.window 1 "Terminal" 0 0 1280 800 vertical)));
    now left.
Qed.

(** C1, amended. On a non-empty snapshot, with [d] the dividing line, the
    three getters return the windows of the snapshot with [frame.x = 0]
    (stack), with [frame.x >= d] (main) and with neither (middle); every
    window of the snapshot is in at least one of them; the middle windows
    are disjoint from the other two; a window is both stack and main
    exactly when it is at [x = 0] and [d <= 0], so the three are pairwise
    disjoint when [d > 0]; counted with multiplicity, the three sizes add up
    to the snapshot's size plus the number of windows that are both. *)
Theorem classification_covers_snapshot_C1 (this : WindowsManager) :
  windowsData this <> [] ->
  exists d mains middles,
    getDividingLineXCoordinate this = Some d /\
    getMainWindows this = Some mains /\
    getMiddleWindows this = Some middles /\
    (forall window, In window (getStackWindows this) <->
                    In window (windowsData this) /\ fx window = 0) /\
    (forall window, In window mains <->
                    In window (windowsData this) /\ fx window >= d) /\
    (forall window, In window middles <->
                    In window (windowsData this) /\ fx window <> 0 /\ fx window < d) /\
    (forall window, In window (windowsData this) ->
                    In window (getStackWindows this) \/ In window mains \/ In window middles) /\
    (forall window, In window middles ->
                    ~ In window (getStackWindows this) /\ ~ In window mains) /\
    (forall window, In window (getStackWindows this) /\ In window mains <->
                    In window (windowsData this) /\ fx window = 0 /\ d <= 0) /\
    (length (getStackWindows this) + length mains + length middles
     = length (windowsData this)
       + length (filter (fun window : WindowObj => (fx window =? 0)%Z && (d <=? 0)%Z)
                        (windowsData this)))%nat.
Proof.
  intros Hne.
  destruct (getDividingLineXCoordinate_some this Hne) as (d & Hd).
  exists d. eexists. eexists.
  split; [exact Hd|].
  split; [exact (getMainWindows_at this d Hd)|].
  split; [exact (getMiddleWindows_at this d Hd)|].
  assert (Hstack : forall window, In window (getStackWindows this) <->
                                  In window (windowsData this) /\ fx window = 0).
  { intros window. unfold getStackWindows, isStackWindow.
    rewrite filter_In, Z.eqb_eq. reflexivity. }
  assert (Hmain : forall window : WindowObj,
             In window (filter (fun window : WindowObj => fx window >=? d) (windowsData this)) <->
             In window (windowsData this) /\ fx window >= d).
  { intros window. rewrite filter_In, Z.geb_leb, Z.leb_le. intuition lia. }
  assert (Hmiddle : forall window : WindowObj,
             In window (filter (fun window : WindowObj =>
                                  negb (fx window =? 0) && negb (fx window >=? d))
                               (windowsData this)) <->
             In window (windowsData this) /\ fx window <> 0 /\ fx window < d).
  { intros window.
    rewrite filter_In, andb_true_iff, !negb_true_iff, Z.eqb_neq, Z.geb_leb, Z.leb_gt.
    reflexivity. }
  split; [exact Hstack|]. split; [exact Hmain|]. split; [exact Hmiddle|].
  split; [|split; [|split]].
  - intros window Hin. rewrite Hstack, Hmain, Hmiddle.
    destruct (Z.eq_dec (fx window) 0); [now left|].
    destruct (Z_lt_ge_dec (fx window) d); [right; right | right; left]; auto.
  - intros window. rewrite Hstack, Hmain, Hmiddle. intuition lia.
  - intros window. rewrite Hstack, Hmain. intuition lia.
  - apply classes_count.
Qed.

Lemma classification_covers_snapshot_C1_witness :
  windowsData (mkWM 1 Examples.stackAndMaster) <> [] /\
  exists d mains middles,
    getDividingLineXCoordinate (mkWM 1 Examples.stackAndMaster) = Some d /\
    getMainWindows (mkWM 1 Examples.stackAndMaster) = Some mains /\
    getMiddleWindows (mkWM 1 Examples.stackAndMaster) = Some middles /\
    (forall window, In window (getStackWindows (mkWM 1 Examples.stackAndMaster)) <->
                    In window Examples.stackAndMaster /\ fx window = 0) /\
    (forall window, In window mains <->
                    In window Examples.stackAndMaster /\ fx window >= d) /\
    (forall window, In window middles <->
                    In window Examples.stackAndMaster /\ fx window <> 0 /\ fx window < d) /\
    (forall window, In window Examples.stackAndMaster ->
                    In window (getStackWindows (mkWM 1 Examples.stackAndMaster)) \/
                    In window mains \/ In window middles) /\
    (forall window, In window middles ->
                    ~ In window (getStackWindows (mkWM 1 Examples.stackAndMaster)) /\
                    ~ In window mains) /\
    (forall window, In window (getStackWindows (mkWM 1 Examples.stackAndMaster)) /\
                    In window mains <->
                    In window Examples.stackAndMaster /\ fx window = 0 /\ d <= 0) /\
    (length (getStackWindows (mkWM 1 Examples.stackAndMaster))
     + length mains + length middles
     = length Examples.stackAndMaster
       + length (filter (fun window : WindowObj => (fx window =? 0)%Z && (d <=? 0)%Z)
                        Examples.stackAndMaster))%nat.
Proof.
  split.
  - discriminate.
  - apply (classification_covers_snapshot_C1 (mkWM 1 Examples.stackAndMaster)).
    discriminate.
Defined.

(** ** The rebalancer: what it may change *)

Create HintDb quiet.

Section Quiet.

Context {World : Type}.
Variable runCommand : Command -> World -> option World.
Variable queryWindows : World -> option (list Window).

Lemma quiet_ret {A : Type} (a : A) : quiet (ret World a).
Proof. intros m. split; [reflexivity|]. exists []. simpl. now rewrite app_nil_r. Qed.

Lemma quiet_throw {A : Type} (e : Error) : quiet (@throw World A e).
Proof. intros m. split; [reflexivity|]. exists []. simpl. now rewrite app_nil_r. Qed.

Lemma quiet_outOfFuel {A : Type} : quiet (@outOfFuel World A).
Proof. intros m. split; [reflexivity|]. exists []. simpl. now rewrite app_nil_r. Qed.

Lemma quiet_gets {A : Type} (f : WindowsManager -> A) : quiet (gets World f).
Proof. intros m. split; [reflexivity|]. exists []. simpl. now rewrite app_nil_r. Qed.

Lemma quiet_getsE {A : Type} (f : WindowsManager -> option A) : quiet (getsE World f).
Proof.
  intros m. unfold getsE. destruct (f (this m)); simpl;
    (split; [reflexivity|]; exists []; simpl; now rewrite app_nil_r).
Qed.

Lemma quiet_bind {A B : Type} (c : M World A) (k : A -> M World B) :
  quiet c -> (forall a, quiet (k a)) -> quiet (bind World c k).
Proof.
  intros Hc Hk m. unfold bind.
  destruct (Hc m) as (Hexp & commands & Hjournal).
  destruct (c m) as [a m'|e m'|m']; simpl in *.
  - destruct (Hk a m') as (Hexp' & commands' & Hjournal').
    split; [congruence|].
    exists (commands ++ commands').
    rewrite Hjournal', Hjournal, map_app, app_assoc. reflexivity.
  - split; [assumption | eauto].
  - split; [assumption | eauto].
Qed.

Lemma quiet_when (b : bool) (c : M World unit) : quiet c -> quiet (when World b c).
Proof. intros Hc. destruct b; simpl; [exact Hc | apply quiet_ret]. Qed.

Lemma quiet_forEach {A : Type} (body : A -> M World unit) (l : list A) :
  (forall a, quiet (body a)) -> quiet (forEach World body l).
Proof.
  intros Hbody. induction l as [|a rest IH]; simpl.
  - apply quiet_ret.
  - apply quiet_bind; [apply Hbody | intros _; exact IH].
Qed.

Lemma quiet_executeYabaiCommand (command : Command) :
  quiet (executeYabaiCommand World runCommand queryWindows command).
Proof.
  intros m. unfold executeYabaiCommand, bind, record, commandSync, refreshWindowsData.
  simpl. destruct (runCommand command (yabai m)) as [world'|]; simpl;
    [destruct (getWindowsData World queryWindows world'); simpl|];
    (split; [reflexivity|]; exists [command]; reflexivity).
Qed.

#[local] Hint Resolve quiet_ret quiet_throw quiet_outOfFuel quiet_gets quiet_getsE
  quiet_executeYabaiCommand : quiet.

(** Decompose a computation along its binds, loops and branches. *)
Ltac quiet_step :=
  match goal with
  | |- quiet (bind _ _ _) => apply quiet_bind; [|intros ?]
  | |- quiet (when _ _ _) => apply quiet_when
  | |- quiet (forEach _ _ _) => apply quiet_forEach; intros ?
  | |- quiet (match ?x with _ => _ end) => destruct x
  | |- quiet _ => solve [auto with quiet]
  end.

Lemma quiet_columnizeStackWindows :
  quiet (columnizeStackWindows World runCommand queryWindows).
Proof. unfold columnizeStackWindows. repeat quiet_step. Qed.

Lemma quiet_moveWindowToStack (window : WindowObj) :
  quiet (moveWindowToStack World runCommand queryWindows window).
Proof.
  unfold moveWindowToStack, numWindowsIs2.
  pose proof quiet_columnizeStackWindows. repeat quiet_step.
Qed.

Lemma quiet_moveWindowToMain (window : WindowObj) :
  quiet (moveWindowToMain World runCommand queryWindows window).
Proof. unfold moveWindowToMain. repeat quiet_step. Qed.

#[local] Hint Resolve quiet_columnizeStackWindows quiet_moveWindowToStack
  quiet_moveWindowToMain : quiet.

Lemma quiet_tooManyLoop (fuel : nat) (target : Z) :
  forall mainWindows cur,
    quiet (tooManyLoop World runCommand queryWindows fuel target mainWindows cur).
Proof.
  induction fuel as [|fuel IH]; intros mainWindows cur; simpl;
    destruct (cur >? target); auto with quiet.
  destruct (pop mainWindows) as [[mainWindow rest]|]; auto with quiet.
  apply quiet_bind; [auto with quiet | intros _; apply IH].
Qed.

Lemma quiet_middleLoop (fuel : nat) (target : Z) :
  forall cur, quiet (middleLoop World runCommand queryWindows fuel target cur).
Proof.
  induction fuel as [|fuel IH]; intros cur; simpl;
    (apply quiet_bind; [auto with quiet|]); intros [|middleWindow rest];
    auto with quiet.
  destruct (cur <? target);
    (apply quiet_bind; [auto with quiet | intros _; apply IH]).
Qed.

Lemma quiet_notEnoughLoop (fuel : nat) (target : Z) :
  forall stackWindows cur,
    quiet (notEnoughLoop World runCommand queryWindows fuel target stackWindows cur).
Proof.
  induction fuel as [|fuel IH]; intros stackWindows cur; simpl;
    destruct (cur <? target); auto with quiet.
  destruct (pop stackWindows) as [[stackWindow rest]|]; auto with quiet.
  apply quiet_bind; [auto with quiet | intros _; apply IH].
Qed.

#[local] Hint Resolve quiet_tooManyLoop quiet_middleLoop quiet_notEnoughLoop : quiet.

Lemma quiet_balance (fuel : nat) (target : Z) :
  quiet (balance World runCommand queryWindows fuel target).
Proof. unfold balance. repeat quiet_step. Qed.

Lemma record_then {A : Type} (e : Event) (k : unit -> M World A) (m : Machine World) :
  bind World (record World e) k m
  = k tt (mkMachine (this m) (yabai m) (nextAddr m) (journal m ++ [e])).
Proof. reflexivity. Qed.

(** [createStack] marks its entry and is quiet from there on. *)
Lemma createStack_journal (m : Machine World) :
  expectedCurrentNumMainWindows
    (this (machineOf (createStack World runCommand queryWindows m)))
  = expectedCurrentNumMainWindows (this m) /\
  exists commands,
    journal (machineOf (createStack World runCommand queryWindows m))
    = journal m ++ EnterCreateStack :: map Yabai commands.
Proof.
  unfold createStack. rewrite record_then.
  match goal with
  | |- context [machineOf (?rest ?m')] =>
      assert (Hrest : quiet rest);
      [|destruct (Hrest m') as (Hexp & commands & Hjournal)]
  end.
  { pose proof quiet_columnizeStackWindows. repeat quiet_step. }
  split; [exact Hexp|].
  exists commands. rewrite Hjournal. simpl. rewrite <- app_assoc. reflexivity.
Qed.

End Quiet.

(** ** The rebalancer: [updateWindows] *)

Section UpdateWindows.

Context {World : Type}.
Variable runCommand : Command -> World -> option World.
Variable queryWindows : World -> option (list Window).


Lemma updateWindows_valid (fuel : nat) (T : Z) (m : Machine World) :
  isValidLayout (this m) (Some T) = Some Valid ->
  updateWindows World runCommand queryWindows fuel T m = Done tt m.
Proof.
  intros Hvalid. unfold updateWindows, bind, getsE.
  rewrite Hvalid. reflexivity.
Qed.

Lemma updateWindows_invalid (fuel : nat) (T : Z) (m : Machine World) (reason : Reason) :
  isValidLayout (this m) (Some T) = Some (Invalid reason) ->
  updateWindows World runCommand queryWindows fuel T m
  = bind World (rebalance World runCommand queryWindows fuel T) (fun _ => revalidate World T reason) m.
Proof.
  intros Hinvalid. unfold updateWindows at 1, bind at 1, getsE.
  rewrite Hinvalid. reflexivity.
Qed.

Lemma updateWindows_raises (fuel : nat) (T : Z) (m : Machine World) :
  isValidLayout (this m) (Some T) = None ->
  updateWindows World runCommand queryWindows fuel T m = Thrown TypeError m.
Proof.
  intros Hnone. unfold updateWindows, bind, getsE.
  rewrite Hnone. reflexivity.
Qed.

(** C7. Once the pass has reached the re-validation, at machine [m1]: if
    [isValidLayout] reports invalid there, [updateWindows] throws its Error;
    if it reports valid, nothing is thrown and [updateWindows] returns,
    with the target stored as the expected count. *)
Theorem revalidation_decides_outcome_C7
    (fuel : nat) (T : Z) (m m1 : Machine World) (reason : Reason) :
  isValidLayout (this m) (Some T) = Some (Invalid reason) ->
  rebalance World runCommand queryWindows fuel T m = Done tt m1 ->
  (forall r, isValidLayout (this m1) (Some T) = Some (Invalid r) ->
             updateWindows World runCommand queryWindows fuel T m = Thrown (InvalidLayoutError reason) m1) /\
  (isValidLayout (this m1) (Some T) = Some Valid ->
   updateWindows World runCommand queryWindows fuel T m
   = Done tt (mkMachine (mkWM T (windowsData (this m1)))
                        (yabai m1) (nextAddr m1) (journal m1))).
Proof.
  intros Hinvalid Hreached.
  rewrite (updateWindows_invalid fuel T m reason Hinvalid).
  unfold bind. rewrite Hreached. unfold revalidate, bind, getsE.
  split.
  - intros r Hr. rewrite Hr. reflexivity.
  - intros Hv. rewrite Hv. reflexivity.
Qed.

(** *** When [createStack] runs *)

(** Running a quiet continuation after [c] keeps what is known of [c]'s
    journal, up to further yabai commands. *)
Lemma bind_quiet_tail {A B : Type} (c : M World A) (k : A -> M World B)
    (m : Machine World) (prefix : list Event) :
  expectedCurrentNumMainWindows (this (machineOf (c m)))
  = expectedCurrentNumMainWindows (this m) ->
  (exists commands, journal (machineOf (c m)) = prefix ++ map Yabai commands) ->
  (forall a, quiet (k a)) ->
  expectedCurrentNumMainWindows (this (machineOf (bind World c k m)))
  = expectedCurrentNumMainWindows (this m) /\
  exists commands, journal (machineOf (bind World c k m)) = prefix ++ map Yabai commands.
Proof.
  intros Hexp (commands & Hjournal) Hk. unfold bind.
  destruct (c m) as [a m'|e m'|m']; simpl in *; eauto.
  destruct (Hk a m') as (Hexp' & commands' & Hjournal').
  split; [congruence|].
  exists (commands ++ commands').
  rewrite Hjournal', Hjournal, map_app, app_assoc. reflexivity.
Qed.

Lemma createStackIfMissing_journal (T numWindows : Z) (m : Machine World) :
  expectedCurrentNumMainWindows
    (this (machineOf (createStackIfMissing World runCommand queryWindows T numWindows m)))
  = expectedCurrentNumMainWindows (this m) /\
  exists commands,
    journal (machineOf (createStackIfMissing World runCommand queryWindows T numWindows m))
    = (journal m
       ++ (if negb (T =? numWindows)
              && match doesStackExist (this m) with
                 | Some false => true
                 | _ => false
                 end
           then [EnterCreateStack] else []))
      ++ map Yabai commands.
Proof.
  unfold createStackIfMissing.
  destruct (negb (T =? numWindows)); simpl.
  - unfold bind, getsE.
    destruct (doesStackExist (this m)) as [[|]|]; simpl.
    + split; [reflexivity | exists []; simpl; now rewrite !app_nil_r].
    + destruct (createStack_journal runCommand queryWindows m)
        as (Hexp & commands & Hjournal).
      split; [exact Hexp|]. exists commands.
      rewrite Hjournal, <- app_assoc. reflexivity.
    + split; [reflexivity | exists []; simpl; now rewrite !app_nil_r].
  - split; [reflexivity | exists []; simpl; now rewrite !app_nil_r].
Qed.

Lemma rebalance_journal (fuel : nat) (T : Z) (m : Machine World) :
  expectedCurrentNumMainWindows
    (this (machineOf (rebalance World runCommand queryWindows fuel T m)))
  = expectedCurrentNumMainWindows (this m) /\
  exists commands,
    journal (machineOf (rebalance World runCommand queryWindows fuel T m))
    = (journal m
       ++ (if negb (T =? Z.of_nat (length (windowsData (this m))))
              && match doesStackExist (this m) with
                 | Some false => true
                 | _ => false
                 end
           then [EnterCreateStack] else []))
      ++ map Yabai commands.
Proof.
  set (numWindows := Z.of_nat (length (windowsData (this m)))).
  change (rebalance World runCommand queryWindows fuel T m)
    with (bind World (createStackIfMissing World runCommand queryWindows T numWindows)
               (fun _ => when World (numWindows >? 2)
                              (balance World runCommand queryWindows fuel T)) m).
  destruct (createStackIfMissing_journal T numWindows m) as (Hexp & Hjournal).
  apply bind_quiet_tail; [exact Hexp | exact Hjournal|].
  intros _. apply quiet_when, quiet_balance.
Qed.

Lemma revalidate_journal (T : Z) (reason : Reason) (m : Machine World) :
  journal (machineOf (revalidate World T reason m)) = journal m.
Proof.
  unfold revalidate, bind, getsE.
  destruct (isValidLayout (this m) (Some T)) as [[|r]|]; reflexivity.
Qed.

Lemma updateWindows_journal (fuel : nat) (T : Z) (m : Machine World) (reason : Reason) :
  isValidLayout (this m) (Some T) = Some (Invalid reason) ->
  journal (machineOf (updateWindows World runCommand queryWindows fuel T m))
  = journal (machineOf (rebalance World runCommand queryWindows fuel T m)).
Proof.
  intros Hinvalid. rewrite (updateWindows_invalid fuel T m reason Hinvalid).
  unfold bind. destruct (rebalance World runCommand queryWindows fuel T m) as [[] m1|e m1|m1]; simpl;
    [apply revalidate_journal | reflexivity | reflexivity].
Qed.




(** *** The expected count *)

Lemma revalidate_expected (T : Z) (reason : Reason) (m : Machine World) :
  expectedCurrentNumMainWindows (this (machineOf (revalidate World T reason m)))
  = expectedCurrentNumMainWindows (this m) \/
  (isValidLayout (this m) (Some T) = Some Valid /\
   revalidate World T reason m
   = Done tt (mkMachine (mkWM T (windowsData (this m)))
                        (yabai m) (nextAddr m) (journal m))).
Proof.
  unfold revalidate, bind, getsE.
  destruct (isValidLayout (this m) (Some T)) as [[|r]|]; simpl.
  - right. split; reflexivity.
  - now left.
  - now left.
Qed.

(** C10. On the early path (layout already valid) [updateWindows] returns
    the machine as it was, so the stored expected count is not assigned.
    In every run, the stored expected count at the end is the one at the
    start unless the first validation reported invalid, the pass reached the
    re-validation and the re-validation reported valid; only then is the
    target assigned. *)
Theorem expected_count_assigned_only_after_revalidation_C10
    (fuel : nat) (T : Z) (m : Machine World) :
  (isValidLayout (this m) (Some T) = Some Valid ->
   updateWindows World runCommand queryWindows fuel T m = Done tt m /\
   expectedCurrentNumMainWindows
     (this (machineOf (updateWindows World runCommand queryWindows fuel T m)))
   = expectedCurrentNumMainWindows (this m)) /\
  (expectedCurrentNumMainWindows
     (this (machineOf (updateWindows World runCommand queryWindows fuel T m)))
   = expectedCurrentNumMainWindows (this m) \/
   exists reason m1,
     isValidLayout (this m) (Some T) = Some (Invalid reason) /\
     rebalance World runCommand queryWindows fuel T m = Done tt m1 /\
     isValidLayout (this m1) (Some T) = Some Valid /\
     updateWindows World runCommand queryWindows fuel T m
     = Done tt (mkMachine (mkWM T (windowsData (this m1)))
                          (yabai m1) (nextAddr m1) (journal m1))).
Proof.
  split.
  - intros Hvalid. rewrite (updateWindows_valid fuel T m Hvalid).
    split; reflexivity.
  - destruct (isValidLayout (this m) (Some T)) as [[|reason]|] eqn:Hfirst.
    + left. now rewrite (updateWindows_valid fuel T m Hfirst).
    + rewrite (updateWindows_invalid fuel T m reason Hfirst).
      destruct (rebalance_journal fuel T m) as (Hexp & _).
      unfold bind.
      destruct (rebalance World runCommand queryWindows fuel T m)
        as [[] m1|e m1|m1] eqn:Hpass; simpl in Hexp |- *.
      * destruct (revalidate_expected T reason m1) as [Hsame|(Hvalid & Hdone)].
        -- left. congruence.
        -- right. exists reason, m1. repeat split; auto.
      * now left.
      * now left.
    + left. now rewrite (updateWindows_raises fuel T m Hfirst).
Qed.

(** *** Pulling windows from the stack *)

Lemma pop_snoc {A : Type} (l : list A) (a : A) : pop (l ++ [a]) = Some (a, l).
Proof. unfold pop. rewrite rev_app_distr. simpl. now rewrite rev_involutive. Qed.

Lemma notEnoughLoop_drains (T : Z) (r : list WindowObj) :
  forall (cur : Z) (fuel : nat) (m : Machine World),
    Z.of_nat (length r) < T - cur ->
    (length r < fuel)%nat ->
    notEnoughLoop World runCommand queryWindows fuel T (rev r) cur m
    = bind World (forEach World (moveWindowToMain World runCommand queryWindows) r)
           (fun _ => throw World TypeError) m.
Proof.
  induction r as [|a r' IH]; intros cur fuel m Hshort Hfuel.
  - destruct fuel as [|fuel]; [inversion Hfuel|].
    simpl in Hshort |- *.
    replace (cur <? T) with true by (symmetry; apply Z.ltb_lt; lia).
    reflexivity.
  - destruct fuel as [|fuel]; [inversion Hfuel|].
    cbn [length] in Hshort, Hfuel.
    cbn [notEnoughLoop rev].
    replace (cur <? T) with true by (symmetry; apply Z.ltb_lt; lia).
    rewrite pop_snoc. cbn [forEach]. unfold bind.
    destruct (moveWindowToMain World runCommand queryWindows a m) as [[] m'|e m'|m'];
      try reflexivity.
    rewrite IH by lia. reflexivity.
Qed.

(** C9. The loop that pulls windows from the stack pops without a guard.
    When more iterations are needed than there are stack windows (and the
    fuel does not run out first), the loop moves every stack window, last
    one first, and then the pop yields [undefined] and the field access
    raises a TypeError: if the moves all succeed the run ends in that
    TypeError, and in no case does the loop return normally. *)
Theorem notEnoughLoop_pops_undefined_C9
    (T cur : Z) (stackWindows : list WindowObj) (fuel : nat) (m : Machine World) :
  Z.of_nat (length stackWindows) < T - cur ->
  (length stackWindows < fuel)%nat ->
  notEnoughLoop World runCommand queryWindows fuel T stackWindows cur m
  = bind World
         (forEach World (moveWindowToMain World runCommand queryWindows) (rev stackWindows))
         (fun _ => throw World TypeError) m /\
  (forall m',
      forEach World (moveWindowToMain World runCommand queryWindows) (rev stackWindows) m
      = Done tt m' ->
      notEnoughLoop World runCommand queryWindows fuel T stackWindows cur m
      = Thrown TypeError m') /\
  (forall result m',
      notEnoughLoop World runCommand queryWindows fuel T stackWindows cur m
      <> Done result m').
Proof.
  intros Hshort Hfuel.
  assert (Heq : notEnoughLoop World runCommand queryWindows fuel T stackWindows cur m
                = bind World
                       (forEach World (moveWindowToMain World runCommand queryWindows)
                                (rev stackWindows))
                       (fun _ => throw World TypeError) m).
  { rewrite <- (rev_involutive stackWindows) at 1.
    apply notEnoughLoop_drains; rewrite length_rev; assumption. }
  split; [exact Heq|]. split.
  - intros m' Hmoves. rewrite Heq. unfold bind. rewrite Hmoves. reflexivity.
  - intros result m'. rewrite Heq. unfold bind, throw.
    destruct (forEach World _ (rev stackWindows) m); discriminate.
Qed.

(** *** A layout on which the middle-window loop never ends *)

Lemma padded_first_validation (world : World) (next : nat) (events : list Event) :
  isValidLayout
    (this (mkMachine (mkWM 1 (allocate 0 Examples.padded)) world next events))
    (Some 1)
  = Some (Invalid (MiddleWindowDetected "Notes")).
Proof. reflexivity. Qed.

Lemma padded_moveWindowToStack_noop (world : World) (next : nat) (events : list Event) :
  moveWindowToStack World runCommand queryWindows
    (mkObj 0 (Examples.window 1 "Notes" 100 0 100 800 horizontal))
    (mkMachine (mkWM 1 (allocate 0 Examples.padded)) world next events)
  = Done tt (mkMachine (mkWM 1 (allocate 0 Examples.padded)) world next events).
Proof. reflexivity. Qed.

Lemma padded_middleLoop (world : World) (next : nat) (events : list Event) (fuel : nat) :
  middleLoop World runCommand queryWindows fuel 1 1
    (mkMachine (mkWM 1 (allocate 0 Examples.padded)) world next events)
  = OutOfFuel (mkMachine (mkWM 1 (allocate 0 Examples.padded)) world next events).
Proof.
  induction fuel as [|fuel IH]; [reflexivity|].
  cbn [middleLoop]. unfold bind at 1. unfold getsE at 1.
  change (getMiddleWindows
            (this (mkMachine (mkWM 1 (allocate 0 Examples.padded)) world next events)))
    with (Some [mkObj 0 (Examples.window 1 "Notes" 100 0 100 800 horizontal);
                mkObj 1 (Examples.window 2 "Mail" 200 0 100 800 horizontal)]).
  cbv iota beta. change (1 <? 1) with false. cbv iota.
  unfold bind at 1. rewrite padded_moveWindowToStack_noop. exact IH.
Qed.

(** C2, the code at the failing input.  Three windows side by side at
    x = 100, 200, 300 (none at the left edge), target count 1: the layout is
    invalid (a middle window), and whatever the external manager and however
    much fuel, [updateWindows] never gets out of the middle-window loop; it
    issues no command and the machine stays as it was. *)
Theorem updateWindows_never_ends_on_padded_C2
    (world : World) (next : nat) (events : list Event) (fuel : nat) :
  1 <= 1 < Z.of_nat (length Examples.padded) /\
  isValidLayout (mkWM 1 (allocate 0 Examples.padded)) (Some 1)
  = Some (Invalid (MiddleWindowDetected "Notes")) /\
  updateWindows World runCommand queryWindows fuel 1
    (mkMachine (mkWM 1 (allocate 0 Examples.padded)) world next events)
  = OutOfFuel (mkMachine (mkWM 1 (allocate 0 Examples.padded)) world next events).
Proof.
  split; [simpl; lia|]. split; [reflexivity|].
  rewrite (updateWindows_invalid fuel 1 _ _ (padded_first_validation world next events)).
  unfold bind at 1.
  assert (Hpass :
    rebalance World runCommand queryWindows fuel 1
      (mkMachine (mkWM 1 (allocate 0 Examples.padded)) world next events)
    = OutOfFuel (mkMachine (mkWM 1 (allocate 0 Examples.padded)) world next events)).
  { unfold rebalance, balance.
    unfold bind at 1. unfold gets at 1. cbv beta iota.
    unfold bind at 1.
    change (createStackIfMissing World runCommand queryWindows 1
              (Z.of_nat (length (windowsData
                 (this (mkMachine (mkWM 1 (allocate 0 Examples.padded)) world next events)))))
              (mkMachine (mkWM 1 (allocate 0 Examples.padded)) world next events))
      with (Done tt (mkMachine (mkWM 1 (allocate 0 Examples.padded)) world next events)).
    cbv beta iota.
    change (Z.of_nat (length (windowsData
              (this (mkMachine (mkWM 1 (allocate 0 Examples.padded)) world next events))))
            >? 2) with true.
    unfold when. unfold bind at 1. unfold getsE at 1.
    change (getMainWindows
              (this (mkMachine (mkWM 1 (allocate 0 Examples.padded)) world next events)))
      with (Some [mkObj 2 (Examples.window 3 "Editor" 300 0 100 800 horizontal)]).
    cbv beta iota zeta.
    change (Z.of_nat (length [mkObj 2 (Examples.window 3 "Editor" 300 0 100 800 horizontal)])
            >? 1) with false.
    cbv iota. unfold bind at 1. unfold ret at 1. cbv beta iota.
    unfold bind at 1.
    change (Z.of_nat (length [mkObj 2 (Examples.window 3 "Editor" 300 0 100 800 horizontal)]))
      with 1.
    rewrite padded_middleLoop. reflexivity. }
  rewrite Hpass. reflexivity.
Qed.

End UpdateWindows.

(** ** Runs against a scripted external manager *)

Import Examples.

Example twoMasters_first_validation :
  isValidLayout (this twoMastersMachine) (Some 1)
  = Some (Invalid (MainCountMismatch 2 2)).
Proof. reflexivity. Qed.

Example twoMasters_rebalance :
  rebalance Script scriptedRun scriptedQuery 5 1 twoMastersMachine = Done tt afterWarp.
Proof. reflexivity. Qed.

Example twoMasters_updateWindows :
  updateWindows Script scriptedRun scriptedQuery 5 1 twoMastersMachine
  = Done tt (mkMachine (mkWM 1 (allocate 3 tidy)) [tidy] 6 [Yabai (Warp 2 1)]).
Proof. reflexivity. Qed.

Example lone_updateWindows :
  updateWindows Script scriptedRun scriptedQuery 0 2 loneMachine
  = Thrown (InvalidLayoutError (MainCountMismatch 1 1))
           (mkMachine (mkWM 1 (allocate 0 lone)) [lone] 1 [EnterCreateStack]).
Proof. reflexivity. Qed.

Lemma revalidation_decides_outcome_C7_witness :
  isValidLayout (this twoMastersMachine) (Some 1) = Some (Invalid (MainCountMismatch 2 2)) /\
  rebalance Script scriptedRun scriptedQuery 5 1 twoMastersMachine = Done tt afterWarp /\
  (forall r, isValidLayout (this afterWarp) (Some 1) = Some (Invalid r) ->
             updateWindows Script scriptedRun scriptedQuery 5 1 twoMastersMachine
             = Thrown (InvalidLayoutError (MainCountMismatch 2 2)) afterWarp) /\
  (isValidLayout (this afterWarp) (Some 1) = Some Valid ->
   updateWindows Script scriptedRun scriptedQuery 5 1 twoMastersMachine
   = Done tt (mkMachine (mkWM 1 (windowsData (this afterWarp)))
                        (yabai afterWarp) (nextAddr afterWarp) (journal afterWarp))).
Proof.
  split; [reflexivity|]. split; [reflexivity|].
  apply (revalidation_decides_outcome_C7 scriptedRun scriptedQuery 5 1
           twoMastersMachine afterWarp (MainCountMismatch 2 2)); reflexivity.
Defined.



Lemma expected_count_assigned_only_after_revalidation_C10_witness :
  (isValidLayout (this twoMastersMachine) (Some 1) = Some Valid ->
   updateWindows Script scriptedRun scriptedQuery 5 1 twoMastersMachine
   = Done tt twoMastersMachine /\
   expectedCurrentNumMainWindows
     (this (machineOf (updateWindows Script scriptedRun scriptedQuery 5 1 twoMastersMachine)))
   = expectedCurrentNumMainWindows (this twoMastersMachine)) /\
  (expectedCurrentNumMainWindows
     (this (machineOf (updateWindows Script scriptedRun scriptedQuery 5 1 twoMastersMachine)))
   = expectedCurrentNumMainWindows (this twoMastersMachine) \/
   exists reason m1,
     isValidLayout (this twoMastersMachine) (Some 1) = Some (Invalid reason) /\
     rebalance Script scriptedRun scriptedQuery 5 1 twoMastersMachine = Done tt m1 /\
     isValidLayout (this m1) (Some 1) = Some Valid /\
     updateWindows Script scriptedRun scriptedQuery 5 1 twoMastersMachine
     = Done tt (mkMachine (mkWM 1 (windowsData (this m1)))
                          (yabai m1) (nextAddr m1) (journal m1))).
Proof.
  exact (expected_count_assigned_only_after_revalidation_C10
           scriptedRun scriptedQuery 5 1 twoMastersMachine).
Defined.

Lemma notEnoughLoop_pops_undefined_C9_witness :
  Z.of_nat (length (getStackWindows (this tidyMachine))) < 5 - 1 /\
  (length (getStackWindows (this tidyMachine)) < 3)%nat /\
  notEnoughLoop Script scriptedRun scriptedQuery 3 5
    (getStackWindows (this tidyMachine)) 1 tidyMachine
  = bind Script
         (forEach Script (moveWindowToMain Script scriptedRun scriptedQuery)
                  (rev (getStackWindows (this tidyMachine))))
         (fun _ => throw Script TypeError) tidyMachine /\
  (forall m',
      forEach Script (moveWindowToMain Script scriptedRun scriptedQuery)
              (rev (getStackWindows (this tidyMachine))) tidyMachine
      = Done tt m' ->
      notEnoughLoop Script scriptedRun scriptedQuery 3 5
        (getStackWindows (this tidyMachine)) 1 tidyMachine
      = Thrown TypeError m') /\
  (forall result m',
      notEnoughLoop Script scriptedRun scriptedQuery 3 5
        (getStackWindows (this tidyMachine)) 1 tidyMachine
      <> Done result m').
Proof.
  split; [simpl; lia|]. split; [simpl; lia|].
  apply (notEnoughLoop_pops_undefined_C9 scriptedRun scriptedQuery 5 1
           (getStackWindows (this tidyMachine)) 3 tidyMachine); simpl; lia.
Defined.

(** With target 5 on the tidy layout of three windows, the run pulls both
    stack windows into main and then dies on the empty array. *)
Example tidy_target_5_raises_TypeError :
  exists m', updateWindows Script scriptedRun scriptedQuery 5 5 tidyMachine
             = Thrown TypeError m' /\
             commandsOf (journal m') = [Warp 1 3; Warp 2 3].
Proof. eexists. split; reflexivity. Qed.

(** ** The top-level error handler *)

Lemma isLocked_iff (error : Main.JsError) :
  Main.isLocked error = true <-> Main.code error = Some "ELOCKED"%string.
Proof.
  unfold Main.isLocked. destruct (Main.code error) as [c|].
  - rewrite String.eqb_eq. split; [now intros -> | now intros [= ->]].
  - split; discriminate.
Qed.

(** C8. The handler tells lock contention from other failures.  An error
    whose code is ['ELOCKED'] is answered with the informational message
    only: nothing goes to the error channel, the handler returns, and the
    promise chain of [main] is fulfilled after releasing the lock.  An error
    with any other code, or with none, is written itself to the error
    channel. *)
Theorem handleMasterError_distinguishes_contention_C8 (error : Main.JsError) :
  (Main.code error = Some "ELOCKED"%string ->
   Main.handleMasterError error = [Main.ConsoleInfo "Lock found...aborting"] /\
   ~ In (Main.ConsoleError error) (Main.handleMasterError error) /\
   Main.main None (Main.Rejected error)
   = Main.Settled Main.Fulfilled
       [Main.ConsoleInfo "Lock found...aborting"; Main.ReleaseHandlerLock]) /\
  (Main.code error <> Some "ELOCKED"%string ->
   Main.handleMasterError error = [Main.ConsoleError error] /\
   Main.main None (Main.Rejected error)
   = Main.Settled Main.Fulfilled [Main.ConsoleError error; Main.ReleaseHandlerLock]).
Proof.
  split.
  - intros Hcode. apply isLocked_iff in Hcode.
    unfold Main.main, Main.finally, Main.catch, Main.handleMasterError.
    simpl. rewrite Hcode. repeat split.
    intros [Hin|[]]. discriminate.
  - intros Hcode.
    assert (Hnot : Main.isLocked error = false).
    { destruct (Main.isLocked error) eqn:Hl; [|reflexivity].
      apply isLocked_iff in Hl. contradiction. }
    unfold Main.main, Main.finally, Main.catch, Main.handleMasterError.
    simpl. rewrite Hnot. split; reflexivity.
Qed.

Lemma handleMasterError_distinguishes_contention_C8_witness :
  Main.code (Main.mkError "Lock file is already being held" (Some "ELOCKED"%string))
  = Some "ELOCKED"%string /\
  Main.handleMasterError
    (Main.mkError "Lock file is already being held" (Some "ELOCKED"%string))
  = [Main.ConsoleInfo "Lock found...aborting"] /\
  Main.code (Main.mkError "Window with id 7 not found." None) <> Some "ELOCKED"%string /\
  Main.handleMasterError (Main.mkError "Window with id 7 not found." None)
  = [Main.ConsoleError (Main.mkError "Window with id 7 not found." None)].
Proof.
  split; [reflexivity|]. split.
  - apply (handleMasterError_distinguishes_contention_C8
             (Main.mkError "Lock file is already being held" (Some "ELOCKED"%string))).
    reflexivity.
  - split; [discriminate|].
    apply (handleMasterError_distinguishes_contention_C8
             (Main.mkError "Window with id 7 not found." None)).
    discriminate.
Defined.

(** ** Validity when the expected count becomes the target

    [isValidLayout] locates the dividing line from the stored expected
    count, and [updateWindows] stores the target only after the
    re-validation.  On snapshots without negative x the layout that was
    valid for the target stays valid once the target is the expected
    count. *)

Lemma middleCheck_valid_iff (this : WindowsManager) (d : Z) (windows : list WindowObj) :
  getDividingLineXCoordinate this = Some d ->
  (middleCheck this windows = Some Valid <->
   forall window, In window windows -> fx window = 0 \/ fx window >= d).
Proof.
  intros Hd. induction windows as [|a rest IH]; simpl.
  - split; [intros _ w [] | reflexivity].
  - rewrite (isMiddleWindow_at this d a Hd).
    destruct (fx a =? 0) eqn:Hx; [apply Z.eqb_eq in Hx | apply Z.eqb_neq in Hx];
      destruct (fx a >=? d) eqn:Hm; rewrite Z.geb_leb in Hm;
      [apply Z.leb_le in Hm | apply Z.leb_gt in Hm
       | apply Z.leb_le in Hm | apply Z.leb_gt in Hm]; simpl.
    + rewrite IH. split; [intros H w [<-|Hw]; auto | intros H w Hw; auto].
    + rewrite IH. split; [intros H w [<-|Hw]; auto | intros H w Hw; auto].
    + rewrite IH. split; [intros H w [<-|Hw]; [right; lia | auto] | intros H w Hw; auto].
    + split; [discriminate|]. intros H.
      destruct (H a (or_introl eq_refl)); [contradiction | lia].
Qed.

Lemma isValidLayout_valid_iff (this : WindowsManager) (T : Z) :
  isValidLayout this (Some T) = Some Valid <->
  exists d,
    getDividingLineXCoordinate this = Some d /\
    T = Z.of_nat (length (filter (fun window : WindowObj => fx window >=? d)
                                 (windowsData this))) /\
    (forall window, In window (windowsData this) -> fx window = 0 \/ fx window >= d).
Proof.
  unfold isValidLayout, getMainWindows.
  destruct (getDividingLineXCoordinate this) as [d|] eqn:Hd.
  - destruct (T =? Z.of_nat (length (filter _ (windowsData this)))) eqn:HT; simpl.
    + apply Z.eqb_eq in HT. rewrite (middleCheck_valid_iff this d _ Hd).
      split.
      * intros H. exists d. auto.
      * intros (d' & [= <-] & _ & H). exact H.
    + apply Z.eqb_neq in HT. split; [discriminate|].
      intros (d' & [= <-] & HT' & _). contradiction.
  - split; [discriminate | intros (d' & Hd' & _); discriminate].
Qed.

Lemma eligibleWindows_In (this : WindowsManager) (R a : WindowObj) :
  In a (eligibleWindows this R) <->
  In a (windowsData this) /\ fx a <> 0 /\ fx a <= fx R.
Proof.
  unfold eligibleWindows, nonStackWindows, isStackWindow. split.
  - intros Hin. apply (Permutation_in _ (sort_perm _ _)) in Hin.
    rewrite !filter_In, negb_true_iff, Z.eqb_neq, Z.leb_le in Hin. tauto.
  - intros (Hin & Hx & Hle).
    apply (Permutation_in _ (Permutation_sym (sort_perm _ _))).
    rewrite !filter_In, negb_true_iff, Z.eqb_neq, Z.leb_le. tauto.
Qed.

(** With every non-stack window at or right of a positive line, the main
    windows are the non-stack windows. *)
Lemma main_is_nonStack (this : WindowsManager) (d : Z) :
  0 < d ->
  (forall window, In window (windowsData this) -> fx window = 0 \/ fx window >= d) ->
  filter (fun window : WindowObj => fx window >=? d) (windowsData this)
  = nonStackWindows this.
Proof.
  intros Hpos Hsep. unfold nonStackWindows, isStackWindow.
  apply filter_ext_in. intros a Ha.
  destruct (Hsep a Ha) as [Hx|Hx].
  - rewrite Hx. simpl. rewrite Z.geb_leb. apply Z.leb_gt. lia.
  - replace (fx a =? 0) with false by (symmetry; apply Z.eqb_neq; lia).
    simpl. rewrite Z.geb_leb. apply Z.leb_le. lia.
Qed.

Lemma last_pair_only (k : Z) (E : list WindowObj) (j : nat) :
  qualifies k (k + Z.of_nat (length E)) E j -> S (S j) = length E.
Proof.
  intros (a & b & Ha & Hb & _ & Hk).
  assert (Hlt : (S j < length E)%nat) by (apply nth_error_Some; congruence).
  lia.
Qed.

Lemma getDividingLineXCoordinate_why (this : WindowsManager) (R : WindowObj) (d : Z) :
  getTopRightWindow this = Some R ->
  getDividingLineXCoordinate this = Some d ->
  let m := expectedCurrentNumMainWindows this in
  let k := numWindowsToRightOfTopRightWindow this R in
  let E := eligibleWindows this R in
  (d = fx R /\ (m = 1 \/ k >= m \/ forall j, ~ qualifies k m E j)) \/
  (exists j a, qualifies k m E j /\ nth_error E j = Some a /\ d = fx a).
Proof.
  intros HR. unfold getDividingLineXCoordinate. rewrite HR. cbv zeta.
  destruct (expectedCurrentNumMainWindows this =? 1) eqn:Hm.
  - apply Z.eqb_eq in Hm. intros [= <-]. left. auto.
  - destruct (numWindowsToRightOfTopRightWindow this R >=? _) eqn:Hk.
    + rewrite Z.geb_leb in Hk. apply Z.leb_le in Hk.
      intros [= <-]. left. split; [reflexivity | right; left; lia].
    + pose proof (pairLoop_first this (eligibleWindows this R)
                    (numWindowsToRightOfTopRightWindow this R) 0) as Hscan.
      rewrite Z.add_0_r in Hscan.
      destruct (pairLoop _ _ _ _) as [v|]; intros [= <-].
      * right. destruct Hscan as (j & a & (Hq & _) & Hnth & Hv). eauto.
      * left. auto.
Qed.

(** The heart of the matter: a positive line that separates the snapshot
    for some expected count is matched, for the expected count equal to the
    number of non-stack windows, by a positive line that separates it the
    same way. *)
Lemma line_for_count_separates (windows : list WindowObj) (E0 d : Z) :
  getDividingLineXCoordinate (mkWM E0 windows) = Some d ->
  0 < d ->
  (forall window, In window windows -> fx window = 0 \/ fx window >= d) ->
  exists d',
    getDividingLineXCoordinate
      (mkWM (Z.of_nat (length (nonStackWindows (mkWM E0 windows)))) windows) = Some d' /\
    0 < d' /\
    (forall window, In window windows -> fx window <> 0 -> fx window >= d').
Proof.
  intros Hd Hpos Hsep.
  set (N := nonStackWindows (mkWM E0 windows)).
  set (T := Z.of_nat (length N)).
  assert (Hne : windows <> []) by (intros ->; discriminate Hd).
  destruct (getTopRightWindow_spec (mkWM E0 windows) Hne) as (R & HR & HinR & _).
  simpl in HinR.
  assert (HRT : getTopRightWindow (mkWM T windows) = Some R) by exact HR.
  pose proof (getDividingLineXCoordinate_le_top _ R d HR Hd) as HdR.
  set (E := eligibleWindows (mkWM T windows) R).
  set (k := numWindowsToRightOfTopRightWindow (mkWM T windows) R).
  assert (HinE : forall a, In a E <-> In a windows /\ fx a <> 0 /\ fx a <= fx R)
    by (intros a; apply (eligibleWindows_In (mkWM T windows))).
  assert (HRE : In R E) by (apply HinE; repeat split; [assumption | lia | lia]).
  assert (Hright : forall a, In a windows -> fx a <> 0 -> fx a >= fx R \/ In a E).
  { intros a Ha Hx. destruct (Z_le_gt_dec (fx a) (fx R)); [right | left; lia].
    apply HinE. auto. }
  assert (HEpos : (0 < length E)%nat) by (destruct E; [contradiction | simpl; lia]).
  assert (HlenE : (length E <= length N)%nat).
  { unfold E, eligibleWindows. rewrite sort_length. apply filter_length_le. }
  assert (HkT : T = k + Z.of_nat (length E) /\ 0 <= k).
  { unfold k, numWindowsToRightOfTopRightWindow. fold E.
    change (nonStackWindows (mkWM T windows)) with N. fold T. lia. }
  destruct HkT as (HkT & Hk0).
  assert (Hsorted : StronglySorted xDescending E) by apply sort_xDescending.
  assert (Hfloor : forall a, In a E -> fx a >= d).
  { intros a Ha. apply HinE in Ha. destruct Ha as (Ha & Hx & _).
    destruct (Hsep a Ha); [contradiction | assumption]. }
  assert (Hindex : forall a, In a E ->
            exists i, nth_error E i = Some a /\ (i < length E)%nat).
  { intros a Ha. destruct (In_nth_error E a Ha) as (i & Hi).
    exists i. split; [exact Hi | apply nth_error_Some; congruence]. }
  destruct (getDividingLineXCoordinate_some (mkWM T windows) Hne) as (d' & Hd').
  exists d'. split; [exact Hd'|].
  pose proof (getDividingLineXCoordinate_why _ R d' HRT Hd') as Hcase.
  cbv zeta in Hcase. cbn [expectedCurrentNumMainWindows] in Hcase. fold E k in Hcase.
  destruct Hcase as [(-> & Hwhy)|(j & a & Hq & Hnth & ->)].
  - (* the line for T is R's x *)
    split; [lia|].
    intros w Hw Hx.
    destruct (Hright w Hw Hx) as [Hge|HwE]; [exact Hge|].
    destruct Hwhy as [HT1|[HkT'|Hnone]].
    + (* T = 1: R is the only eligible window *)
      assert (Hone : length E = 1%nat) by lia.
      destruct E as [|e [|e' E']]; try discriminate Hone.
      destruct HRE as [<-|[]]. destruct HwE as [<-|[]]. lia.
    + lia.
    + (* no pair qualifies: then nothing eligible lies left of R *)
      pose proof (getDividingLineXCoordinate_why _ R d HR Hd) as Hcase.
      cbv zeta in Hcase.
      change (eligibleWindows (mkWM E0 windows) R) with E in Hcase.
      destruct Hcase as [(Hdeq & _)|(j1 & a1 & Hq1 & Hnth1 & Hdeq)].
      * rewrite <- Hdeq. exact (Hfloor w HwE).
      * exfalso.
        destruct Hq1 as (a1' & b1 & Ha1 & Hb1 & Hx1 & _).
        rewrite Hnth1 in Ha1. injection Ha1 as <-.
        assert (Hlen2 : (S j1 < length E)%nat) by (apply nth_error_Some; congruence).
        destruct (nth_error E (length E - 2)) as [p|] eqn:Hp;
          [|apply nth_error_None in Hp; lia].
        destruct (nth_error E (S (length E - 2))) as [q|] eqn:Hq';
          [|apply nth_error_None in Hq'; lia].
        assert (Hpd : fx p >= d) by (apply Hfloor; eapply nth_error_In; eauto).
        assert (Hqd : fx q >= d) by (apply Hfloor; eapply nth_error_In; eauto).
        assert (Hbq : fx b1 >= fx q).
        { apply (xDescending_nth E Hsorted (S j1) (S (length E - 2))); auto. lia. }
        assert (Hap : fx a1 >= fx p).
        { apply (xDescending_nth E Hsorted j1 (length E - 2)); auto. lia. }
        apply (Hnone (length E - 2)%nat).
        exists p, q. repeat split; auto; lia.
  - (* the line for T comes from a pair, which can only be the last one *)
    rewrite HkT in Hq. pose proof (last_pair_only _ _ _ Hq) as Hj.
    destruct Hq as (a' & b & Ha & Hb & Hx & _).
    rewrite Hnth in Ha. injection Ha as <-.
    assert (HaE : In a E) by (eapply nth_error_In; eauto).
    split.
    + pose proof (Hfloor a HaE). lia.
    + intros w Hw Hxw.
      destruct (Hright w Hw Hxw) as [Hge|HwE].
      * apply HinE in HaE. lia.
      * destruct (Hindex w HwE) as (iw & Hiw & Hiwlt).
        assert (fx w >= fx b).
        { apply (xDescending_nth E Hsorted iw (S j)); auto. lia. }
        lia.
Qed.

Lemma filter_all {A : Type} (p : A -> bool) (l : list A) :
  (forall a, In a l -> p a = true) -> filter p l = l.
Proof.
  induction l as [|a rest IH]; intros Hp; simpl; [reflexivity|].
  rewrite (Hp a (or_introl eq_refl)), IH; [reflexivity|].
  intros b Hb. apply Hp. now right.
Qed.

(** A layout that is valid for target [T] under some expected count is
    valid for [T] under expected count [T], when no window has a negative
    x. *)
Lemma valid_once_target_is_expected (E0 T : Z) (windows : list WindowObj) :
  (forall window, In window windows -> 0 <= fx window) ->
  isValidLayout (mkWM E0 windows) (Some T) = Some Valid ->
  isValidLayout (mkWM T windows) (Some T) = Some Valid.
Proof.
  intros Hnonneg Hvalid.
  apply isValidLayout_valid_iff in Hvalid.
  destruct Hvalid as (d & Hd & HT & Hsep). cbn [windowsData] in HT, Hsep.
  apply isValidLayout_valid_iff. cbn [windowsData].
  destruct (Z_lt_le_dec 0 d) as [Hpos|Hle].
  - pose proof (main_is_nonStack (mkWM E0 windows) d Hpos Hsep) as Hmain.
    cbn [windowsData] in Hmain. rewrite Hmain in HT.
    destruct (line_for_count_separates windows E0 d Hd Hpos Hsep)
      as (d' & Hd' & Hpos' & Hsep').
    rewrite <- HT in Hd'.
    exists d'. split; [exact Hd'|].
    assert (Hsep'' : forall window, In window windows -> fx window = 0 \/ fx window >= d').
    { intros w Hw. destruct (Z.eq_dec (fx w) 0); [now left | right; auto]. }
    split; [|exact Hsep''].
    pose proof (main_is_nonStack (mkWM T windows) d' Hpos' Hsep'') as Hmain'.
    cbn [windowsData] in Hmain'. rewrite Hmain'. exact HT.
  - assert (Hne : windows <> []) by (intros ->; discriminate Hd).
    destruct (getTopRightWindow_spec (mkWM E0 windows) Hne) as (R & HR & HinR & _).
    simpl in HinR.
    destruct (getDividingLineXCoordinate_some (mkWM T windows) Hne) as (d' & Hd').
    pose proof (getDividingLineXCoordinate_le_top (mkWM T windows) R d' HR Hd') as HdR'.
    assert (HR0 : fx R = 0).
    { destruct (getDividingLineXCoordinate_cases _ R d HR Hd)
        as [->|(j & a & _ & Hnth & ->)].
      - pose proof (Hnonneg R HinR). lia.
      - apply nth_error_In in Hnth. apply eligibleWindows_In in Hnth.
        destruct Hnth as (Ha & Hx & _). pose proof (Hnonneg a Ha). lia. }
    exists d'. split; [exact Hd'|]. split.
    + rewrite HT. f_equal. f_equal.
      rewrite !filter_all; [reflexivity| |];
        intros a Ha; pose proof (Hnonneg a Ha);
        rewrite Z.geb_leb; apply Z.leb_le; lia.
    + intros w Hw. pose proof (Hnonneg w Hw). right. lia.
Qed.

Section Idempotence.

Context {World : Type}.
Variable runCommand : Command -> World -> option World.
Variable queryWindows : World -> option (list Window).

(** Whatever the call did, when it returns normally and the snapshot it
    leaves has no negative x, that snapshot is valid for the target under
    the expected count the call has stored. *)
Lemma updateWindows_leaves_valid (fuel : nat) (T : Z) (m m1 : Machine World) :
  updateWindows World runCommand queryWindows fuel T m = Done tt m1 ->
  (forall window, In window (windowsData (this m1)) -> 0 <= fx window) ->
  isValidLayout (this m1) (Some T) = Some Valid.
Proof.
  intros Hfirst Hnonneg.
  destruct (isValidLayout (this m) (Some T)) as [[|reason]|] eqn:Hcheck.
  - rewrite (updateWindows_valid runCommand queryWindows fuel T m Hcheck) in Hfirst.
    injection Hfirst as <-. exact Hcheck.
  - rewrite (updateWindows_invalid runCommand queryWindows fuel T m reason Hcheck) in Hfirst.
    unfold bind in Hfirst.
    destruct (rebalance World runCommand queryWindows fuel T m) as [[] m'|e m'|m'];
      try discriminate.
    unfold revalidate, bind, getsE in Hfirst.
    destruct (isValidLayout (this m') (Some T)) as [[|r]|] eqn:Hre; try discriminate.
    injection Hfirst as <-. cbn [this windowsData] in *.
    destruct (this m') as [E0 windows] eqn:Hthis. cbn [windowsData] in *.
    exact (valid_once_target_is_expected E0 T windows Hnonneg Hre).
  - rewrite (updateWindows_raises runCommand queryWindows fuel T m Hcheck) in Hfirst.
    discriminate.
Qed.

(** So a second call with the same target returns at once and issues no
    command. *)
Lemma updateWindows_twice (fuel fuel' : nat) (T : Z) (m m1 : Machine World) :
  updateWindows World runCommand queryWindows fuel T m = Done tt m1 ->
  (forall window, In window (windowsData (this m1)) -> 0 <= fx window) ->
  updateWindows World runCommand queryWindows fuel' T m1 = Done tt m1.
Proof.
  intros Hfirst Hnonneg.
  apply updateWindows_valid.
  exact (updateWindows_leaves_valid fuel T m m1 Hfirst Hnonneg).
Qed.

(** C5. When [isValidLayout] reports valid for the target, [updateWindows]
    returns at once: the machine (manager fields, external manager,
    journal) is unchanged, so no yabai command was issued, and a second
    call does the same.  When the first call had to rebalance and returned,
    the layout it leaves was validated with the expected count of before
    the call, while the second call validates with the target stored since:
    if no window of the snapshot left has a negative x, the layout is valid
    for the second call too, which returns at once and issues no
    command. *)
Theorem updateWindows_second_call_is_noop_C5 (fuel fuel' : nat) (T : Z) (m : Machine World) :
  (isValidLayout (this m) (Some T) = Some Valid ->
   updateWindows World runCommand queryWindows fuel T m = Done tt m /\
   commandsOf (journal (machineOf (updateWindows World runCommand queryWindows fuel T m)))
   = commandsOf (journal m) /\
   bind World (updateWindows World runCommand queryWindows fuel T)
        (fun _ => updateWindows World runCommand queryWindows fuel' T) m
   = Done tt m) /\
  (forall m1,
      updateWindows World runCommand queryWindows fuel T m = Done tt m1 ->
      (forall window, In window (windowsData (this m1)) -> 0 <= fx window) ->
      isValidLayout (this m1) (Some T) = Some Valid /\
      updateWindows World runCommand queryWindows fuel' T m1 = Done tt m1 /\
      commandsOf (journal (machineOf
        (updateWindows World runCommand queryWindows fuel' T m1)))
      = commandsOf (journal m1) /\
      bind World (updateWindows World runCommand queryWindows fuel T)
           (fun _ => updateWindows World runCommand queryWindows fuel' T) m
      = Done tt m1).
Proof.
  split.
  - intros Hvalid.
    pose proof (updateWindows_valid runCommand queryWindows fuel T m Hvalid) as Hnoop.
    pose proof (updateWindows_valid runCommand queryWindows fuel' T m Hvalid) as Hnoop'.
    split; [exact Hnoop|]. split.
    + rewrite Hnoop. reflexivity.
    + unfold bind. rewrite Hnoop. exact Hnoop'.
  - intros m1 Hfirst Hnonneg.
    pose proof (updateWindows_twice fuel fuel' T m m1 Hfirst Hnonneg) as Hsecond.
    split; [exact (updateWindows_leaves_valid fuel T m m1 Hfirst Hnonneg)|].
    split; [exact Hsecond|]. split.
    + rewrite Hsecond. reflexivity.
    + unfold bind. rewrite Hfirst. exact Hsecond.
Qed.

End Idempotence.

Lemma updateWindows_second_call_is_noop_C5_witness :
  (isValidLayout (this tidyMachine) (Some 1) = Some Valid /\
   updateWindows Script scriptedRun scriptedQuery 5 1 tidyMachine = Done tt tidyMachine /\
   commandsOf (journal (machineOf
     (updateWindows Script scriptedRun scriptedQuery 5 1 tidyMachine)))
   = commandsOf (journal tidyMachine) /\
   bind Script (updateWindows Script scriptedRun scriptedQuery 5 1)
        (fun _ => updateWindows Script scriptedRun scriptedQuery 3 1) tidyMachine
   = Done tt tidyMachine) /\
  (isValidLayout (this twoMastersMachine) (Some 1)
   = Some (Invalid (MainCountMismatch 2 2)) /\
   updateWindows Script scriptedRun scriptedQuery 5 1 twoMastersMachine
   = Done tt (mkMachine (mkWM 1 (allocate 3 tidy)) [tidy] 6 [Yabai (Warp 2 1)]) /\
   (forall window, In window (allocate 3 tidy) -> 0 <= fx window) /\
   isValidLayout (mkWM 1 (allocate 3 tidy)) (Some 1) = Some Valid /\
   updateWindows Script scriptedRun scriptedQuery 3 1
     (mkMachine (mkWM 1 (allocate 3 tidy)) [tidy] 6 [Yabai (Warp 2 1)])
   = Done tt (mkMachine (mkWM 1 (allocate 3 tidy)) [tidy] 6 [Yabai (Warp 2 1)]) /\
   commandsOf (journal (machineOf
     (updateWindows Script scriptedRun scriptedQuery 3 1
        (mkMachine (mkWM 1 (allocate 3 tidy)) [tidy] 6 [Yabai (Warp 2 1)]))))
   = [Warp 2 1] /\
   bind Script (updateWindows Script scriptedRun scriptedQuery 5 1)
        (fun _ => updateWindows Script scriptedRun scriptedQuery 3 1) twoMastersMachine
   = Done tt (mkMachine (mkWM 1 (allocate 3 tidy)) [tidy] 6 [Yabai (Warp 2 1)])).
Proof.
  assert (Hnonneg : forall window : WindowObj, In window (allocate 3 tidy) -> 0 <= fx window).
  { intros window [<-|[<-|[<-|[]]]]; unfold fx; simpl; lia. }
  split.
  - split; [reflexivity|].
    exact (proj1 (updateWindows_second_call_is_noop_C5 scriptedRun scriptedQuery 5 3 1
                    tidyMachine) eq_refl).
  - split; [reflexivity|]. split; [reflexivity|]. split; [exact Hnonneg|].
    exact (proj2 (updateWindows_second_call_is_noop_C5 scriptedRun scriptedQuery 5 3 1
                    twoMastersMachine)
                 (mkMachine (mkWM 1 (allocate 3 tidy)) [tidy] 6 [Yabai (Warp 2 1)])
                 eq_refl Hnonneg).
Defined.

(** C5, the claim as stated fails: a second call with the same target can
    issue commands.  With a second display to the left, two main windows
    expected and target 4, the first call moves "Notes" to the main display
    and returns: the layout it leaves is valid for 4 with the dividing line
    of expected count 2, which is at x = -1280.  The call stores 4 as the
    expected count; with it the dividing line is at x = 0, only two windows
    are main, and the second call moves "Mail". *)
Lemma second_call_issues_a_command_C5 :
  isValidLayout (this twoDisplaysMachine) (Some 4)
  = Some (Invalid (MainCountMismatch 3 2)) /\
  updateWindows Script scriptedRun scriptedQuery 5 4 twoDisplaysMachine
  = Done tt fourMainsMachine /\
  getDividingLineXCoordinate (mkWM 2 (windowsData (this fourMainsMachine)))
  = Some (-1280) /\
  getDividingLineXCoordinate (this fourMainsMachine) = Some 0 /\
  isValidLayout (this fourMainsMachine) (Some 4)
  = Some (Invalid (MainCountMismatch 2 4)) /\
  (exists rest,
      commandsOf (journal (machineOf
        (updateWindows Script scriptedRun scriptedQuery 5 4 fourMainsMachine)))
      = commandsOf (journal fourMainsMachine) ++ Warp 2 1 :: rest) /\
  ~ (forall fuel T (m m1 : Machine Script),
        updateWindows Script scriptedRun scriptedQuery fuel T m = Done tt m1 ->
        commandsOf (journal (machineOf
          (updateWindows Script scriptedRun scriptedQuery fuel T m1)))
        = commandsOf (journal m1)).
Proof.
  split; [reflexivity|]. split; [reflexivity|]. split; [reflexivity|].
  split; [reflexivity|]. split; [reflexivity|]. split.
  - exists []. reflexivity.
  - intros Hnoop.
    specialize (Hnoop 5%nat 4 twoDisplaysMachine fourMainsMachine eq_refl).
    discriminate.
Qed.

(** * Further properties *)

(** ** Picking an extreme window with a loop *)

Section FirstBest.

Context {A : Type}.
Variable key : A -> Z.
Variable better : A -> A -> bool.

(** A loop that replaces the current choice only by a strictly better
    element ends on the first element of greatest key. *)
Lemma firstBest_fold (l : list A) :
  (forall a b, better a b = true <-> key a > key b) ->
  forall start,
  exists pre post,
    start :: l
    = pre ++ fold_left (fun best a => if better a best then a else best) l start :: post /\
    (forall a, In a pre ->
       key a < key (fold_left (fun best a => if better a best then a else best) l start)) /\
    (forall a, In a post ->
       key a <= key (fold_left (fun best a => if better a best then a else best) l start)).
Proof.
  intros Hbetter. induction l as [|a rest IH]; intros start.
  - exists [], []. simpl. repeat split; intros b [].
  - simpl. destruct (better a start) eqn:Hcmp.
    + apply Hbetter in Hcmp.
      destruct (IH a) as (pre & post & Heq & Hpre & Hpost).
      set (best := fold_left _ rest a) in *.
      assert (Ha : key a <= key best).
      { destruct pre as [|p pre']; simpl in Heq; injection Heq as Hhead _.
        - rewrite Hhead. lia.
        - subst p. pose proof (Hpre a (or_introl eq_refl)). lia. }
      exists (start :: pre), post. simpl. rewrite Heq. split; [reflexivity|].
      split; [|exact Hpost].
      intros b [<-|Hb]; [lia | auto].
    + assert (Hle : key a <= key start).
      { destruct (Z_le_gt_dec (key a) (key start)) as [H|H]; [exact H|].
        apply Hbetter in H. congruence. }
      destruct (IH start) as (pre & post & Heq & Hpre & Hpost).
      set (best := fold_left _ rest start) in *.
      destruct pre as [|p pre']; simpl in Heq; injection Heq as Hhead Htail.
      * exists [], (a :: post). simpl. rewrite <- Hhead, Htail.
        split; [reflexivity|]. split; [intros b []|].
        intros b [<-|Hb]; [lia | rewrite Hhead; auto].
      * subst p. exists (start :: a :: pre'), post. simpl. rewrite Htail.
        split; [reflexivity|]. split; [|exact Hpost].
        pose proof (Hpre start (or_introl eq_refl)).
        intros b [<-|[<-|Hb]]; [assumption | lia | apply Hpre; now right].
Qed.

(** A loop that also replaces the current choice by an equally good element
    ends on the last element of greatest key. *)
Lemma lastBest_fold (l : list A) :
  (forall a b, better a b = true <-> key a >= key b) ->
  forall start,
  exists pre post,
    start :: l
    = pre ++ fold_left (fun best a => if better a best then a else best) l start :: post /\
    (forall a, In a pre ->
       key a <= key (fold_left (fun best a => if better a best then a else best) l start)) /\
    (forall a, In a post ->
       key a < key (fold_left (fun best a => if better a best then a else best) l start)).
Proof.
  intros Hbetter. induction l as [|a rest IH]; intros start.
  - exists [], []. simpl. repeat split; intros b [].
  - simpl. destruct (better a start) eqn:Hcmp.
    + apply Hbetter in Hcmp.
      destruct (IH a) as (pre & post & Heq & Hpre & Hpost).
      set (best := fold_left _ rest a) in *.
      assert (Ha : key a <= key best).
      { destruct pre as [|p pre']; simpl in Heq; injection Heq as Hhead _.
        - rewrite Hhead. lia.
        - subst p. exact (Hpre a (or_introl eq_refl)). }
      exists (start :: pre), post. simpl. rewrite Heq. split; [reflexivity|].
      split; [|exact Hpost].
      intros b [<-|Hb]; [lia | auto].
    + assert (Hlt : key a < key start).
      { destruct (Z_lt_ge_dec (key a) (key start)) as [H|H]; [exact H|].
        apply Hbetter in H. congruence. }
      destruct (IH start) as (pre & post & Heq & Hpre & Hpost).
      set (best := fold_left _ rest start) in *.
      destruct pre as [|p pre']; simpl in Heq; injection Heq as Hhead Htail.
      * exists [], (a :: post). simpl. rewrite <- Hhead, Htail.
        split; [reflexivity|]. split; [intros b []|].
        intros b [<-|Hb]; [lia | rewrite Hhead; auto].
      * subst p. exists (start :: a :: pre'), post. simpl. rewrite Htail.
        split; [reflexivity|]. split; [|exact Hpost].
        pose proof (Hpre start (or_introl eq_refl)).
        intros b [<-|[<-|Hb]]; [assumption | lia | apply Hpre; now right].
Qed.

End FirstBest.

(** ** The extreme windows of a snapshot *)

Lemma decomposition_In {A : Type} (l pre post : list A) (a : A) :
  l = pre ++ a :: post -> In a l.
Proof. intros ->. apply in_or_app. right. now left. Qed.

(** X1. On a non-empty snapshot [getTopRightWindow] returns a window of
    least y; within the top row (the windows of that y, in snapshot order)
    it is the first window of greatest x: everything before it in the row
    is strictly left of it, everything after it is not right of it. *)
Theorem getTopRightWindow_first_rightmost_of_top_row_X1 (this : WindowsManager) :
  windowsData this <> [] ->
  exists R pre post,
    getTopRightWindow this = Some R /\
    (forall window, In window (windowsData this) -> fy R <= fy window) /\
    filter (fun window : WindowObj => fy window =? fy R) (windowsData this)
    = pre ++ R :: post /\
    (forall window, In window pre -> fx window < fx R) /\
    (forall window, In window post -> fx window <= fx R).
Proof.
  intros Hne. unfold getTopRightWindow.
  destruct (windowsData this) as [|first rest] eqn:Hws; [contradiction|].
  rewrite <- Hws. set (ws := windowsData this).
  pose proof (lowest_fold ws (fy first)) as Hlow. cbv zeta in Hlow.
  set (lowestY := fold_left _ ws (fy first)) in *.
  destruct Hlow as (_ & Hall & Hhit).
  assert (Hattained : exists window, In window ws /\ fy window = lowestY).
  { destruct Hhit as [Heq|Hex]; [|exact Hex].
    exists first. split; [subst ws; rewrite Hws; now left | now symmetry]. }
  destruct Hattained as (w0 & Hin0 & Hy0).
  destruct (filter _ ws) as [|top0 tops] eqn:Htops.
  - exfalso.
    assert (Hin : In w0 (filter (fun window : WindowObj => fy window =? lowestY) ws)).
    { apply filter_In. split; [assumption | now apply Z.eqb_eq]. }
    rewrite Htops in Hin. exact Hin.
  - cbn [fold_left]. rewrite Z.gtb_ltb, Z.ltb_irrefl.
    destruct (firstBest_fold (fun w : WindowObj => fx w)
                (fun a b : WindowObj => fx a >? fx b) tops
                (fun a b => conj (fun H => proj1 (Z.gtb_gt _ _) H)
                                 (fun H => proj2 (Z.gtb_gt _ _) H)) top0)
      as (pre & post & Heq & Hpre & Hpost).
    cbv beta in Heq, Hpre, Hpost.
    set (R := fold_left _ tops top0) in *.
    assert (HyR : fy R = lowestY).
    { assert (HinR : In R (filter (fun window : WindowObj => fy window =? lowestY) ws)).
      { rewrite Htops. eapply decomposition_In; eauto. }
      apply filter_In in HinR. now apply Z.eqb_eq. }
    exists R, pre, post. split; [reflexivity|]. split.
    + intros window Hw. rewrite HyR. auto.
    + rewrite HyR, Htops. auto.
Qed.

Lemma getTopRightWindow_first_rightmost_of_top_row_X1_witness :
  windowsData (mkWM 1 Examples.splitColumn) <> [] /\
  exists R pre post,
    getTopRightWindow (mkWM 1 Examples.splitColumn) = Some R /\
    (forall window, In window (windowsData (mkWM 1 Examples.splitColumn)) ->
                    fy R <= fy window) /\
    filter (fun window : WindowObj => fy window =? fy R)
           (windowsData (mkWM 1 Examples.splitColumn))
    = pre ++ R :: post /\
    (forall window, In window pre -> fx window < fx R) /\
    (forall window, In window post -> fx window <= fx R).
Proof.
  split.
  - discriminate.
  - apply (getTopRightWindow_first_rightmost_of_top_row_X1 (mkWM 1 Examples.splitColumn)).
    discriminate.
Defined.

(** X2. [getTopLeftWindow] is [undefined] exactly when no window is at
    x = 0.  Otherwise it returns a window at x = 0 of least y, and among the
    windows at x = 0 (in snapshot order) the last one of least y: the loop
    compares with [<=]. *)
Theorem getTopLeftWindow_last_topmost_at_left_edge_X2 (this : WindowsManager) :
  (getTopLeftWindow this = None <->
   forall window, In window (windowsData this) -> fx window <> 0) /\
  (forall topLeft, getTopLeftWindow this = Some topLeft ->
     exists pre post,
       filter (fun window : WindowObj => fx window =? 0) (windowsData this)
       = pre ++ topLeft :: post /\
       fx topLeft = 0 /\
       (forall window, In window pre -> fy topLeft <= fy window) /\
       (forall window, In window post -> fy topLeft < fy window)).
Proof.
  unfold getTopLeftWindow.
  destruct (filter (fun window : WindowObj => fx window =? 0) (windowsData this))
    as [|left0 lefts] eqn:Hleft.
  - split.
    + split; [|reflexivity]. intros _ window Hw Hx.
      assert (Hin : In window (filter (fun window : WindowObj => fx window =? 0)
                                      (windowsData this))).
      { apply filter_In. split; [assumption | now apply Z.eqb_eq]. }
      rewrite Hleft in Hin. exact Hin.
    + intros topLeft [=].
  - split.
    + split; [discriminate|]. intros Hnone. exfalso.
      assert (Hin : In left0 (filter (fun window : WindowObj => fx window =? 0)
                                     (windowsData this))) by (rewrite Hleft; now left).
      apply filter_In in Hin. destruct Hin as (Hin & Hx). apply Z.eqb_eq in Hx.
      exact (Hnone left0 Hin Hx).
    + intros topLeft [= <-]. cbn [fold_left]. rewrite Z.leb_refl.
      assert (Hbetter : forall a b : WindowObj,
                 (fy a <=? fy b) = true <-> - fy a >= - fy b).
      { intros a b. rewrite Z.leb_le. lia. }
      destruct (lastBest_fold (fun w : WindowObj => - fy w)
                  (fun a b : WindowObj => fy a <=? fy b) lefts Hbetter left0)
        as (pre & post & Heq & Hpre & Hpost).
      cbv beta in Heq, Hpre, Hpost.
      set (topLeft := fold_left _ lefts left0) in *.
      exists pre, post. split; [exact Heq|]. split; [|split].
      * assert (Hin : In topLeft (filter (fun window : WindowObj => fx window =? 0)
                                         (windowsData this)))
          by (rewrite Hleft; eapply decomposition_In; eauto).
        apply filter_In in Hin. now apply Z.eqb_eq.
      * intros window Hw. specialize (Hpre window Hw). cbv beta in Hpre. lia.
      * intros window Hw. specialize (Hpost window Hw). cbv beta in Hpost. lia.
Qed.

Lemma getTopLeftWindow_last_topmost_at_left_edge_X2_witness :
  getTopLeftWindow (mkWM 1 Examples.stackAndMaster)
  = Some (mkObj 0 (Examples.window 1 "Notes" 0 0 640 400 horizontal)) /\
  exists pre post,
    filter (fun window : WindowObj => fx window =? 0)
           (windowsData (mkWM 1 Examples.stackAndMaster))
    = pre ++ mkObj 0 (Examples.window 1 "Notes" 0 0 640 400 horizontal) :: post /\
    fx (mkObj 0 (Examples.window 1 "Notes" 0 0 640 400 horizontal)) = 0 /\
    (forall window, In window pre ->
       fy (mkObj 0 (Examples.window 1 "Notes" 0 0 640 400 horizontal)) <= fy window) /\
    (forall window, In window post ->
       fy (mkObj 0 (Examples.window 1 "Notes" 0 0 640 400 horizontal)) < fy window).
Proof.
  split.
  - reflexivity.
  - apply (proj2 (getTopLeftWindow_last_topmost_at_left_edge_X2
                    (mkWM 1 Examples.stackAndMaster))).
    reflexivity.
Defined.

Lemma widest_from (rest : list WindowObj) (a : WindowObj) :
  fold_left (fun (widestWindow : option WindowObj) (window : WindowObj) =>
               match widestWindow with
               | None => Some window
               | Some cur => if fw window >? fw cur then Some window else Some cur
               end)
            rest (Some a)
  = Some (fold_left (fun (best window : WindowObj) =>
                       if fw window >? fw best then window else best) rest a).
Proof.
  revert a. induction rest as [|b rest IH]; intros a; simpl; [reflexivity|].
  destruct (fw b >? fw a); apply IH.
Qed.

Lemma widest_first_best (windows : list WindowObj) :
  (widest windows = None <-> windows = []) /\
  (forall w, widest windows = Some w ->
     exists pre post,
       windows = pre ++ w :: post /\
       (forall window, In window pre -> fw window < fw w) /\
       (forall window, In window post -> fw window <= fw w)).
Proof.
  unfold widest. destruct windows as [|a rest].
  - split; [split; reflexivity | intros w [=]].
  - cbn [fold_left]. rewrite widest_from. split; [split; discriminate|].
    intros w [= <-].
    destruct (firstBest_fold (fun v : WindowObj => fw v)
                (fun a b : WindowObj => fw a >? fw b) rest
                (fun a b => conj (fun H => proj1 (Z.gtb_gt _ _) H)
                                 (fun H => proj2 (Z.gtb_gt _ _) H)) a)
      as (pre & post & Heq & Hpre & Hpost).
    cbv beta in Heq, Hpre, Hpost. eauto.
Qed.

(** X3. [getWidestStackWindow] is [undefined] exactly when no window is at
    x = 0; otherwise it returns, among the stack windows in snapshot order,
    the first one of greatest width. *)
Theorem getWidestStackWindow_first_widest_X3 (this : WindowsManager) :
  (getWidestStackWindow this = None <->
   forall window, In window (windowsData this) -> fx window <> 0) /\
  (forall w, getWidestStackWindow this = Some w ->
     exists pre post,
       getStackWindows this = pre ++ w :: post /\
       fx w = 0 /\
       (forall window, In window pre -> fw window < fw w) /\
       (forall window, In window post -> fw window <= fw w)).
Proof.
  unfold getWidestStackWindow.
  destruct (widest_first_best (getStackWindows this)) as (Hnone & Hsome).
  split.
  - rewrite Hnone. unfold getStackWindows, isStackWindow. split.
    + intros Hempty window Hw Hx.
      assert (Hin : In window (filter (fun window : WindowObj => fx window =? 0)
                                      (windowsData this)))
        by (apply filter_In; split; [assumption | now apply Z.eqb_eq]).
      rewrite Hempty in Hin. exact Hin.
    + intros Hno.
      destruct (filter (fun window : WindowObj => fx window =? 0) (windowsData this))
        as [|a rest] eqn:Hf; [reflexivity|].
      exfalso.
      assert (Hin : In a (filter (fun window : WindowObj => fx window =? 0)
                                 (windowsData this))) by (rewrite Hf; now left).
      apply filter_In in Hin. destruct Hin as (Hin & Hx). apply Z.eqb_eq in Hx.
      exact (Hno a Hin Hx).
  - intros w Hw. destruct (Hsome w Hw) as (pre & post & Heq & Hpre & Hpost).
    exists pre, post. split; [exact Heq|]. split; [|auto].
    assert (Hin : In w (getStackWindows this)) by (eapply decomposition_In; eauto).
    unfold getStackWindows, isStackWindow in Hin.
    apply filter_In in Hin. now apply Z.eqb_eq.
Qed.

Lemma getWidestStackWindow_first_widest_X3_witness :
  getWidestStackWindow (mkWM 1 Examples.stackAndMaster)
  = Some (mkObj 0 (Examples.window 1 "Notes" 0 0 640 400 horizontal)) /\
  exists pre post,
    getStackWindows (mkWM 1 Examples.stackAndMaster)
    = pre ++ mkObj 0 (Examples.window 1 "Notes" 0 0 640 400 horizontal) :: post /\
    fx (mkObj 0 (Examples.window 1 "Notes" 0 0 640 400 horizontal)) = 0 /\
    (forall window, In window pre ->
       fw window < fw (mkObj 0 (Examples.window 1 "Notes" 0 0 640 400 horizontal))) /\
    (forall window, In window post ->
       fw window <= fw (mkObj 0 (Examples.window 1 "Notes" 0 0 640 400 horizontal))).
Proof.
  split.
  - reflexivity.
  - apply (proj2 (getWidestStackWindow_first_widest_X3 (mkWM 1 Examples.stackAndMaster))).
    reflexivity.
Defined.

(** X4. On a non-empty snapshot the dividing line is the x of a window of
    the snapshot and is not right of the top-right window.  So the top-right
    window is always a main window, [getMainWindows] is never empty, and
    [getWidestMainWindow] never returns [undefined]: it returns a main
    window that no main window exceeds in width. *)
Theorem topRightWindow_is_always_main_X4 (this : WindowsManager) :
  windowsData this <> [] ->
  exists R d mains w,
    getTopRightWindow this = Some R /\
    getDividingLineXCoordinate this = Some d /\
    (exists window, In window (windowsData this) /\ fx window = d) /\
    d <= fx R /\
    getMainWindows this = Some mains /\
    In R mains /\
    isMainWindow this R = Some true /\
    getWidestMainWindow this = Some (Some w) /\
    In w mains /\
    (forall window, In window mains -> fw window <= fw w).
Proof.
  intros Hne.
  destruct (getTopRightWindow_spec this Hne) as (R & HR & HinR & _).
  destruct (getDividingLineXCoordinate_some this Hne) as (d & Hd).
  pose proof (getDividingLineXCoordinate_le_top this R d HR Hd) as Hle.
  assert (HRmain : In R (filter (fun window : WindowObj => fx window >=? d)
                                (windowsData this))).
  { apply filter_In. split; [exact HinR|]. rewrite Z.geb_leb. now apply Z.leb_le. }
  destruct (widest_first_best (filter (fun window : WindowObj => fx window >=? d)
                                      (windowsData this))) as (Hnone & Hsome).
  destruct (widest (filter (fun window : WindowObj => fx window >=? d)
                           (windowsData this))) as [w|] eqn:Hw.
  - destruct (Hsome w eq_refl) as (pre & post & Heq & Hpre & Hpost).
    exists R, d, (filter (fun window : WindowObj => fx window >=? d) (windowsData this)), w.
    split; [exact HR|]. split; [exact Hd|]. split.
    + destruct (getDividingLineXCoordinate_cases this R d HR Hd)
        as [->|(j & a & _ & Hnth & ->)].
      * eauto.
      * apply nth_error_In in Hnth. apply eligibleWindows_left_of in Hnth.
        exists a. split; [apply Hnth | reflexivity].
    + split; [exact Hle|]. split; [exact (getMainWindows_at this d Hd)|].
      split; [exact HRmain|]. split.
      * unfold isMainWindow. rewrite Hd. f_equal.
        rewrite Z.geb_leb. now apply Z.leb_le.
      * split.
        -- unfold getWidestMainWindow. rewrite (getMainWindows_at this d Hd), Hw.
           reflexivity.
        -- split; [eapply decomposition_In; eauto|].
           intros window Hin. rewrite Heq in Hin.
           apply in_app_or in Hin. destruct Hin as [Hin|[<-|Hin]].
           ++ specialize (Hpre window Hin). lia.
           ++ lia.
           ++ exact (Hpost window Hin).
  - exfalso. rewrite (proj1 Hnone eq_refl) in HRmain. exact HRmain.
Qed.

Lemma topRightWindow_is_always_main_X4_witness :
  windowsData (mkWM 2 Examples.splitColumn) <> [] /\
  exists R d mains w,
    getTopRightWindow (mkWM 2 Examples.splitColumn) = Some R /\
    getDividingLineXCoordinate (mkWM 2 Examples.splitColumn) = Some d /\
    (exists window, In window (windowsData (mkWM 2 Examples.splitColumn)) /\
                    fx window = d) /\
    d <= fx R /\
    getMainWindows (mkWM 2 Examples.splitColumn) = Some mains /\
    In R mains /\
    isMainWindow (mkWM 2 Examples.splitColumn) R = Some true /\
    getWidestMainWindow (mkWM 2 Examples.splitColumn) = Some (Some w) /\
    In w mains /\
    (forall window, In window mains -> fw window <= fw w).
Proof.
  split.
  - discriminate.
  - apply (topRightWindow_is_always_main_X4 (mkWM 2 Examples.splitColumn)).
    discriminate.
Defined.

(** X8. On a non-empty array [getTopWindow] returns the first window of
    least y and [getBottomWindow] the first window of greatest y (both
    loops compare strictly); the top window is never below the bottom
    one. *)
Theorem getTopWindow_getBottomWindow_first_extremes_X8 (windows : list WindowObj) :
  windows <> [] ->
  exists top bottom,
    getTopWindow windows = Some top /\
    getBottomWindow windows = Some bottom /\
    (exists pre post,
        windows = pre ++ top :: post /\
        (forall window, In window pre -> fy top < fy window) /\
        (forall window, In window post -> fy top <= fy window)) /\
    (exists pre post,
        windows = pre ++ bottom :: post /\
        (forall window, In window pre -> fy window < fy bottom) /\
        (forall window, In window post -> fy window <= fy bottom)) /\
    fy top <= fy bottom.
Proof.
  intros Hne. destruct windows as [|first rest]; [contradiction|].
  unfold getTopWindow, getBottomWindow. cbn [fold_left].
  rewrite Z.ltb_irrefl, Z.gtb_ltb, Z.ltb_irrefl.
  assert (Htop : forall a b : WindowObj, (fy a <? fy b) = true <-> - fy a > - fy b).
  { intros a b. rewrite Z.ltb_lt. lia. }
  assert (Hbottom : forall a b : WindowObj, (fy a >? fy b) = true <-> fy a > fy b).
  { intros a b. rewrite Z.gtb_ltb, Z.ltb_lt. lia. }
  destruct (firstBest_fold (fun w : WindowObj => - fy w)
              (fun a b : WindowObj => fy a <? fy b) rest Htop first)
    as (pre & post & Heq & Hpre & Hpost).
  destruct (firstBest_fold (fun w : WindowObj => fy w)
              (fun a b : WindowObj => fy a >? fy b) rest Hbottom first)
    as (pre' & post' & Heq' & Hpre' & Hpost').
  cbv beta in Heq, Hpre, Hpost, Heq', Hpre', Hpost'.
  set (top := fold_left _ rest first) in Heq, Hpre, Hpost |- *.
  set (bottom := fold_left _ rest first) in Heq', Hpre', Hpost' |- *.
  exists top, bottom. split; [reflexivity|]. split; [reflexivity|].
  split; [|split].
  - exists pre, post. split; [exact Heq|]. split.
    + intros window Hw. specialize (Hpre window Hw). lia.
    + intros window Hw. specialize (Hpost window Hw). lia.
  - exists pre', post'. auto.
  - assert (Hin : In top (first :: rest)) by (eapply decomposition_In; eauto).
    rewrite Heq' in Hin. apply in_app_or in Hin.
    destruct Hin as [Hin|[<-|Hin]].
    + specialize (Hpre' top Hin). lia.
    + lia.
    + exact (Hpost' top Hin).
Qed.

Lemma getTopWindow_getBottomWindow_first_extremes_X8_witness :
  Examples.stackAndMaster <> [] /\
  exists top bottom,
    getTopWindow Examples.stackAndMaster = Some top /\
    getBottomWindow Examples.stackAndMaster = Some bottom /\
    (exists pre post,
        Examples.stackAndMaster = pre ++ top :: post /\
        (forall window, In window pre -> fy top < fy window) /\
        (forall window, In window post -> fy top <= fy window)) /\
    (exists pre post,
        Examples.stackAndMaster = pre ++ bottom :: post /\
        (forall window, In window pre -> fy window < fy bottom) /\
        (forall window, In window post -> fy window <= fy bottom)) /\
    fy top <= fy bottom.
Proof.
  split.
  - discriminate.
  - apply (getTopWindow_getBottomWindow_first_extremes_X8 Examples.stackAndMaster).
    discriminate.
Defined.

(** ** The validator, case by case *)

Lemma middleCheck_first_middle (this : WindowsManager) (d : Z)
    (pre post : list WindowObj) (w : WindowObj) :
  getDividingLineXCoordinate this = Some d ->
  (forall window, In window pre -> fx window = 0 \/ fx window >= d) ->
  fx w <> 0 -> fx w < d ->
  middleCheck this (pre ++ w :: post) = Some (Invalid (MiddleWindowDetected (app w))).
Proof.
  intros Hd Hpre Hx Hlt. induction pre as [|a pre IH]; simpl.
  - rewrite (isMiddleWindow_at this d w Hd).
    replace (fx w =? 0) with false by (symmetry; apply Z.eqb_neq; exact Hx).
    replace (fx w >=? d) with false
      by (symmetry; rewrite Z.geb_leb; apply Z.leb_gt; exact Hlt).
    reflexivity.
  - rewrite (isMiddleWindow_at this d a Hd).
    assert (Ha : negb (fx a =? 0) && negb (fx a >=? d) = false).
    { destruct (Hpre a (or_introl eq_refl)) as [H0|Hge].
      - rewrite H0. reflexivity.
      - replace (fx a >=? d) with true
          by (symmetry; rewrite Z.geb_leb; apply Z.leb_le; lia).
        apply andb_false_r. }
    rewrite Ha. apply IH. intros window Hin. apply Hpre. now right.
Qed.

(** X5. On a non-empty snapshot [isValidLayout] first compares the number
    of main windows with the target (the argument, or the stored expected
    count when there is none): when they differ the reason quotes the
    number of main windows and the stored expected count, whatever the
    target was.  When they agree, the reason names the first window of the
    snapshot that is neither at x = 0 nor at or right of the dividing line;
    without such a window the layout is valid. *)
Theorem isValidLayout_checks_count_then_middle_X5
    (this : WindowsManager) (targetNumMainWindows : option Z) :
  windowsData this <> [] ->
  exists d mains,
    getDividingLineXCoordinate this = Some d /\
    getMainWindows this = Some mains /\
    (match targetNumMainWindows with
     | Some t => t
     | None => expectedCurrentNumMainWindows this
     end <> Z.of_nat (length mains) ->
     isValidLayout this targetNumMainWindows
     = Some (Invalid (MainCountMismatch (Z.of_nat (length mains))
                                        (expectedCurrentNumMainWindows this)))) /\
    (match targetNumMainWindows with
     | Some t => t
     | None => expectedCurrentNumMainWindows this
     end = Z.of_nat (length mains) ->
     ((forall window, In window (windowsData this) -> fx window = 0 \/ fx window >= d) ->
      isValidLayout this targetNumMainWindows = Some Valid) /\
     (forall pre w post,
         windowsData this = pre ++ w :: post ->
         (forall window, In window pre -> fx window = 0 \/ fx window >= d) ->
         fx w <> 0 -> fx w < d ->
         isValidLayout this targetNumMainWindows
         = Some (Invalid (MiddleWindowDetected (app w))))).
Proof.
  intros Hne.
  destruct (getDividingLineXCoordinate_some this Hne) as (d & Hd).
  exists d, (filter (fun window : WindowObj => fx window >=? d) (windowsData this)).
  split; [exact Hd|]. split; [exact (getMainWindows_at this d Hd)|].
  unfold isValidLayout. rewrite (getMainWindows_at this d Hd).
  set (target := match targetNumMainWindows with
                 | Some t => t
                 | None => expectedCurrentNumMainWindows this
                 end).
  set (cur := Z.of_nat (length (filter _ (windowsData this)))).
  split.
  - intros Hdiff. replace (target =? cur) with false
      by (symmetry; apply Z.eqb_neq; exact Hdiff).
    reflexivity.
  - intros Hsame. replace (target =? cur) with true
      by (symmetry; apply Z.eqb_eq; exact Hsame).
    cbn [negb]. split.
    + intros Hsep. now apply (middleCheck_valid_iff this d).
    + intros pre w post -> Hpre Hx Hlt.
      now apply (middleCheck_first_middle this d).
Qed.

Lemma isValidLayout_checks_count_then_middle_X5_witness :
  windowsData (mkWM 1 (allocate 0 Examples.padded)) <> [] /\
  exists d mains,
    getDividingLineXCoordinate (mkWM 1 (allocate 0 Examples.padded)) = Some d /\
    getMainWindows (mkWM 1 (allocate 0 Examples.padded)) = Some mains /\
    (match Some 1 with
     | Some t => t
     | None => expectedCurrentNumMainWindows (mkWM 1 (allocate 0 Examples.padded))
     end <> Z.of_nat (length mains) ->
     isValidLayout (mkWM 1 (allocate 0 Examples.padded)) (Some 1)
     = Some (Invalid (MainCountMismatch
                        (Z.of_nat (length mains))
                        (expectedCurrentNumMainWindows
                           (mkWM 1 (allocate 0 Examples.padded)))))) /\
    (match Some 1 with
     | Some t => t
     | None => expectedCurrentNumMainWindows (mkWM 1 (allocate 0 Examples.padded))
     end = Z.of_nat (length mains) ->
     ((forall window, In window (windowsData (mkWM 1 (allocate 0 Examples.padded))) ->
                      fx window = 0 \/ fx window >= d) ->
      isValidLayout (mkWM 1 (allocate 0 Examples.padded)) (Some 1) = Some Valid) /\
     (forall pre w post,
         windowsData (mkWM 1 (allocate 0 Examples.padded)) = pre ++ w :: post ->
         (forall window, In window pre -> fx window = 0 \/ fx window >= d) ->
         fx w <> 0 -> fx w < d ->
         isValidLayout (mkWM 1 (allocate 0 Examples.padded)) (Some 1)
         = Some (Invalid (MiddleWindowDetected (app w))))).
Proof.
  split.
  - discriminate.
  - apply (isValidLayout_checks_count_then_middle_X5
             (mkWM 1 (allocate 0 Examples.padded)) (Some 1)).
    discriminate.
Defined.

(** Every clean master-stack layout is valid for its number of masters. *)
Lemma clean_layout_line_and_validity
    (windows : list WindowObj) (d : Z) :
  0 < d ->
  (forall window, In window windows -> fx window = 0 \/ fx window = d) ->
  (exists master, In master windows /\ fx master = d /\
                  forall window, In window windows -> fy master <= fy window) ->
  let T := Z.of_nat (length (filter (fun window : WindowObj => fx window =? d) windows)) in
  getDividingLineXCoordinate (mkWM T windows) = Some d /\
  isValidLayout (mkWM T windows) (Some T) = Some Valid /\
  isValidLayout (mkWM T windows) None = Some Valid.
Proof.
  intros Hpos Hshape (master & Hin & Hx & Htop) T.
  assert (Hne : windows <> []) by (intros ->; exact Hin).
  destruct (getTopRightWindow_spec (mkWM T windows) Hne)
    as (R & HR & HinR & HminR & HrightR).
  cbn [windowsData] in HinR, HminR, HrightR.
  assert (HxR : fx R = d).
  { assert (fy master = fy R) by (pose proof (HminR master Hin); pose proof (Htop R HinR); lia).
    pose proof (HrightR master Hin H).
    destruct (Hshape R HinR); lia. }
  destruct (getDividingLineXCoordinate_some (mkWM T windows) Hne) as (d' & Hd').
  assert (Hline : d' = d).
  { destruct (getDividingLineXCoordinate_cases _ R d' HR Hd')
      as [->|(j & a & _ & Hnth & ->)]; [exact HxR|].
    apply nth_error_In in Hnth. apply eligibleWindows_In in Hnth.
    destruct Hnth as (Ha & Hnz & _). cbn [windowsData] in Ha.
    destruct (Hshape a Ha); [contradiction | assumption]. }
  subst d'.
  assert (Hvalid : forall target, target = None \/ target = Some T ->
            isValidLayout (mkWM T windows) target = Some Valid).
  { intros target Htarget.
    unfold isValidLayout. rewrite (getMainWindows_at _ d Hd'). cbn [windowsData].
    assert (Hcount : filter (fun window : WindowObj => fx window >=? d) windows
                     = filter (fun window : WindowObj => fx window =? d) windows).
    { apply filter_ext_in. intros a Ha. destruct (Hshape a Ha) as [H0|Hd].
      - rewrite H0. rewrite Z.geb_leb.
        replace (d <=? 0) with false by (symmetry; apply Z.leb_gt; lia).
        symmetry. apply Z.eqb_neq. lia.
      - rewrite Hd, Z.eqb_refl, Z.geb_leb. apply Z.leb_le. lia. }
    rewrite Hcount. fold T.
    replace (match target with Some t => t | None => _ end) with T
      by (destruct Htarget as [->| ->]; reflexivity).
    rewrite Z.eqb_refl. cbn [negb].
    apply (middleCheck_valid_iff _ d _ Hd').
    intros window Hw. destruct (Hshape window Hw); [now left | right; lia]. }
  split; [exact Hd'|]. split; apply Hvalid; auto.
Qed.

(** ** Looking a window up *)

Lemma find_first {A : Type} (p : A -> bool) (l : list A) (a : A) :
  find p l = Some a ->
  exists pre post, l = pre ++ a :: post /\ p a = true /\
                   forall b, In b pre -> p b = false.
Proof.
  induction l as [|b rest IH]; simpl; [discriminate|].
  destruct (p b) eqn:Hb.
  - intros [= <-]. exists [], rest. repeat split; auto. intros c [].
  - intros Hfind. destruct (IH Hfind) as (pre & post & -> & Ha & Hpre).
    exists (b :: pre), post. repeat split; auto.
    intros c [<-|Hc]; auto.
Qed.

(** X7. [getWindowData] throws 'Must provide ...' when neither key is
    given.  Otherwise it returns the first window of the snapshot whose pid
    equals [Number(processId)] or whose id equals [Number(windowId)]
    (either key may hit when both are given), and throws exactly when no
    window matches; the error then names the pid when a [processId] was
    given, even if a [windowId] was given too, and the id otherwise. *)
Theorem getWindowData_first_match_or_error_X7
    (this : WindowsManager) (toNumber : string -> option Z)
    (processId windowId : option string) :
  let matches := fun window : WindowObj =>
    equalsKey toNumber (pid window) processId || equalsKey toNumber (id window) windowId in
  (processId = None /\ windowId = None ->
   getWindowData this toNumber processId windowId = inl MustProvideKey) /\
  (forall w, getWindowData this toNumber processId windowId = inr w ->
     exists pre post,
       windowsData this = pre ++ w :: post /\ matches w = true /\
       forall window, In window pre -> matches window = false) /\
  (forall text, processId = Some text ->
     (forall window, In window (windowsData this) -> matches window = false) ->
     getWindowData this toNumber processId windowId = inl (PidNotFound text)) /\
  (forall text, processId = None -> windowId = Some text ->
     (forall window, In window (windowsData this) -> matches window = false) ->
     getWindowData this toNumber processId windowId = inl (IdNotFound text)) /\
  (forall e, getWindowData this toNumber processId windowId = inl e ->
     forall window, In window (windowsData this) -> matches window = false).
Proof.
  intros matches. unfold getWindowData. fold matches.
  assert (Hnone : (forall window, In window (windowsData this) -> matches window = false) ->
                  find matches (windowsData this) = None).
  { intros Hno. destruct (find matches (windowsData this)) as [w|] eqn:Hfind;
      [|reflexivity].
    apply find_some in Hfind. destruct Hfind as (Hin & Hm).
    rewrite (Hno w Hin) in Hm. discriminate. }
  split; [|split; [|split; [|split]]].
  - intros (-> & ->). reflexivity.
  - intros w. destruct (isUndefined processId && isUndefined windowId); [discriminate|].
    destruct (find matches (windowsData this)) as [v|] eqn:Hfind.
    + intros [= <-]. exact (find_first matches _ v Hfind).
    + destruct (negb (isUndefined processId)); discriminate.
  - intros text -> Hno. simpl. rewrite (Hnone Hno). reflexivity.
  - intros text -> -> Hno. simpl. rewrite (Hnone Hno). reflexivity.
  - intros e He window Hin.
    destruct (isUndefined processId && isUndefined windowId) eqn:Hboth.
    + apply andb_true_iff in Hboth. destruct Hboth as (Hp & Hw).
      destruct processId; [discriminate|]. destruct windowId; [discriminate|].
      reflexivity.
    + destruct (find matches (windowsData this)) as [v|] eqn:Hfind; [discriminate|].
      exact (find_none matches _ Hfind window Hin).
Qed.

Lemma getWindowData_first_match_or_error_X7_witness :
  getWindowData (mkWM 1 Examples.stackAndMaster) Examples.decimalNumber
    (Some "1002"%string) (Some "3"%string)
  = inr (mkObj 1 (Examples.window 2 "Mail" 0 400 640 400 horizontal)) /\
  getWindowData (mkWM 1 Examples.stackAndMaster) Examples.decimalNumber
    (Some "77"%string) (Some "9"%string)
  = inl (PidNotFound "77") /\
  exists pre post,
    windowsData (mkWM 1 Examples.stackAndMaster)
    = pre ++ mkObj 1 (Examples.window 2 "Mail" 0 400 640 400 horizontal) :: post /\
    equalsKey Examples.decimalNumber
      (pid (mkObj 1 (Examples.window 2 "Mail" 0 400 640 400 horizontal)))
      (Some "1002"%string)
    || equalsKey Examples.decimalNumber
         (id (mkObj 1 (Examples.window 2 "Mail" 0 400 640 400 horizontal)))
         (Some "3"%string) = true /\
    forall window, In window pre ->
      equalsKey Examples.decimalNumber (pid window) (Some "1002"%string)
      || equalsKey Examples.decimalNumber (id window) (Some "3"%string) = false.
Proof.
  split; [reflexivity|]. split; [reflexivity|].
  apply (proj1 (proj2 (getWindowData_first_match_or_error_X7
                         (mkWM 1 Examples.stackAndMaster) Examples.decimalNumber
                         (Some "1002"%string) (Some "3"%string)))).
  reflexivity.
Defined.

(** ** Which window the rebalancer takes first *)

Section SortedByComparator.

Context {A : Type}.
Variable cmp : A -> A -> Z.
Hypothesis cmp_total : forall a b, cmp a b > 0 -> cmp b a <= 0.
Hypothesis cmp_trans : forall a b c, cmp a b <= 0 -> cmp b c <= 0 -> cmp a c <= 0.




End SortedByComparator.


Lemma pop_none {A : Type} (l : list A) : pop l = None <-> l = [].
Proof.
  unfold pop. destruct (rev l) as [|a r] eqn:Hrev.
  - split; [|reflexivity]. intros _.
    rewrite <- (rev_involutive l), Hrev. reflexivity.
  - split; [discriminate|]. intros ->. discriminate.
Qed.







(** ** Snapshots and object identity *)

Lemma allocate_data (next : nat) (ws : list Window) :
  map data (allocate next ws) = ws.
Proof.
  revert next. induction ws as [|a rest IH]; intros next; simpl;
    [reflexivity | now rewrite IH].
Qed.

Lemma allocate_addr (next : nat) (ws : list Window) :
  map addr (allocate next ws) = seq next (length ws).
Proof.
  revert next. induction ws as [|a rest IH]; intros next; simpl;
    [reflexivity | now rewrite IH].
Qed.

Lemma allocate_addr_range (next : nat) (ws : list Window) (w : WindowObj) :
  In w (allocate next ws) -> (next <= addr w < next + length ws)%nat.
Proof.
  intros Hin. apply (in_map addr) in Hin. rewrite allocate_addr in Hin.
  apply in_seq in Hin. exact Hin.
Qed.

Lemma allocate_In_data (next : nat) (ws : list Window) (w : WindowObj) :
  In w (allocate next ws) -> In (data w) ws.
Proof.
  intros Hin. apply (in_map data) in Hin. now rewrite allocate_data in Hin.
Qed.

Create HintDb halts.
Create HintDb keeps.

Section MachineInvariants.

Context {World : Type}.
Variable runCommand : Command -> World -> option World.
Variable queryWindows : World -> option (list Window).

Lemma wellFormed_refreshed (expected : Z) (world world' : World) (next : nat)
    (events : list Event) (newWindowsData : list Window) :
  getWindowsData World queryWindows world = Some newWindowsData ->
  wellFormed
    (mkMachine (mkWM expected (allocate next newWindowsData))
               world'
               (next + length newWindowsData)%nat
               events).
Proof.
  intros Hquery.
  unfold wellFormed. cbn [this windowsData nextAddr]. split; [|split].
  - rewrite allocate_addr. apply seq_NoDup.
  - intros w Hw. apply allocate_addr_range in Hw. lia.
  - intros w Hw. apply allocate_In_data in Hw.
    unfold getWindowsData in Hquery.
    destruct (queryWindows world) as [windows|]; [|discriminate].
    injection Hquery as <-. apply filter_In in Hw.
    destruct Hw as (_ & Hsplit). intros Heq. rewrite Heq in Hsplit. discriminate.
Qed.

(** *** Computations that use no fuel *)

Lemma halts_ret {A : Type} (a : A) : halts (ret World a).
Proof. intros m m'. discriminate. Qed.

Lemma halts_throw {A : Type} (e : Error) : halts (@throw World A e).
Proof. intros m m'. discriminate. Qed.

Lemma halts_gets {A : Type} (f : WindowsManager -> A) : halts (gets World f).
Proof. intros m m'. discriminate. Qed.

Lemma halts_getsE {A : Type} (f : WindowsManager -> option A) : halts (getsE World f).
Proof. intros m m'. unfold getsE. destruct (f (this m)); discriminate. Qed.

Lemma halts_record (e : Event) : halts (record World e).
Proof. intros m m'. discriminate. Qed.

Lemma halts_bind {A B : Type} (c : M World A) (k : A -> M World B) :
  halts c -> (forall a, halts (k a)) -> halts (bind World c k).
Proof.
  intros Hc Hk m m'. unfold bind. specialize (Hc m).
  destruct (c m) as [a m1|e m1|m1]; [apply Hk | discriminate | now destruct (Hc m1)].
Qed.

Lemma halts_when (b : bool) (c : M World unit) : halts c -> halts (when World b c).
Proof. intros Hc. destruct b; simpl; [exact Hc | apply halts_ret]. Qed.

Lemma halts_forEach {A : Type} (body : A -> M World unit) (l : list A) :
  (forall a, halts (body a)) -> halts (forEach World body l).
Proof.
  intros Hbody. induction l as [|a rest IH]; simpl.
  - apply halts_ret.
  - apply halts_bind; [apply Hbody | intros _; exact IH].
Qed.

Lemma halts_executeYabaiCommand (command : Command) :
  halts (executeYabaiCommand World runCommand queryWindows command).
Proof.
  intros m m'. unfold executeYabaiCommand, bind, record, commandSync, refreshWindowsData.
  simpl. destruct (runCommand command (yabai m)) as [world'|]; [|discriminate].
  simpl. destruct (getWindowsData World queryWindows world'); discriminate.
Qed.

#[local] Hint Resolve halts_ret halts_throw halts_gets halts_getsE halts_record
  halts_executeYabaiCommand : halts.

Ltac halts_step :=
  match goal with
  | |- halts (bind _ _ _) => apply halts_bind; [|intros ?]
  | |- halts (when _ _ _) => apply halts_when
  | |- halts (forEach _ _ _) => apply halts_forEach; intros ?
  | |- halts (match ?x with _ => _ end) => destruct x
  | |- halts _ => solve [auto with halts]
  end.

Lemma halts_columnizeStackWindows :
  halts (columnizeStackWindows World runCommand queryWindows).
Proof. unfold columnizeStackWindows. repeat halts_step. Qed.

#[local] Hint Resolve halts_columnizeStackWindows : halts.

Lemma halts_createStack : halts (createStack World runCommand queryWindows).
Proof. unfold createStack. repeat halts_step. Qed.

Lemma halts_moveWindowToStack (window : WindowObj) :
  halts (moveWindowToStack World runCommand queryWindows window).
Proof. unfold moveWindowToStack, numWindowsIs2. repeat halts_step. Qed.

Lemma halts_moveWindowToMain (window : WindowObj) :
  halts (moveWindowToMain World runCommand queryWindows window).
Proof. unfold moveWindowToMain. repeat halts_step. Qed.

Lemma halts_createStackIfMissing (T numWindows : Z) :
  halts (createStackIfMissing World runCommand queryWindows T numWindows).
Proof.
  unfold createStackIfMissing. pose proof halts_createStack. repeat halts_step.
Qed.

Lemma halts_revalidate (T : Z) (reason : Reason) : halts (revalidate World T reason).
Proof.
  unfold revalidate. apply halts_bind; [auto with halts|].
  intros [|r]; [|auto with halts]. intros m m'. discriminate.
Qed.

(** *** What a computation keeps of the machine

    [P] is a property that does not look at the journal or at the stored
    expected count and that a refresh after a command establishes again;
    [S] is what is left of it when the query after a command raises. *)

Section Keeps.

Variables P S : Machine World -> Prop.
Hypothesis P_journal :
  forall m e, P m -> P (mkMachine (this m) (yabai m) (nextAddr m) (journal m ++ [e])).
Hypothesis P_expected :
  forall m T,
    P m -> P (mkMachine (mkWM T (windowsData (this m))) (yabai m) (nextAddr m) (journal m)).
Hypothesis P_refreshed :
  forall m command world' newWindowsData,
    P m ->
    runCommand command (yabai m) = Some world' ->
    getWindowsData World queryWindows world' = Some newWindowsData ->
    P (mkMachine (mkWM (expectedCurrentNumMainWindows (this m))
                       (allocate (nextAddr m) newWindowsData))
                 world'
                 (nextAddr m + length newWindowsData)%nat
                 (journal m ++ [Yabai command])).
Hypothesis S_behind :
  forall m command world',
    P m ->
    runCommand command (yabai m) = Some world' ->
    getWindowsData World queryWindows world' = None ->
    S (mkMachine (this m) world' (nextAddr m) (journal m ++ [Yabai command])).

Lemma keeps_ret {A : Type} (a : A) : keeps P S (ret World a).
Proof. intros m Hm. exact Hm. Qed.

Lemma keeps_throw {A : Type} (e : Error) :
  e <> QueryFailed -> keeps P S (@throw World A e).
Proof. intros He m Hm. unfold throw. destruct e; try exact Hm. now destruct He. Qed.

Lemma keeps_outOfFuel {A : Type} : keeps P S (@outOfFuel World A).
Proof. intros m Hm. exact Hm. Qed.

Lemma keeps_gets {A : Type} (f : WindowsManager -> A) : keeps P S (gets World f).
Proof. intros m Hm. exact Hm. Qed.

Lemma keeps_getsE {A : Type} (f : WindowsManager -> option A) :
  keeps P S (getsE World f).
Proof. intros m Hm. unfold getsE. destruct (f (this m)); exact Hm. Qed.

Lemma keeps_record (e : Event) : keeps P S (record World e).
Proof. intros m Hm. apply P_journal. exact Hm. Qed.

Lemma keeps_bind {A B : Type} (c : M World A) (k : A -> M World B) :
  keeps P S c -> (forall a, keeps P S (k a)) -> keeps P S (bind World c k).
Proof.
  intros Hc Hk m Hm. unfold bind. specialize (Hc m Hm).
  destruct (c m) as [a m1|e m1|m1]; [now apply Hk | exact Hc | exact Hc].
Qed.

Lemma keeps_when (b : bool) (c : M World unit) :
  keeps P S c -> keeps P S (when World b c).
Proof. intros Hc. destruct b; simpl; [exact Hc | apply keeps_ret]. Qed.

Lemma keeps_forEach {A : Type} (body : A -> M World unit) (l : list A) :
  (forall a, keeps P S (body a)) -> keeps P S (forEach World body l).
Proof.
  intros Hbody. induction l as [|a rest IH]; simpl.
  - apply keeps_ret.
  - apply keeps_bind; [apply Hbody | intros _; exact IH].
Qed.

Lemma keeps_executeYabaiCommand (command : Command) :
  keeps P S (executeYabaiCommand World runCommand queryWindows command).
Proof.
  intros m Hm. unfold executeYabaiCommand, bind, record, commandSync, refreshWindowsData.
  simpl. destruct (runCommand command (yabai m)) as [world'|] eqn:Hrun; simpl.
  - destruct (getWindowsData World queryWindows world') as [newWindowsData|] eqn:Hquery.
    + now apply P_refreshed.
    + now apply S_behind.
  - apply P_journal. exact Hm.
Qed.

Lemma keeps_setExpected (T : Z) : keeps P S (setExpected World T).
Proof. intros m Hm. apply P_expected. exact Hm. Qed.

#[local] Hint Resolve keeps_ret keeps_outOfFuel keeps_gets keeps_getsE
  keeps_record keeps_executeYabaiCommand keeps_setExpected : keeps.

Ltac keeps_step :=
  match goal with
  | |- keeps _ _ (bind _ _ _) => apply keeps_bind; [|intros ?]
  | |- keeps _ _ (when _ _ _) => apply keeps_when
  | |- keeps _ _ (forEach _ _ _) => apply keeps_forEach; intros ?
  | |- keeps _ _ (match ?x with _ => _ end) => destruct x
  | |- keeps _ _ _ =>
      first [ solve [auto with keeps] | solve [apply keeps_throw; discriminate] ]
  end.

Lemma keeps_columnizeStackWindows :
  keeps P S (columnizeStackWindows World runCommand queryWindows).
Proof. unfold columnizeStackWindows. repeat keeps_step. Qed.

#[local] Hint Resolve keeps_columnizeStackWindows : keeps.

Lemma keeps_createStack : keeps P S (createStack World runCommand queryWindows).
Proof. unfold createStack. repeat keeps_step. Qed.

Lemma keeps_moveWindowToStack (window : WindowObj) :
  keeps P S (moveWindowToStack World runCommand queryWindows window).
Proof. unfold moveWindowToStack, numWindowsIs2. repeat keeps_step. Qed.

Lemma keeps_moveWindowToMain (window : WindowObj) :
  keeps P S (moveWindowToMain World runCommand queryWindows window).
Proof. unfold moveWindowToMain. repeat keeps_step. Qed.

#[local] Hint Resolve keeps_createStack keeps_moveWindowToStack
  keeps_moveWindowToMain : keeps.

Lemma keeps_tooManyLoop (fuel : nat) (target : Z) :
  forall mainWindows cur,
    keeps P S (tooManyLoop World runCommand queryWindows fuel target mainWindows cur).
Proof.
  induction fuel as [|fuel IH]; intros mainWindows cur; simpl;
    destruct (cur >? target); auto with keeps.
  destruct (pop mainWindows) as [[mainWindow rest]|];
    [|apply keeps_throw; discriminate].
  apply keeps_bind; [auto with keeps | intros _; apply IH].
Qed.

Lemma keeps_middleLoop (fuel : nat) (target : Z) :
  forall cur, keeps P S (middleLoop World runCommand queryWindows fuel target cur).
Proof.
  induction fuel as [|fuel IH]; intros cur; simpl;
    (apply keeps_bind; [auto with keeps|]); intros [|middleWindow rest];
    auto with keeps.
  destruct (cur <? target);
    (apply keeps_bind; [auto with keeps | intros _; apply IH]).
Qed.

Lemma keeps_notEnoughLoop (fuel : nat) (target : Z) :
  forall stackWindows cur,
    keeps P S (notEnoughLoop World runCommand queryWindows fuel target stackWindows cur).
Proof.
  induction fuel as [|fuel IH]; intros stackWindows cur; simpl;
    destruct (cur <? target); auto with keeps.
  destruct (pop stackWindows) as [[stackWindow rest]|];
    [|apply keeps_throw; discriminate].
  apply keeps_bind; [auto with keeps | intros _; apply IH].
Qed.

#[local] Hint Resolve keeps_tooManyLoop keeps_middleLoop keeps_notEnoughLoop : keeps.

Lemma keeps_updateWindows (fuel : nat) (T : Z) :
  keeps P S (updateWindows World runCommand queryWindows fuel T).
Proof.
  unfold updateWindows, rebalance, revalidate, balance, createStackIfMissing.
  repeat keeps_step.
Qed.

End Keeps.

(** X13. Every command the manager issues is followed by a query, so the
    snapshot is never more than one command behind.  [createWindowsManager]
    raises exactly when its query does, and otherwise returns a manager
    whose snapshot is well formed and in step: it is the answer of the
    external manager, without the windows of [split = 'none'].  From such a
    manager [updateWindows], however it ends (returning, raising or still
    looping), leaves the snapshot well formed and in step with the state
    its commands have left the external manager in; the one exception is a
    run ended by a query that raised, which leaves the snapshot taken
    before the last command, that command having gone through. *)
Theorem snapshot_in_step_or_one_command_behind_X13 (expected : Z) (world : World) :
  (createWindowsManager World queryWindows expected world = None
   <-> queryWindows world = None) /\
  (forall m,
      createWindowsManager World queryWindows expected world = Some m ->
      wellFormed m /\ inSync queryWindows m /\ journal m = [] /\ yabai m = world) /\
  (forall fuel T m,
      wellFormed m /\ inSync queryWindows m ->
      match updateWindows World runCommand queryWindows fuel T m with
      | Thrown QueryFailed m' =>
          wellFormed m' /\ oneCommandBehind runCommand queryWindows m'
      | Done _ m' | Thrown _ m' | OutOfFuel m' =>
          wellFormed m' /\ inSync queryWindows m'
      end).
Proof.
  split; [|split].
  - unfold createWindowsManager, getWindowsData.
    destruct (queryWindows world); split; intros H; (discriminate || reflexivity).
  - intros m Hcreated. unfold createWindowsManager in Hcreated.
    destruct (getWindowsData World queryWindows world) as [initial|] eqn:Hquery;
      [|discriminate].
    injection Hcreated as <-. split; [|split; [|split; reflexivity]].
    + exact (wellFormed_refreshed expected world world 0 [] initial Hquery).
    + unfold inSync. cbn [this windowsData yabai]. rewrite allocate_data. exact Hquery.
  - intros fuel T m Hm.
    apply (keeps_updateWindows
             (fun m => wellFormed m /\ inSync queryWindows m)
             (fun m => wellFormed m /\ oneCommandBehind runCommand queryWindows m));
      [| | | |exact Hm].
    + intros m0 e H. exact H.
    + intros m0 T0 H. exact H.
    + intros m0 command world' newWindowsData _ _ Hquery. split.
      * exact (wellFormed_refreshed _ world' world' _ _ newWindowsData Hquery).
      * unfold inSync. cbn [this windowsData yabai]. rewrite allocate_data.
        exact Hquery.
    + intros m0 command world' (Hwf & Hsync) Hrun Hquery. split.
      * exact Hwf.
      * exists (yabai m0), command, (journal m0). cbn [this yabai journal].
        split; [reflexivity|]. split; [exact Hrun|]. split; [exact Hsync|].
        unfold getWindowsData in Hquery.
        destruct (queryWindows world'); [discriminate | reflexivity].
Qed.

End MachineInvariants.

(** ** The two counting loops, unrolled *)

Section CountingLoops.

Context {World : Type}.
Variable runCommand : Command -> World -> option World.
Variable queryWindows : World -> option (list Window).

Lemma tooManyLoop_unrolls (T : Z) (r : list WindowObj) :
  forall (keep : list WindowObj) (cur : Z) (fuel : nat) (m : Machine World),
    Z.of_nat (length r) = cur - T ->
    (length r <= fuel)%nat ->
    tooManyLoop World runCommand queryWindows fuel T (keep ++ rev r) cur m
    = bind World (forEach World (moveWindowToStack World runCommand queryWindows) r)
           (fun _ => ret World T) m.
Proof.
  induction r as [|a r' IH]; intros keep cur fuel m Hlen Hfuel.
  - simpl in Hlen. assert (cur = T) by lia. subst cur.
    destruct fuel; simpl; rewrite Z.gtb_ltb, Z.ltb_irrefl; reflexivity.
  - destruct fuel as [|fuel]; [inversion Hfuel|].
    cbn [length] in Hlen, Hfuel. cbn [tooManyLoop rev].
    replace (cur >? T) with true by (symmetry; rewrite Z.gtb_ltb; apply Z.ltb_lt; lia).
    rewrite app_assoc, pop_snoc. cbn [forEach]. unfold bind.
    destruct (moveWindowToStack World runCommand queryWindows a m) as [[] m'|e m'|m'];
      try reflexivity.
    rewrite IH by lia. reflexivity.
Qed.

Lemma notEnoughLoop_unrolls (T : Z) (r : list WindowObj) :
  forall (keep : list WindowObj) (cur : Z) (fuel : nat) (m : Machine World),
    Z.of_nat (length r) = T - cur ->
    (length r <= fuel)%nat ->
    notEnoughLoop World runCommand queryWindows fuel T (keep ++ rev r) cur m
    = bind World (forEach World (moveWindowToMain World runCommand queryWindows) r)
           (fun _ => ret World tt) m.
Proof.
  induction r as [|a r' IH]; intros keep cur fuel m Hlen Hfuel.
  - simpl in Hlen. assert (cur = T) by lia. subst cur.
    destruct fuel; simpl; rewrite Z.ltb_irrefl; reflexivity.
  - destruct fuel as [|fuel]; [inversion Hfuel|].
    cbn [length] in Hlen, Hfuel. cbn [notEnoughLoop rev].
    replace (cur <? T) with true by (symmetry; apply Z.ltb_lt; lia).
    rewrite app_assoc, pop_snoc. cbn [forEach]. unfold bind.
    destruct (moveWindowToMain World runCommand queryWindows a m) as [[] m'|e m'|m'];
      try reflexivity.
    rewrite IH by lia. reflexivity.
Qed.

Lemma split_at_end {A : Type} (n : nat) (l : list A) :
  (n <= length l)%nat ->
  l = rev (skipn n (rev l)) ++ rev (firstn n (rev l)) /\
  length (firstn n (rev l)) = n.
Proof.
  intros Hn. split.
  - rewrite <- rev_app_distr, firstn_skipn, rev_involutive. reflexivity.
  - rewrite length_firstn, length_rev. lia.
Qed.

(** X11. The loop that moves excess main windows to the stack, started
    with a running count [cur >= T] and an array holding at least
    [cur - T] windows, calls [moveWindowToStack] on exactly the last
    [cur - T] windows of the array, last one first, and leaves the running
    count at the target.  With [cur - T] units of fuel it does not run out
    of fuel: the loop always ends. *)
Theorem tooManyLoop_moves_the_excess_and_ends_X11
    (T cur : Z) (mainWindows : list WindowObj) (fuel : nat) (m : Machine World) :
  T <= cur ->
  cur - T <= Z.of_nat (length mainWindows) ->
  (Z.to_nat (cur - T) <= fuel)%nat ->
  tooManyLoop World runCommand queryWindows fuel T mainWindows cur m
  = bind World
         (forEach World (moveWindowToStack World runCommand queryWindows)
                  (firstn (Z.to_nat (cur - T)) (rev mainWindows)))
         (fun _ => ret World T) m /\
  (forall m', tooManyLoop World runCommand queryWindows fuel T mainWindows cur m
              <> OutOfFuel m') /\
  (forall count m',
      tooManyLoop World runCommand queryWindows fuel T mainWindows cur m = Done count m' ->
      count = T).
Proof.
  intros Hcur Hlen Hfuel. set (n := Z.to_nat (cur - T)).
  assert (Hn : (n <= length mainWindows)%nat) by (unfold n; lia).
  destruct (split_at_end n mainWindows Hn) as (Hsplit & Hfirst).
  assert (Heq : tooManyLoop World runCommand queryWindows fuel T mainWindows cur m
                = bind World
                       (forEach World (moveWindowToStack World runCommand queryWindows)
                                (firstn n (rev mainWindows)))
                       (fun _ => ret World T) m).
  { rewrite Hsplit at 1. apply tooManyLoop_unrolls; rewrite Hfirst; unfold n; lia. }
  split; [exact Heq|]. split.
  - intros m'. rewrite Heq.
    apply (halts_bind
             (forEach World (moveWindowToStack World runCommand queryWindows)
                      (firstn n (rev mainWindows)))
             (fun _ => ret World T)).
    + apply halts_forEach. intros a. apply halts_moveWindowToStack.
    + intros _. apply halts_ret.
  - intros count m'. rewrite Heq. unfold bind, ret.
    destruct (forEach World _ _ m); [intros [= <- _]; reflexivity | discriminate..].
Qed.

(** X12. The loop that pulls stack windows into main, started with a
    running count [cur <= T] and an array holding at least [T - cur]
    windows, calls [moveWindowToMain] on exactly the last [T - cur] windows
    of the array, last one first, and then ends; with [T - cur] units of
    fuel it does not run out of fuel. *)
Theorem notEnoughLoop_moves_the_missing_and_ends_X12
    (T cur : Z) (stackWindows : list WindowObj) (fuel : nat) (m : Machine World) :
  cur <= T ->
  T - cur <= Z.of_nat (length stackWindows) ->
  (Z.to_nat (T - cur) <= fuel)%nat ->
  notEnoughLoop World runCommand queryWindows fuel T stackWindows cur m
  = bind World
         (forEach World (moveWindowToMain World runCommand queryWindows)
                  (firstn (Z.to_nat (T - cur)) (rev stackWindows)))
         (fun _ => ret World tt) m /\
  (forall m', notEnoughLoop World runCommand queryWindows fuel T stackWindows cur m
              <> OutOfFuel m').
Proof.
  intros Hcur Hlen Hfuel. set (n := Z.to_nat (T - cur)).
  assert (Hn : (n <= length stackWindows)%nat) by (unfold n; lia).
  destruct (split_at_end n stackWindows Hn) as (Hsplit & Hfirst).
  assert (Heq : notEnoughLoop World runCommand queryWindows fuel T stackWindows cur m
                = bind World
                       (forEach World (moveWindowToMain World runCommand queryWindows)
                                (firstn n (rev stackWindows)))
                       (fun _ => ret World tt) m).
  { rewrite Hsplit at 1. apply notEnoughLoop_unrolls; rewrite Hfirst; unfold n; lia. }
  split; [exact Heq|].
  intros m'. rewrite Heq.
  apply (halts_bind
           (forEach World (moveWindowToMain World runCommand queryWindows)
                    (firstn n (rev stackWindows)))
           (fun _ => ret World tt)).
  - apply halts_forEach. intros a. apply halts_moveWindowToMain.
  - intros _. apply halts_ret.
Qed.

End CountingLoops.

(** ** [createStack] after a refresh *)

Section CreateStack.

Context {World : Type}.
Variable runCommand : Command -> World -> option World.
Variable queryWindows : World -> option (list Window).

Lemma executeYabaiCommand_success (command : Command) (m : Machine World) (world' : World)
    (newWindowsData : list Window) :
  runCommand command (yabai m) = Some world' ->
  getWindowsData World queryWindows world' = Some newWindowsData ->
  executeYabaiCommand World runCommand queryWindows command m
  = Done tt (mkMachine
               (mkWM (expectedCurrentNumMainWindows (this m))
                     (allocate (nextAddr m) newWindowsData))
               world'
               (nextAddr m + length newWindowsData)%nat
               (journal m ++ [Yabai command])).
Proof.
  intros Hrun Hquery.
  unfold executeYabaiCommand, bind, record, commandSync, refreshWindowsData.
  simpl. rewrite Hrun. simpl. rewrite Hquery. reflexivity.
Qed.

Lemma executeYabaiCommand_total (command : Command) (m : Machine World) :
  (forall c world, runCommand c world <> None) ->
  (forall world, queryWindows world <> None) ->
  exists m', executeYabaiCommand World runCommand queryWindows command m = Done tt m' /\
             journal m' = journal m ++ [Yabai command].
Proof.
  intros Htotal Hanswers. destruct (runCommand command (yabai m)) as [world'|] eqn:Hrun.
  - destruct (getWindowsData World queryWindows world') as [newWindowsData|] eqn:Hquery.
    + rewrite (executeYabaiCommand_success command m world' newWindowsData Hrun Hquery).
      eauto.
    + exfalso. unfold getWindowsData in Hquery.
      destruct (queryWindows world') eqn:Hq; [discriminate|]. exact (Hanswers _ Hq).
  - exfalso. exact (Htotal _ _ Hrun).
Qed.

(** A loop that issues one command for each element it does not skip. *)
Lemma forEach_commands {A : Type} (skip : A -> bool) (cmd : A -> Command) (l : list A) :
  (forall c world, runCommand c world <> None) ->
  (forall world, queryWindows world <> None) ->
  forall m,
  exists m',
    forEach World
      (fun a => if skip a then ret World tt
                else executeYabaiCommand World runCommand queryWindows (cmd a)) l m
    = Done tt m' /\
    journal m' = journal m ++ map (fun a => Yabai (cmd a)) (filter (fun a => negb (skip a)) l).
Proof.
  intros Htotal Hanswers. induction l as [|a rest IH]; intros m.
  - exists m. simpl. now rewrite app_nil_r.
  - cbn [forEach filter]. unfold bind. destruct (skip a); cbn [negb].
    + unfold ret at 1. apply IH.
    + destruct (executeYabaiCommand_total (cmd a) m Htotal Hanswers) as (m1 & -> & Hj1).
      destruct (IH m1) as (m' & Hrun & Hj). exists m'. split; [exact Hrun|].
      rewrite Hj, Hj1, <- app_assoc. reflexivity.
Qed.

Lemma forEach_ext {A : Type} (body body' : A -> M World unit) (l : list A) :
  (forall a, In a l -> body a = body' a) ->
  forEach World body l = forEach World body' l.
Proof.
  induction l as [|a rest IH]; intros Hext; simpl; [reflexivity|].
  rewrite (Hext a (or_introl eq_refl)), IH; [reflexivity|].
  intros b Hb. apply Hext. now right.
Qed.

(** X14. When [createStack] has to toggle the split of the top-right
    window, the command refreshes the snapshot, and no object of the new
    snapshot is identical to the top-right window held from before.  So the
    loop skips only the top-left window: with an external manager whose
    commands and queries succeed, [createStack] issues the toggle and then
    a warp onto the top-left window for every other window of the refreshed
    snapshot, the one that was the top-right window included, before it
    columnizes. *)
Theorem createStack_after_toggle_warps_all_but_top_left_X14
    (m : Machine World) (R topLeft : WindowObj) (world' : World)
    (newWindowsData : list Window) :
  (forall c world, runCommand c world <> None) ->
  (forall world, queryWindows world <> None) ->
  wellFormed m ->
  getTopRightWindow (this m) = Some R ->
  split R = horizontal ->
  runCommand (ToggleSplit (id R)) (yabai m) = Some world' ->
  getWindowsData World queryWindows world' = Some newWindowsData ->
  getTopLeftWindow
    (mkWM (expectedCurrentNumMainWindows (this m))
          (allocate (nextAddr m) newWindowsData))
  = Some topLeft ->
  (forall window,
      In window (allocate (nextAddr m) newWindowsData) ->
      sameObject window R = false) /\
  exists columnize,
    journal (machineOf (createStack World runCommand queryWindows m))
    = journal m
      ++ [EnterCreateStack; Yabai (ToggleSplit (id R))]
      ++ map (fun window : WindowObj => Yabai (Warp (id window) (id topLeft)))
             (filter (fun window => negb (sameObject window topLeft))
                     (allocate (nextAddr m) newWindowsData))
      ++ map Yabai columnize.
Proof.
  intros Htotal Hanswers Hwf HR Hsplit Hrun Hquery HTL.
  set (refreshed := allocate (nextAddr m) newWindowsData) in *.
  assert (HinR : In R (windowsData (this m))).
  { assert (Hne : windowsData (this m) <> [])
      by (intros Hempty; rewrite (getTopRightWindow_empty _ Hempty) in HR; discriminate).
    destruct (getTopRightWindow_spec (this m) Hne) as (R' & HR' & Hin & _).
    rewrite HR in HR'. injection HR' as <-. exact Hin. }
  assert (Hfresh : forall window, In window refreshed -> sameObject window R = false).
  { intros window Hin. apply allocate_addr_range in Hin.
    destruct Hwf as (_ & Hbelow & _). pose proof (Hbelow R HinR).
    unfold sameObject. apply Nat.eqb_neq. lia. }
  split; [exact Hfresh|].
  unfold createStack. rewrite record_then.
  unfold bind at 1. unfold getsE at 1. cbn [this]. rewrite HR.
  unfold bind at 1. rewrite Hsplit. cbn [Split_eqb when].
  rewrite (executeYabaiCommand_success (ToggleSplit (id R)) _ world' newWindowsData)
    by assumption.
  cbn [this yabai nextAddr journal expectedCurrentNumMainWindows]. fold refreshed.
  unfold bind at 1. unfold gets at 1. cbn [this]. rewrite HTL.
  unfold bind at 1. unfold gets at 1. cbn [this windowsData].
  rewrite (forEach_ext _
             (fun window : WindowObj =>
                if sameObject window topLeft then ret World tt
                else executeYabaiCommand World runCommand queryWindows
                       (Warp (id window) (id topLeft)))).
  2:{ intros window Hin. rewrite (Hfresh window Hin). reflexivity. }
  match goal with
  | |- context [bind World (forEach World ?body refreshed) ?k ?m1] =>
      destruct (forEach_commands (fun window : WindowObj => sameObject window topLeft)
                  (fun window : WindowObj => Warp (id window) (id topLeft))
                  refreshed Htotal Hanswers m1) as (m2 & Hloop & Hjournal)
  end.
  unfold bind. rewrite Hloop.
  destruct (quiet_columnizeStackWindows runCommand queryWindows m2)
    as (_ & columnize & Hcol).
  exists columnize. rewrite Hcol, Hjournal. cbn [journal].
  rewrite <- !app_assoc. reflexivity.
Qed.

End CreateStack.

(** ** What a call of [updateWindows] guarantees *)

Section Guarantees.

Context {World : Type}.
Variable runCommand : Command -> World -> option World.
Variable queryWindows : World -> option (list Window).

(** X15. [updateWindows] returns normally only on a layout that the
    validator accepts for the target, the dividing line being located with
    the expected count stored when the call began: the final snapshot has
    exactly [T] windows at or right of that line and no window strictly
    between x = 0 and the line.  When moreover no window of the final
    snapshot has a negative x, the layout is valid as well for the expected
    count the call leaves behind, and a further call with the same target
    returns at once, whatever the first call had to do. *)
Theorem updateWindows_returns_only_on_valid_layout_X15
    (fuel : nat) (T : Z) (m m1 : Machine World) :
  updateWindows World runCommand queryWindows fuel T m = Done tt m1 ->
  (exists d,
      getDividingLineXCoordinate
        (mkWM (expectedCurrentNumMainWindows (this m)) (windowsData (this m1))) = Some d /\
      T = Z.of_nat (length (filter (fun window : WindowObj => fx window >=? d)
                                   (windowsData (this m1)))) /\
      (forall window, In window (windowsData (this m1)) ->
                      fx window = 0 \/ fx window >= d)) /\
  (m1 = m \/ expectedCurrentNumMainWindows (this m1) = T) /\
  ((forall window, In window (windowsData (this m1)) -> 0 <= fx window) ->
   isValidLayout (this m1) (Some T) = Some Valid /\
   forall fuel', updateWindows World runCommand queryWindows fuel' T m1 = Done tt m1).
Proof.
  intros Hrun.
  assert (Hold : isValidLayout
                   (mkWM (expectedCurrentNumMainWindows (this m)) (windowsData (this m1)))
                   (Some T) = Some Valid /\
                 (m1 = m \/ expectedCurrentNumMainWindows (this m1) = T)).
  { destruct (isValidLayout (this m) (Some T)) as [[|reason]|] eqn:Hcheck.
    - rewrite (updateWindows_valid runCommand queryWindows fuel T m Hcheck) in Hrun.
      injection Hrun as <-. split; [|now left].
      destruct (this m) as [E0 ws]. exact Hcheck.
    - rewrite (updateWindows_invalid runCommand queryWindows fuel T m reason Hcheck) in Hrun.
      destruct (rebalance_journal runCommand queryWindows fuel T m) as (Hexp & _).
      unfold bind in Hrun.
      destruct (rebalance World runCommand queryWindows fuel T m) as [[] m'|e m'|m'];
        try discriminate.
      unfold revalidate, bind, getsE in Hrun.
      destruct (isValidLayout (this m') (Some T)) as [[|r]|] eqn:Hre; try discriminate.
      injection Hrun as <-. cbn [machineOf] in Hexp.
      cbn [this windowsData expectedCurrentNumMainWindows]. split; [|now right].
      rewrite <- Hexp. destruct (this m') as [E0 ws]. exact Hre.
    - rewrite (updateWindows_raises runCommand queryWindows fuel T m Hcheck) in Hrun.
      discriminate. }
  destruct Hold as (Hvalid & Hexpected).
  split; [|split; [exact Hexpected|]].
  - apply isValidLayout_valid_iff in Hvalid. exact Hvalid.
  - intros Hnonneg.
    assert (Hnew : isValidLayout (this m1) (Some T) = Some Valid).
    { destruct Hexpected as [->|Hexp].
      - destruct (this m) as [E0 ws]. exact Hvalid.
      - pose proof (valid_once_target_is_expected _ T _ Hnonneg Hvalid) as Hv.
        destruct (this m1) as [E1 ws1]. cbn in Hexp, Hv |- *. subst E1. exact Hv. }
    split; [exact Hnew|].
    intros fuel'. exact (updateWindows_valid runCommand queryWindows fuel' T m1 Hnew).
Qed.

(** X16. On a snapshot of at most two windows [updateWindows] runs none of
    its three loops: its outcome does not depend on the fuel and is never
    [OutOfFuel], so the call always ends; and apart from what [createStack]
    does it issues no command. *)
Theorem updateWindows_small_snapshot_always_ends_X16
    (T : Z) (m : Machine World) :
  (length (windowsData (this m)) <= 2)%nat ->
  (forall fuel fuel',
      updateWindows World runCommand queryWindows fuel T m
      = updateWindows World runCommand queryWindows fuel' T m) /\
  (forall fuel m',
      updateWindows World runCommand queryWindows fuel T m <> OutOfFuel m') /\
  (forall fuel,
      ~ In EnterCreateStack
           (journal (machineOf (updateWindows World runCommand queryWindows fuel T m))) ->
      journal (machineOf (updateWindows World runCommand queryWindows fuel T m))
      = journal m).
Proof.
  intros Hsmall.
  set (numWindows := Z.of_nat (length (windowsData (this m)))).
  assert (Hpass : forall fuel,
            rebalance World runCommand queryWindows fuel T m
            = bind World
                (createStackIfMissing World runCommand queryWindows T numWindows)
                (fun _ => ret World tt) m).
  { intros fuel. unfold rebalance. unfold bind at 1. unfold gets at 1.
    fold numWindows.
    replace (numWindows >? 2) with false
      by (symmetry; rewrite Z.gtb_ltb; apply Z.ltb_ge; unfold numWindows; lia).
    reflexivity. }
  split; [|split].
  - intros fuel fuel'.
    destruct (isValidLayout (this m) (Some T)) as [[|reason]|] eqn:Hcheck.
    + now rewrite !(updateWindows_valid runCommand queryWindows _ T m Hcheck).
    + rewrite !(updateWindows_invalid runCommand queryWindows _ T m reason Hcheck).
      unfold bind. now rewrite !Hpass.
    + now rewrite !(updateWindows_raises runCommand queryWindows _ T m Hcheck).
  - intros fuel m'.
    destruct (isValidLayout (this m) (Some T)) as [[|reason]|] eqn:Hcheck.
    + rewrite (updateWindows_valid runCommand queryWindows _ T m Hcheck). discriminate.
    + rewrite (updateWindows_invalid runCommand queryWindows _ T m reason Hcheck).
      unfold bind at 1. rewrite Hpass.
      change (bind World
                (bind World
                   (createStackIfMissing World runCommand queryWindows T numWindows)
                   (fun _ => ret World tt))
                (fun _ => revalidate World T reason) m <> OutOfFuel m').
      apply halts_bind.
      * apply halts_bind; [apply halts_createStackIfMissing | intros _; apply halts_ret].
      * intros _. apply halts_revalidate.
    + rewrite (updateWindows_raises runCommand queryWindows _ T m Hcheck). discriminate.
  - intros fuel.
    destruct (isValidLayout (this m) (Some T)) as [[|reason]|] eqn:Hcheck.
    + now rewrite (updateWindows_valid runCommand queryWindows _ T m Hcheck).
    + rewrite (updateWindows_journal runCommand queryWindows fuel T m reason Hcheck).
      rewrite Hpass. unfold bind, createStackIfMissing.
      destruct (negb (T =? numWindows)); [|reflexivity].
      unfold bind, getsE.
      destruct (doesStackExist (this m)) as [[|]|]; try reflexivity.
      cbn [negb when].
      destruct (createStack_journal runCommand queryWindows m)
        as (_ & commands & Hjournal).
      intros Hnot. exfalso. apply Hnot.
      destruct (createStack World runCommand queryWindows m) as [[] m1|e m1|m1];
        cbn [machineOf ret] in *; rewrite Hjournal;
        apply in_or_app; right; now left.
    + now rewrite (updateWindows_raises runCommand queryWindows _ T m Hcheck).
Qed.

End Guarantees.

(** ** The empty snapshot *)

Section EmptySnapshot.

Context {World : Type}.
Variable runCommand : Command -> World -> option World.
Variable queryWindows : World -> option (list Window).

(** X17. When the snapshot is empty (yabai reports no tiled window), every
    method that needs the top-right window raises a TypeError:
    [getTopRightWindow], [getDividingLineXCoordinate], [getMainWindows],
    [isMainWindow], [isValidLayout], [getWidestMainWindow],
    [doesStackExist], and with them [updateWindows], [moveWindowToMain] and
    [createStack], none of which issues a command.  The methods that only
    filter come back empty instead: [getStackWindows], [getMiddleWindows],
    [getTopLeftWindow], [getWidestStackWindow], [getTopStackWindow], and
    [columnizeStackWindows] returns without a command. *)
Theorem empty_snapshot_raises_or_is_empty_X17
    (m : Machine World) (fuel : nat) (T : Z) (target : option Z) (window : WindowObj) :
  windowsData (this m) = [] ->
  (getTopRightWindow (this m) = None /\
   getDividingLineXCoordinate (this m) = None /\
   getMainWindows (this m) = None /\
   isMainWindow (this m) window = None /\
   isValidLayout (this m) target = None /\
   getWidestMainWindow (this m) = None /\
   doesStackExist (this m) = None) /\
  (updateWindows World runCommand queryWindows fuel T m = Thrown TypeError m /\
   moveWindowToMain World runCommand queryWindows window m = Thrown TypeError m /\
   createStack World runCommand queryWindows m
   = Thrown TypeError
       (mkMachine (this m) (yabai m) (nextAddr m) (journal m ++ [EnterCreateStack]))) /\
  (getStackWindows (this m) = [] /\
   getMiddleWindows (this m) = Some [] /\
   getTopLeftWindow (this m) = None /\
   getWidestStackWindow (this m) = None /\
   getTopStackWindow (this m) = None /\
   columnizeStackWindows World runCommand queryWindows m = Done tt m).
Proof.
  intros Hempty.
  pose proof (getTopRightWindow_empty (this m) Hempty) as HR.
  pose proof (getDividingLineXCoordinate_empty (this m) Hempty) as Hd.
  assert (Hmains : getMainWindows (this m) = None)
    by (unfold getMainWindows; now rewrite Hd).
  assert (Hvalid : forall t, isValidLayout (this m) t = None)
    by (intros t; unfold isValidLayout; now rewrite Hmains).
  assert (Hwidest : getWidestMainWindow (this m) = None)
    by (unfold getWidestMainWindow; now rewrite Hmains).
  split; [|split].
  - repeat split; auto.
    + unfold isMainWindow. now rewrite Hd.
    + unfold doesStackExist. now rewrite HR.
  - repeat split.
    + apply updateWindows_raises. apply Hvalid.
    + unfold moveWindowToMain, bind, getsE. now rewrite Hwidest.
    + unfold createStack. rewrite record_then. unfold bind, getsE. cbn [this].
      now rewrite HR.
  - unfold getStackWindows, getMiddleWindows, getTopLeftWindow, getWidestStackWindow,
      getTopStackWindow, getStackWindows, columnizeStackWindows, bind, getsE.
    rewrite Hempty. repeat split.
Qed.

End EmptySnapshot.

(** ** Clean layouts, and layouts without a stack *)

Section CleanAndStuck.

Context {World : Type}.
Variable runCommand : Command -> World -> option World.
Variable queryWindows : World -> option (list Window).

(** X6. The validator accepts every clean master-stack layout, and the
    rebalancer leaves it alone.  When every window is either at x = 0 or at
    one positive x = d, some window at x = d is in the top row, and the
    expected count is the number of windows at x = d: the dividing line is
    found at d, [isValidLayout] reports valid for that count (given as
    target or not), and [updateWindows] for that count returns at once,
    issuing no command. *)
Theorem clean_master_stack_layout_is_valid_X6
    (m : Machine World) (d : Z) (fuel : nat) :
  0 < d ->
  (forall window, In window (windowsData (this m)) -> fx window = 0 \/ fx window = d) ->
  (exists master, In master (windowsData (this m)) /\ fx master = d /\
                  forall window, In window (windowsData (this m)) ->
                                 fy master <= fy window) ->
  expectedCurrentNumMainWindows (this m)
  = Z.of_nat (length (filter (fun window : WindowObj => fx window =? d)
                             (windowsData (this m)))) ->
  getDividingLineXCoordinate (this m) = Some d /\
  isValidLayout (this m) (Some (expectedCurrentNumMainWindows (this m))) = Some Valid /\
  isValidLayout (this m) None = Some Valid /\
  updateWindows World runCommand queryWindows fuel
    (expectedCurrentNumMainWindows (this m)) m = Done tt m.
Proof.
  intros Hpos Hshape Hmaster Hexpected.
  pose proof (clean_layout_line_and_validity (windowsData (this m)) d Hpos Hshape Hmaster)
    as Hclean.
  cbv zeta in Hclean. rewrite <- Hexpected in Hclean.
  destruct (this m) as [E0 ws] eqn:Hthis. cbn [expectedCurrentNumMainWindows windowsData] in *.
  destruct Hclean as (Hline & Hvalid & Hvalid').
  split; [exact Hline|]. split; [exact Hvalid|]. split; [exact Hvalid'|].
  apply updateWindows_valid. rewrite Hthis. exact Hvalid.
Qed.

Lemma find_same_id (windows : list WindowObj) (w : WindowObj) :
  In w windows ->
  exists found, find (fun win : WindowObj => id w =? id win) windows = Some found /\
                In found windows.
Proof.
  intros Hin.
  destruct (find (fun win : WindowObj => id w =? id win) windows) as [found|] eqn:Hfind.
  - exists found. split; [reflexivity|]. now apply find_some in Hfind.
  - exfalso. pose proof (find_none _ _ Hfind w Hin) as Hno.
    cbv beta in Hno. rewrite Z.eqb_refl in Hno. discriminate.
Qed.

(** Without a vertically split window [columnizeStackWindows] has nothing
    to toggle. *)
Lemma columnize_nothing_to_do (m : Machine World) :
  windowsData (this m) <> [] ->
  (forall window, In window (windowsData (this m)) -> split window <> vertical) ->
  columnizeStackWindows World runCommand queryWindows m = Done tt m.
Proof.
  intros Hne Hsplit. unfold columnizeStackWindows.
  destruct (getDividingLineXCoordinate_some (this m) Hne) as (d & Hd).
  unfold bind at 1, getsE at 1.
  rewrite (filterE_total _ (fun window : WindowObj => negb (fx window >=? d))).
  2:{ intros a _. unfold isMainWindow. now rewrite Hd. }
  assert (Hloop : forall l, (forall a, In a l -> In a (windowsData (this m))) ->
            forEach World
              (fun stackWindow : WindowObj =>
                 bind World (getsE World (fun this => getUpdatedWindowData this stackWindow))
                   (fun window =>
                      when World (Split_eqb (split window) vertical)
                        (executeYabaiCommand World runCommand queryWindows
                           (ToggleSplit (id window))))) l m
            = Done tt m).
  { induction l as [|a rest IH]; intros Hsub; [reflexivity|].
    cbn [forEach]. unfold bind at 1. unfold bind at 1, getsE at 1.
    unfold getUpdatedWindowData.
    destruct (find_same_id (windowsData (this m)) a (Hsub a (or_introl eq_refl)))
      as (found & -> & Hfound).
    replace (Split_eqb (split found) vertical) with false.
    - cbn [when]. unfold ret at 1. apply IH. intros b Hb. apply Hsub. now right.
    - pose proof (Hsplit found Hfound). destruct (split found); try reflexivity.
      contradiction. }
  apply Hloop. intros a Ha. apply filter_In in Ha. apply Ha.
Qed.

(** X19. The middle-window loop cannot end on a snapshot without a stack.
    When the snapshot holds a middle window, no window is at x = 0, none is
    split vertically, the number of windows is not two and the running
    count has reached the target, one iteration issues no command and
    leaves the machine as it was: the loop runs for ever, whatever the
    external manager. *)
Theorem middleLoop_never_ends_without_stack_X19
    (m : Machine World) (T cur : Z) (middleWindow : WindowObj) (rest : list WindowObj) :
  getMiddleWindows (this m) = Some (middleWindow :: rest) ->
  (forall window, In window (windowsData (this m)) -> fx window <> 0) ->
  (forall window, In window (windowsData (this m)) -> split window <> vertical) ->
  length (windowsData (this m)) <> 2%nat ->
  T <= cur ->
  moveWindowToStack World runCommand queryWindows middleWindow m = Done tt m /\
  forall fuel, middleLoop World runCommand queryWindows fuel T cur m = OutOfFuel m.
Proof.
  intros Hmiddle Hnostack Hsplit Hlen Hcur.
  assert (Hne : windowsData (this m) <> []).
  { intros Hempty. unfold getMiddleWindows in Hmiddle. rewrite Hempty in Hmiddle.
    discriminate. }
  assert (Hmove : moveWindowToStack World runCommand queryWindows middleWindow m
                  = Done tt m).
  { unfold moveWindowToStack, numWindowsIs2. unfold bind at 1, gets at 1.
    replace (length (windowsData (this m)) =? 2)%nat with false
      by (symmetry; now apply Nat.eqb_neq).
    unfold bind at 1. rewrite (columnize_nothing_to_do m Hne Hsplit).
    unfold bind at 1, gets at 1.
    replace (getWidestStackWindow (this m)) with (@None WindowObj); [reflexivity|].
    symmetry. unfold getWidestStackWindow, getStackWindows, isStackWindow.
    replace (filter (fun window : WindowObj => fx window =? 0) (windowsData (this m)))
      with (@nil WindowObj); [reflexivity|].
    symmetry.
    destruct (filter (fun window : WindowObj => fx window =? 0) (windowsData (this m)))
      as [|a l] eqn:Hf; [reflexivity|].
    exfalso.
    assert (Hin : In a (filter (fun window : WindowObj => fx window =? 0)
                               (windowsData (this m)))) by (rewrite Hf; now left).
    apply filter_In in Hin. destruct Hin as (Hin & Hx). apply Z.eqb_eq in Hx.
    exact (Hnostack a Hin Hx). }
  split; [exact Hmove|].
  induction fuel as [|fuel IH].
  - cbn [middleLoop]. unfold bind, getsE. rewrite Hmiddle. reflexivity.
  - cbn [middleLoop]. unfold bind at 1, getsE at 1. rewrite Hmiddle.
    replace (cur <? T) with false by (symmetry; apply Z.ltb_ge; exact Hcur).
    unfold bind at 1. rewrite Hmove. exact IH.
Qed.

End CleanAndStuck.

(** ** The further properties at work on scripted runs *)

Lemma clean_master_stack_layout_is_valid_X6_witness :
  0 < 640 /\
  (forall window, In window (windowsData (this tidyMachine)) ->
                  fx window = 0 \/ fx window = 640) /\
  (exists master, In master (windowsData (this tidyMachine)) /\ fx master = 640 /\
                  forall window, In window (windowsData (this tidyMachine)) ->
                                 fy master <= fy window) /\
  expectedCurrentNumMainWindows (this tidyMachine)
  = Z.of_nat (length (filter (fun window : WindowObj => fx window =? 640)
                             (windowsData (this tidyMachine)))) /\
  getDividingLineXCoordinate (this tidyMachine) = Some 640 /\
  isValidLayout (this tidyMachine)
                (Some (expectedCurrentNumMainWindows (this tidyMachine))) = Some Valid /\
  isValidLayout (this tidyMachine) None = Some Valid /\
  updateWindows Script scriptedRun scriptedQuery 7
    (expectedCurrentNumMainWindows (this tidyMachine)) tidyMachine = Done tt tidyMachine.
Proof.
  assert (Hshape : forall window, In window (windowsData (this tidyMachine)) ->
                                  fx window = 0 \/ fx window = 640).
  { intros window [<-|[<-|[<-|[]]]]; [left | left | right]; reflexivity. }
  assert (Hmaster : exists master,
             In master (windowsData (this tidyMachine)) /\ fx master = 640 /\
             forall window, In window (windowsData (this tidyMachine)) ->
                            fy master <= fy window).
  { exists (mkObj 2 (Examples.window 3 "Editor" 640 0 640 800 vertical)).
    split; [right; right; now left|]. split; [reflexivity|].
    intros window [<-|[<-|[<-|[]]]]; unfold fy; simpl; lia. }
  split; [lia|]. split; [exact Hshape|]. split; [exact Hmaster|].
  split; [reflexivity|].
  exact (clean_master_stack_layout_is_valid_X6 scriptedRun scriptedQuery tidyMachine 640 7
           ltac:(lia) Hshape Hmaster eq_refl).
Defined.

Lemma tooManyLoop_moves_the_excess_and_ends_X11_witness :
  1 <= 2 /\
  2 - 1 <= Z.of_nat (length (sort byYThenX (allocate 0 twoMasters))) /\
  (Z.to_nat (2 - 1) <= 5)%nat /\
  tooManyLoop Script scriptedRun scriptedQuery 5 1
    (sort byYThenX (allocate 0 twoMasters)) 2 twoMastersMachine
  = bind Script
         (forEach Script (moveWindowToStack Script scriptedRun scriptedQuery)
                  (firstn (Z.to_nat (2 - 1)) (rev (sort byYThenX (allocate 0 twoMasters)))))
         (fun _ => ret Script 1) twoMastersMachine /\
  (forall m', tooManyLoop Script scriptedRun scriptedQuery 5 1
                (sort byYThenX (allocate 0 twoMasters)) 2 twoMastersMachine
              <> OutOfFuel m') /\
  (forall count m',
      tooManyLoop Script scriptedRun scriptedQuery 5 1
        (sort byYThenX (allocate 0 twoMasters)) 2 twoMastersMachine = Done count m' ->
      count = 1).
Proof.
  split; [lia|]. split; [simpl; lia|]. split; [simpl; lia|].
  apply (tooManyLoop_moves_the_excess_and_ends_X11 scriptedRun scriptedQuery 1 2
           (sort byYThenX (allocate 0 twoMasters)) 5 twoMastersMachine);
    simpl; lia.
Defined.

Lemma notEnoughLoop_moves_the_missing_and_ends_X12_witness :
  1 <= 2 /\
  2 - 1 <= Z.of_nat (length (getStackWindows (this tidyMachine))) /\
  (Z.to_nat (2 - 1) <= 3)%nat /\
  notEnoughLoop Script scriptedRun scriptedQuery 3 2
    (getStackWindows (this tidyMachine)) 1 tidyMachine
  = bind Script
         (forEach Script (moveWindowToMain Script scriptedRun scriptedQuery)
                  (firstn (Z.to_nat (2 - 1)) (rev (getStackWindows (this tidyMachine)))))
         (fun _ => ret Script tt) tidyMachine /\
  (forall m', notEnoughLoop Script scriptedRun scriptedQuery 3 2
                (getStackWindows (this tidyMachine)) 1 tidyMachine
              <> OutOfFuel m').
Proof.
  split; [lia|]. split; [simpl; lia|]. split; [simpl; lia|].
  apply (notEnoughLoop_moves_the_missing_and_ends_X12 scriptedRun scriptedQuery 2 1
           (getStackWindows (this tidyMachine)) 3 tidyMachine);
    simpl; lia.
Defined.

Lemma snapshot_in_step_or_one_command_behind_X13_witness :
  createWindowsManager Script scriptedQuery 2 [twoMasters; tidy] = Some twoMastersMachine /\
  (wellFormed twoMastersMachine /\ inSync scriptedQuery twoMastersMachine) /\
  updateWindows Script scriptedRun scriptedQuery 5 1 twoMastersMachine
  = Done tt (mkMachine (mkWM 1 (allocate 3 tidy)) [tidy] 6 [Yabai (Warp 2 1)]) /\
  (wellFormed (mkMachine (mkWM 1 (allocate 3 tidy)) [tidy] 6 [Yabai (Warp 2 1)]) /\
   inSync scriptedQuery (mkMachine (mkWM 1 (allocate 3 tidy)) [tidy] 6 [Yabai (Warp 2 1)])) /\
  createWindowsManager Script exhaustibleQuery 2 [] = None /\
  createWindowsManager Script exhaustibleQuery 2 [twoMasters]
  = Some (mkMachine (mkWM 2 (allocate 0 twoMasters)) [twoMasters] 3 []) /\
  updateWindows Script scriptedRun exhaustibleQuery 5 1
    (mkMachine (mkWM 2 (allocate 0 twoMasters)) [twoMasters] 3 [])
  = Thrown QueryFailed
      (mkMachine (mkWM 2 (allocate 0 twoMasters)) ([] : Script) 3 [Yabai (Warp 2 1)]) /\
  (wellFormed (mkMachine (mkWM 2 (allocate 0 twoMasters)) ([] : Script) 3 [Yabai (Warp 2 1)]) /\
   oneCommandBehind scriptedRun exhaustibleQuery
     (mkMachine (mkWM 2 (allocate 0 twoMasters)) ([] : Script) 3 [Yabai (Warp 2 1)])).
Proof.
  pose proof (snapshot_in_step_or_one_command_behind_X13 scriptedRun scriptedQuery
                2 [twoMasters; tidy]) as (_ & Hstart & Hkept).
  pose proof (snapshot_in_step_or_one_command_behind_X13 scriptedRun exhaustibleQuery
                2 [twoMasters]) as (_ & Hstart' & Hkept').
  pose proof (snapshot_in_step_or_one_command_behind_X13 scriptedRun exhaustibleQuery
                2 []) as (Hnone & _ & _).
  destruct (Hstart twoMastersMachine eq_refl) as (Hwf & Hsync & _).
  destruct (Hstart' (mkMachine (mkWM 2 (allocate 0 twoMasters)) [twoMasters] 3 []) eq_refl)
    as (Hwf' & Hsync' & _).
  split; [reflexivity|]. split; [exact (conj Hwf Hsync)|].
  split; [reflexivity|].
  split; [exact (Hkept 5%nat 1 twoMastersMachine (conj Hwf Hsync))|].
  split; [apply Hnone; reflexivity|].
  split; [reflexivity|]. split; [reflexivity|].
  exact (Hkept' 5%nat 1 (mkMachine (mkWM 2 (allocate 0 twoMasters)) [twoMasters] 3 [])
                (conj Hwf' Hsync')).
Defined.

Lemma createStack_after_toggle_warps_all_but_top_left_X14_witness :
  (forall c world, scriptedRun c world <> None) /\
  (forall world, scriptedQuery world <> None) /\
  wellFormed rowsMachine /\
  getTopRightWindow (this rowsMachine)
  = Some (mkObj 0 (Examples.window 1 "Notes" 0 0 1280 400 horizontal)) /\
  split (mkObj 0 (Examples.window 1 "Notes" 0 0 1280 400 horizontal)) = horizontal /\
  scriptedRun (ToggleSplit 1) (yabai rowsMachine) = Some [columns; columns; columns] /\
  getWindowsData Script scriptedQuery [columns; columns; columns] = Some columns /\
  getTopLeftWindow (mkWM 1 (allocate 2 columns))
  = Some (mkObj 3 (Examples.window 2 "Mail" 0 0 640 800 horizontal)) /\
  journal (machineOf (createStack Script scriptedRun scriptedQuery rowsMachine))
  = [EnterCreateStack; Yabai (ToggleSplit 1); Yabai (Warp 1 2)] /\
  ((forall window,
       In window (allocate 2 columns) ->
       sameObject window (mkObj 0 (Examples.window 1 "Notes" 0 0 1280 400 horizontal))
       = false) /\
   exists columnize,
     journal (machineOf (createStack Script scriptedRun scriptedQuery rowsMachine))
     = journal rowsMachine
       ++ [EnterCreateStack; Yabai (ToggleSplit 1)]
       ++ map (fun window : WindowObj => Yabai (Warp (id window) 2))
              (filter (fun window =>
                         negb (sameObject window
                                 (mkObj 3 (Examples.window 2 "Mail" 0 0 640 800 horizontal))))
                      (allocate 2 columns))
       ++ map Yabai columnize).
Proof.
  assert (Htotal : forall c world, scriptedRun c world <> None) by discriminate.
  assert (Hanswers : forall world, scriptedQuery world <> None) by discriminate.
  assert (Hwf : wellFormed rowsMachine)
    by exact (wellFormed_refreshed scriptedQuery 1
                [rows; columns; columns; columns] [rows; columns; columns; columns] 0 []
                rows eq_refl).
  split; [exact Htotal|]. split; [exact Hanswers|]. split; [exact Hwf|].
  split; [reflexivity|]. split; [reflexivity|]. split; [reflexivity|].
  split; [reflexivity|]. split; [reflexivity|]. split; [reflexivity|].
  exact (createStack_after_toggle_warps_all_but_top_left_X14 scriptedRun scriptedQuery
           rowsMachine
           (mkObj 0 (Examples.window 1 "Notes" 0 0 1280 400 horizontal))
           (mkObj 3 (Examples.window 2 "Mail" 0 0 640 800 horizontal))
           [columns; columns; columns] columns
           Htotal Hanswers Hwf eq_refl eq_refl eq_refl eq_refl eq_refl).
Defined.

Lemma updateWindows_returns_only_on_valid_layout_X15_witness :
  updateWindows Script scriptedRun scriptedQuery 5 1 twoMastersMachine
  = Done tt (mkMachine (mkWM 1 (allocate 3 tidy)) [tidy] 6 [Yabai (Warp 2 1)]) /\
  (exists d,
      getDividingLineXCoordinate (mkWM 2 (allocate 3 tidy)) = Some d /\
      1 = Z.of_nat (length (filter (fun window : WindowObj => fx window >=? d)
                                   (allocate 3 tidy))) /\
      (forall window, In window (allocate 3 tidy) -> fx window = 0 \/ fx window >= d)) /\
  (mkMachine (mkWM 1 (allocate 3 tidy)) [tidy] 6 [Yabai (Warp 2 1)] = twoMastersMachine \/
   1 = 1) /\
  ((forall window, In window (allocate 3 tidy) -> 0 <= fx window) ->
   isValidLayout (mkWM 1 (allocate 3 tidy)) (Some 1) = Some Valid /\
   forall fuel',
     updateWindows Script scriptedRun scriptedQuery fuel' 1
       (mkMachine (mkWM 1 (allocate 3 tidy)) [tidy] 6 [Yabai (Warp 2 1)])
     = Done tt (mkMachine (mkWM 1 (allocate 3 tidy)) [tidy] 6 [Yabai (Warp 2 1)])).
Proof.
  split; [reflexivity|].
  exact (updateWindows_returns_only_on_valid_layout_X15 scriptedRun scriptedQuery 5 1
           twoMastersMachine
           (mkMachine (mkWM 1 (allocate 3 tidy)) [tidy] 6 [Yabai (Warp 2 1)])
           eq_refl).
Defined.

Lemma updateWindows_small_snapshot_always_ends_X16_witness :
  (length (windowsData (this loneMachine)) <= 2)%nat /\
  (forall fuel fuel',
      updateWindows Script scriptedRun scriptedQuery fuel 2 loneMachine
      = updateWindows Script scriptedRun scriptedQuery fuel' 2 loneMachine) /\
  (forall fuel m',
      updateWindows Script scriptedRun scriptedQuery fuel 2 loneMachine <> OutOfFuel m') /\
  (forall fuel,
      ~ In EnterCreateStack
           (journal (machineOf
              (updateWindows Script scriptedRun scriptedQuery fuel 2 loneMachine))) ->
      journal (machineOf (updateWindows Script scriptedRun scriptedQuery fuel 2 loneMachine))
      = journal loneMachine).
Proof.
  split; [simpl; lia|].
  apply (updateWindows_small_snapshot_always_ends_X16 scriptedRun scriptedQuery 2 loneMachine).
  simpl. lia.
Defined.

Lemma empty_snapshot_raises_or_is_empty_X17_witness :
  windowsData (this (created 1 [])) = [] /\
  updateWindows Script scriptedRun scriptedQuery 3 1
    (created 1 [])
  = Thrown TypeError (created 1 []) /\
  getMiddleWindows (this (created 1 [])) = Some [].
Proof.
  split; [reflexivity|].
  pose proof (empty_snapshot_raises_or_is_empty_X17 scriptedRun scriptedQuery
                (created 1 []) 3 1 None
                (mkObj 0 (Examples.window 1 "Notes" 0 0 1 1 horizontal)) eq_refl)
    as (_ & (Hupdate & _) & (_ & Hmiddle & _)).
  split; [exact Hupdate | exact Hmiddle].
Defined.

Lemma middleLoop_never_ends_without_stack_X19_witness :
  getMiddleWindows (this (created 1 [padded]))
  = Some [mkObj 0 (Examples.window 1 "Notes" 100 0 100 800 horizontal);
          mkObj 1 (Examples.window 2 "Mail" 200 0 100 800 horizontal)] /\
  (forall window,
      In window (windowsData (this (created 1 [padded]))) ->
      fx window <> 0) /\
  (forall window,
      In window (windowsData (this (created 1 [padded]))) ->
      split window <> vertical) /\
  length (windowsData (this (created 1 [padded])))
  <> 2%nat /\
  1 <= 1 /\
  moveWindowToStack Script scriptedRun scriptedQuery
    (mkObj 0 (Examples.window 1 "Notes" 100 0 100 800 horizontal))
    (created 1 [padded])
  = Done tt (created 1 [padded]) /\
  forall fuel,
    middleLoop Script scriptedRun scriptedQuery fuel 1 1
      (created 1 [padded])
    = OutOfFuel (created 1 [padded]).
Proof.
  assert (Hx : forall window,
             In window (windowsData
                          (this (created 1 [padded]))) ->
             fx window <> 0).
  { intros window [<-|[<-|[<-|[]]]]; discriminate. }
  assert (Hs : forall window,
             In window (windowsData
                          (this (created 1 [padded]))) ->
             split window <> vertical).
  { intros window [<-|[<-|[<-|[]]]]; discriminate. }
  split; [reflexivity|]. split; [exact Hx|]. split; [exact Hs|].
  split; [discriminate|]. split; [lia|].
  exact (middleLoop_never_ends_without_stack_X19 scriptedRun scriptedQuery
           (created 1 [padded]) 1 1
           (mkObj 0 (Examples.window 1 "Notes" 100 0 100 800 horizontal))
           [mkObj 1 (Examples.window 2 "Mail" 200 0 100 800 horizontal)]
           eq_refl Hx Hs ltac:(discriminate) ltac:(lia)).
Defined.
